(** * The rentals investment pipeline (rentals_investment_pipeline.py)

    A shallow embedding of the download / normalise / KPI / analyse
    pipeline, and the properties of its specification.

    Modelling decisions, each local to one definition below:
    - numbers are IEEE-like extended rationals ([Float.t]): finite values
      are exact rationals (binary64 rounding is left out), with the two
      infinities and NaN; there is one zero, taken positive;
    - the pandas operations the script calls are the functions of module
      [pd]; a call whose pandas behaviour depends on duplicated column
      labels or on object-dtype arithmetic yields [Unmodelled], which is
      neither a result nor an exception;
    - the artifact store maps a path to the table [to_csv] serialised; the
      columns read back by the script ([run_date], the three KPI columns)
      survive the CSV round trip cell for cell;
    - the upstream API is a function from the number of requests already
      made and the request to a response: the raw text together with what
      [json.loads] makes of it;
    - the interpreter's recursion limit is the [depth] argument of the two
      acquisition functions. *)

From Stdlib Require Import QArith.
From stdpp Require Import gmap strings list sorting pretty.

Set Warnings "-clear-no-such-hyp".

(** ** Numbers *)

Module Float.

Inductive t := Fin (q : Q) | PInf | NInf | NaN.

Definition of_Z (z : Z) : t := Fin (inject_Z z).

Definition isnan (x : t) : bool :=
  match x with NaN => true | _ => false end.

Definition isfinite (x : t) : bool :=
  match x with Fin _ => true | _ => false end.

Definition is_zero (q : Q) : bool := Qeq_bool q 0.
Definition is_neg (q : Q) : bool := negb (Qle_bool 0 q).

(** [x / y] on float64 operands. *)
Definition div (x y : t) : t :=
  match x, y with
  | NaN, _ | _, NaN => NaN
  | Fin a, Fin b =>
      if is_zero b then
        if is_zero a then NaN else if is_neg a then NInf else PInf
      else Fin (Qred (a / b))
  | Fin _, (PInf | NInf) => Fin 0
  | PInf, Fin b => if is_neg b then NInf else PInf
  | NInf, Fin b => if is_neg b then PInf else NInf
  | (PInf | NInf), (PInf | NInf) => NaN
  end.

(** [(x + y) / 2], the mean of the two middle elements of a median. *)
Definition mean2 (x y : t) : t :=
  match x, y with
  | NaN, _ | _, NaN => NaN
  | Fin a, Fin b => Fin (Qred ((a + b) / 2))
  | PInf, NInf | NInf, PInf => NaN
  | PInf, _ | _, PInf => PInf
  | NInf, _ | _, NInf => NInf
  end.

(** The order numpy sorts by: -inf < finite < inf < nan. *)
Definition leb (x y : t) : bool :=
  match x, y with
  | _, NaN => true
  | NaN, _ => false
  | NInf, _ => true
  | _, NInf => false
  | _, PInf => true
  | PInf, _ => false
  | Fin a, Fin b => Qle_bool a b
  end.

(** [x == y] on floats (false on NaN). *)
Definition eqb (x y : t) : bool :=
  match x, y with
  | Fin a, Fin b => Qeq_bool a b
  | PInf, PInf | NInf, NInf => true
  | _, _ => false
  end.

End Float.

(** ** Python values and exceptions *)

(** What [json.loads] returns, and what a DataFrame cell holds. A missing
    cell is [VNum Float.NaN]. *)
#[warnings="-register-all"]
Inductive value :=
| VNum (x : Float.t)
| VStr (s : string)
| VBool (b : bool)
| VNone
| VDict (fields : list (string * value))
| VList (items : list value).

Inductive exn :=
| KeyError (key : string)
| JSONDecodeError
| TypeError
| ValueError
| IndexError
| RecursionError.

Inductive result (A : Type) :=
| Ok (a : A)
| Raise (e : exn)
| Unmodelled.
Arguments Ok {A} a.
Arguments Raise {A} e.
Arguments Unmodelled {A}.

Global Instance result_ret : MRet result := @Ok.
Global Instance result_bind : MBind result := λ A B f r,
  match r with
  | Ok a => f a
  | Raise e => Raise e
  | Unmodelled => Unmodelled
  end.

(** [d[key]] on a dict. *)
Fixpoint dict_get (key : string) (d : list (string * value)) : option value :=
  match d with
  | [] => None
  | (k, v) :: d' => if String.eqb k key then Some v else dict_get key d'
  end.

(** The cell as a float64, when the column is numeric: [None] and a
    missing cell are NaN. *)
Definition as_float (v : value) : option Float.t :=
  match v with
  | VNum x => Some x
  | VNone => Some Float.NaN
  | _ => None
  end.

(** ** The pandas operations of the script *)

Module pd.

(** Column labels: strings, or the integer positions pandas gives to the
    index of a Series built from a scalar or a list. *)
Inductive label := Name (s : string) | Pos (n : nat).

Global Instance label_eq_dec : EqDecision label.
Proof. solve_decision. Defined.

Definition is_label (l : label) (c : label * list value) : bool :=
  bool_decide (c.1 = l).

Record DataFrame := mkDataFrame {
  len : nat;                               (* number of rows *)
  columns : list (label * list value)      (* in column order *)
}.

Definition nan : value := VNum Float.NaN.

(** *** Construction *)

(** Union of the labels, in order of first appearance. *)
Fixpoint union_labels (seen : list label) (ls : list label) : list label :=
  match ls with
  | [] => seen
  | l :: ls' =>
      if bool_decide (l ∈ seen) then union_labels seen ls'
      else union_labels (seen ++ [l]) ls'
  end.

Fixpoint series_get (l : label) (s : list (label * value)) : value :=
  match s with
  | [] => nan
  | (k, v) :: s' => if bool_decide (k = l) then v else series_get l s'
  end.

(** A table from one Series per row: the columns are the union of the
    indexes, a row without a label gets NaN there. *)
Definition of_rows (rows : list (list (label * value))) : DataFrame :=
  let labels := union_labels [] (concat ((λ r, r.*1) <$> rows)) in
  mkDataFrame (length rows)
              ((λ l, (l, series_get l <$> rows)) <$> labels).

Definition is_dict (v : value) : bool :=
  match v with VDict _ => true | _ => false end.

(** [pd.Series(x)] as its (index, value) pairs. *)
Definition Series (x : value) : list (label * value) :=
  match x with
  | VDict fields => (λ kv, (Name kv.1, kv.2)) <$> fields
  | VList items => imap (λ i v, (Pos i, v)) items
  | VNone => []
  | _ => [(Pos 0, x)]
  end.

(** [pd.DataFrame(data)]. *)
Definition DataFrame_of (data : value) : result DataFrame :=
  match data with
  | VList items =>
      if forallb is_dict items then Ok (of_rows (Series <$> items))
      else Unmodelled
  | VNone => Ok (mkDataFrame 0 [])
  | VDict [] => Ok (mkDataFrame 0 [])
  | VDict _ => Unmodelled
  | VNum _ | VStr _ | VBool _ => Raise ValueError
  end.

(** *** Columns *)

Definition show (l : label) : string :=
  match l with Name s => s | Pos n => pretty n end.

Definition has_label (l : label) (df : DataFrame) : bool :=
  existsb (is_label l) (columns df).

(** [df[l]], for a label that occurs once. *)
Definition getitem (l : label) (df : DataFrame) : result (list value) :=
  match filter (λ c, c.1 = l) (columns df) with
  | [] => Raise (KeyError (show l))
  | [c] => Ok c.2
  | _ => Unmodelled
  end.

(** [df.drop(l, axis=1)]. *)
Definition drop (l : label) (df : DataFrame) : result DataFrame :=
  if has_label l df
  then Ok (mkDataFrame (len df) (filter (λ c, c.1 ≠ l) (columns df)))
  else Raise (KeyError (show l)).

(** [df[l] = col] and [df.loc[:, l] = col]: in place when the label is
    there, a new last column otherwise. *)
Definition setitem (l : label) (col : list value) (df : DataFrame)
  : result DataFrame :=
  match filter (λ c, c.1 = l) (columns df) with
  | [] => Ok (mkDataFrame (len df) (columns df ++ [(l, col)]))
  | [_] => Ok (mkDataFrame (len df)
                 ((λ c, if bool_decide (c.1 = l) then (l, col) else c)
                    <$> columns df))
  | _ => Unmodelled
  end.

(** [s.apply(pd.Series)]. *)
Definition apply_Series (s : list value) : DataFrame :=
  of_rows (Series <$> s).

(** [df.add_prefix(p)]. *)
Definition add_prefix (p : string) (df : DataFrame) : DataFrame :=
  mkDataFrame (len df) ((λ c, (Name (p +:+ show c.1), c.2)) <$> columns df).

(** [pd.concat([a, b], axis=1)] of two tables over the same index. *)
Definition concat (a b : DataFrame) : DataFrame :=
  mkDataFrame (len a) (columns a ++ columns b).

(** *** Arithmetic and statistics *)

Fixpoint floats (s : list value) : option (list Float.t) :=
  match s with
  | [] => Some []
  | v :: s' =>
      match as_float v, floats s' with
      | Some x, Some xs => Some (x :: xs)
      | _, _ => None
      end
  end.

(** [a / b] on two numeric columns over the same index. *)
Definition div (a b : list value) : result (list value) :=
  match floats a, floats b with
  | Some xs, Some ys => Ok (zip_with (λ x y, VNum (Float.div x y)) xs ys)
  | _, _ => Unmodelled
  end.

Fixpoint insert_sorted {A} (le : A → A → bool) (x : A) (l : list A) : list A :=
  match l with
  | [] => [x]
  | y :: l' => if le x y then x :: l else y :: insert_sorted le x l'
  end.

(** The stable ascending sort (numpy sorts up to 16 elements by
    insertion). Elements are inserted from the right, so equal keys keep
    their order. *)
Fixpoint sort {A} (le : A → A → bool) (l : list A) : list A :=
  match l with
  | [] => []
  | x :: l' => insert_sorted le x (sort le l')
  end.

Definition dropna (xs : list Float.t) : list Float.t :=
  filter (λ x, Float.isnan x = false) xs.

(** The median of the values that are not NaN; NaN when there is none. *)
Definition nanmedian (xs : list Float.t) : Float.t :=
  let ys := sort Float.leb (dropna xs) in
  let n := length ys in
  if Nat.even n then
    match ys !! (n / 2 - 1)%nat, ys !! (n / 2)%nat with
    | Some a, Some b => Float.mean2 a b
    | _, _ => Float.NaN
    end
  else default Float.NaN (ys !! (n / 2)%nat).

(** [s.median()]. *)
Definition median (s : list value) : result Float.t :=
  match floats s with
  | Some xs => Ok (nanmedian xs)
  | None => Unmodelled
  end.

(** [pd.Series(d).sort_values(ascending=False)]: the entries that are not
    NaN are reversed, sorted ascending and reversed again; the NaN
    entries follow in their own order. *)
Definition sort_values_desc (s : list (string * Float.t))
  : list (string * Float.t) :=
  let good := filter (λ e, Float.isnan e.2 = false) s in
  let bad := filter (λ e, Float.isnan e.2 = true) s in
  reverse (sort (λ a b, Float.leb a.2 b.2) (reverse good)) ++ bad.

End pd.

(** ** Configuration and the outside world *)

Definition RADIUS : string := "10".
Definition SORT : string := "price_low".
Definition ZIP_CODES : list string :=
  ["55414"; "53711"; "53545"; "53202"; "55806"].

Record request := mkRequest {
  url : string;
  headers : list (string * string);
  params : list (string * string)
}.

(** The response text, and what [json.loads] makes of it ([None] when it
    raises [JSONDecodeError]). *)
Record response := mkResponse {
  text : string;
  json : option value
}.

(** The artifact store, the requests sent so far (latest first), the
    lines printed (latest first) and the paths put (latest first). *)
Record World := mkWorld {
  store : gmap string pd.DataFrame;
  requests : list request;
  stdout : list string;
  puts : list string
}.

Definition print (line : string) (w : World) : World :=
  mkWorld (store w) (requests w) (line :: stdout w) (puts w).

(** [df.to_csv(path)] followed by [co.data.pipeline.put(path, path)]. *)
Definition put (path : string) (df : pd.DataFrame) (w : World) : World :=
  mkWorld (<[path := df]> (store w)) (requests w) (stdout w) (path :: puts w).

(** [run_check != today], where [run_check] is [False] or a cell. *)
Definition differs_from (run_check : value) (today : string) : bool :=
  match run_check with
  | VStr s => negb (String.eqb s today)
  | _ => true
  end.

(** [check_run_today]: [False] when nothing is stored at [path], the
    [run_date] of the first record otherwise. *)
Definition check_run_today (path : string) (st : gmap string pd.DataFrame)
  : result value :=
  match st !! path with
  | Some df =>
      col ← pd.getitem (pd.Name "run_date") df;
      match col !! 0%nat with
      | Some v => Ok v
      | None => Raise IndexError
      end
  | None => Ok (VBool false)
  end.

(** [json.loads(data)['properties']]. *)
Definition loads_properties (data : response) : result value :=
  match json data with
  | None => Raise JSONDecodeError
  | Some (VDict d) =>
      match dict_get "properties" d with
      | Some v => Ok v
      | None => Raise (KeyError "properties")
      end
  | Some _ => Raise TypeError
  end.

(** One round of the loop over [cols_to_expand]. *)
Definition expand (col : string) (df : pd.DataFrame) : result pd.DataFrame :=
  rest ← pd.drop (pd.Name col) df;
  s ← pd.getitem (pd.Name col) df;
  if bool_decide (col ∈ ["address"])
  then Ok (pd.concat rest (pd.apply_Series s))
  else Ok (pd.concat rest (pd.add_prefix (col +:+ "_") (pd.apply_Series s))).

Fixpoint expand_all (cols : list string) (df : pd.DataFrame)
  : result pd.DataFrame :=
  match cols with
  | [] => Ok df
  | col :: cols' => df' ← expand col df; expand_all cols' df'
  end.

Definition kpi (name num den : string) (df : pd.DataFrame)
  : result pd.DataFrame :=
  a ← pd.getitem (pd.Name num) df;
  b ← pd.getitem (pd.Name den) df;
  q ← pd.div a b;
  pd.setitem (pd.Name name) q df.

(** [get_kpis]. *)
Definition get_kpis (df : pd.DataFrame) : result pd.DataFrame :=
  df ← kpi "price_per_sqft" "price" "building_size_size" df;
  df ← kpi "price_per_beds" "price" "beds" df;
  kpi "price_per_bath" "price" "baths" df.

Definition rental_cols_to_expand : list string :=
  ["address"; "lot_size"; "building_size"].
Definition sales_cols_to_expand : list string :=
  ["address"; "building_size"; "lot_size"].

(** The GET request of [_get_rental_data]. *)
Definition rental_request (api_key zip_code : string) : request :=
  mkRequest "https://realtor.p.rapidapi.com/properties/v2/list-for-rent"
    [("x-rapidapi-host", "realtor.p.rapidapi.com");
     ("x-rapidapi-key", api_key)]
    [("postal_code", zip_code); ("SORT", SORT); ("RADIUS", RADIUS);
     ("limit", "200"); ("offset", "0"); ("prop_type", "single_family")].

(** The GET request of [_get_sales_data]. *)
Definition sales_request (api_key zip_code : string) : request :=
  mkRequest "https://realtor.p.rapidapi.com/properties/v2/list-for-sale"
    [("x-rapidapi-host", "realtor.p.rapidapi.com");
     ("x-rapidapi-key", api_key)]
    [("prop_type", "single_family"); ("postal_code", zip_code);
     ("SORT", SORT); ("RADIUS", RADIUS); ("limit", "200"); ("offset", "0")].

(** What the two acquisition functions differ in. *)
Record kind := mkKind {
  request_of : string → string → request;
  empty_msg : string;
  cols_to_expand : list string
}.

Definition rental : kind :=
  mkKind rental_request "No Rentals for: " rental_cols_to_expand.
Definition sale : kind :=
  mkKind sales_request "No properties for sale in: " sales_cols_to_expand.

Section Pipeline.

(** [datetime.now().strftime('%Y-%m-%d')] during the call. *)
Variable today : string.
(** The API: the response to a request, given how many were sent before. *)
Variable upstream : nat → request → response.

Definition get (req : request) (w : World) : response * World :=
  (upstream (length (requests w)) req,
   mkWorld (store w) (req :: requests w) (stdout w) (puts w)).

Definition _get_rental_data (api_key zip_code : string) (w : World)
  : response * World :=
  get (rental_request api_key zip_code) w.

Definition _get_sales_data (api_key zip_code : string) (w : World)
  : response * World :=
  get (sales_request api_key zip_code) w.

(** The statements after the empty check: the loop over
    [cols_to_expand], the [run_date] stamp and the KPIs. *)
Definition table (cols_to_expand : list string) (df : pd.DataFrame)
  : result pd.DataFrame :=
  df ← expand_all cols_to_expand df;
  df ← pd.setitem (pd.Name "run_date") (replicate (pd.len df) (VStr today)) df;
  get_kpis df.

(** [gen_rental_data]; [depth] is the number of frames left. *)
Fixpoint gen_rental_data (depth : nat) (path api_key zip_code : string)
    (w : World) : result unit * World :=
  match depth with
  | O => (Raise RecursionError, w)
  | S depth' =>
      match check_run_today path (store w) with
      | Ok run_check =>
          if differs_from run_check today then
            let '(data, w) := _get_rental_data api_key zip_code w in
            match loads_properties data ≫= pd.DataFrame_of with
            | Raise (KeyError _) | Raise JSONDecodeError =>
                gen_rental_data depth' path api_key zip_code
                  (print ("Error: " +:+ text data) w)
            | Ok df =>
                if (pd.len df =? 0)%nat
                then (Ok (), print ("No Rentals for: " +:+ zip_code) w)
                else
                  match table rental_cols_to_expand df with
                  | Ok df => (Ok (), print "CSV written" (put path df w))
                  | Raise e => (Raise e, w)
                  | Unmodelled => (Unmodelled, w)
                  end
            | Raise e => (Raise e, w)
            | Unmodelled => (Unmodelled, w)
            end
          else (Ok (), print "Data already collected today" w)
      | Raise e => (Raise e, w)
      | Unmodelled => (Unmodelled, w)
      end
  end.

(** [gen_sales_data]. *)
Fixpoint gen_sales_data (depth : nat) (path api_key zip_code : string)
    (w : World) : result unit * World :=
  match depth with
  | O => (Raise RecursionError, w)
  | S depth' =>
      match check_run_today path (store w) with
      | Ok run_check =>
          if differs_from run_check today then
            let '(data, w) := _get_sales_data api_key zip_code w in
            match loads_properties data ≫= pd.DataFrame_of with
            | Raise (KeyError _) | Raise JSONDecodeError =>
                gen_sales_data depth' path api_key zip_code
                  (print ("Error: " +:+ text data) w)
            | Ok df =>
                if (pd.len df =? 0)%nat
                then (Ok (),
                      print ("No properties for sale in: " +:+ zip_code) w)
                else
                  match table sales_cols_to_expand df with
                  | Ok df => (Ok (), print "CSV written" (put path df w))
                  | Raise e => (Raise e, w)
                  | Unmodelled => (Unmodelled, w)
                  end
            | Raise e => (Raise e, w)
            | Unmodelled => (Unmodelled, w)
            end
          else (Ok (), print "Data already collected today" w)
      | Raise e => (Raise e, w)
      | Unmodelled => (Unmodelled, w)
      end
  end.

(** The common shape of [gen_rental_data] and [gen_sales_data]; the
    lemmas [gen_rental_data_acquire] and [gen_sales_data_acquire] show
    that each of them is an instance. *)
Fixpoint acquire (k : kind) (depth : nat) (path api_key zip_code : string)
    (w : World) : result unit * World :=
  match depth with
  | O => (Raise RecursionError, w)
  | S depth' =>
      match check_run_today path (store w) with
      | Ok run_check =>
          if differs_from run_check today then
            let '(data, w) := get (request_of k api_key zip_code) w in
            match loads_properties data ≫= pd.DataFrame_of with
            | Raise (KeyError _) | Raise JSONDecodeError =>
                acquire k depth' path api_key zip_code
                  (print ("Error: " +:+ text data) w)
            | Ok df =>
                if (pd.len df =? 0)%nat
                then (Ok (), print (empty_msg k +:+ zip_code) w)
                else
                  match table (cols_to_expand k) df with
                  | Ok df => (Ok (), print "CSV written" (put path df w))
                  | Raise e => (Raise e, w)
                  | Unmodelled => (Unmodelled, w)
                  end
            | Raise e => (Raise e, w)
            | Unmodelled => (Unmodelled, w)
            end
          else (Ok (), print "Data already collected today" w)
      | Raise e => (Raise e, w)
      | Unmodelled => (Unmodelled, w)
      end
  end.

(** The world after [n] rounds that each fetched a malformed response:
    [n] more requests, [n] more error lines, the store as it was. *)
Fixpoint failed_rounds (req : request) (n : nat) (w : World) : World :=
  match n with
  | O => w
  | S n' =>
      let '(data, w) := get req w in
      failed_rounds req n' (print ("Error: " +:+ text data) w)
  end.

End Pipeline.

(** A response the [try] block of the acquisition rejects: not JSON, or a
    JSON object without the [properties] key. *)
Definition malformed (data : response) : bool :=
  match json data with
  | None => true
  | Some (VDict d) =>
      match dict_get "properties" d with Some _ => false | None => true end
  | Some _ => false
  end.

(** ** Analysis *)

(** What [analyze] prints per zip code. The markdown rendering is left
    out: a table is printed as its rows. *)
Inductive line :=
| NoRentals (zip_code : string)
| NoSales (zip_code : string)
| Counts (rentals sales : nat)
| KpiData (zip_code : string) (rental sales : list (string * Float.t)).

Definition kpi_names : list string :=
  ["price_per_sqft"; "price_per_beds"; "price_per_bath"].

(** [df[names].median(axis=0)]. *)
Fixpoint medians (names : list string) (df : pd.DataFrame)
  : result (list (string * Float.t)) :=
  match names with
  | [] => Ok []
  | n :: names' =>
      col ← pd.getitem (pd.Name n) df;
      m ← pd.median col;
      ms ← medians names' df;
      Ok ((n, m) :: ms)
  end.

(** [d[key] = x] on a dict, which keeps insertion order. *)
Fixpoint dict_set (key : string) (x : Float.t) (d : list (string * Float.t))
  : list (string * Float.t) :=
  match d with
  | [] => [(key, x)]
  | (k, v) :: d' =>
      if String.eqb k key then (k, x) :: d' else (k, v) :: dict_set key x d'
  end.

Definition rental_fname (zip_code : string) : string :=
  "data/rentals_" +:+ zip_code +:+ ".csv".
Definition sales_fname (zip_code : string) : string :=
  "data/sales_" +:+ zip_code +:+ ".csv".

(** [rental_df['price_per_sqft'].median() / sales_df['price_per_sqft'].median()] *)
Definition ratio (rental_df sales_df : pd.DataFrame) : result Float.t :=
  r ← pd.getitem (pd.Name "price_per_sqft") rental_df;
  rm ← pd.median r;
  s ← pd.getitem (pd.Name "price_per_sqft") sales_df;
  sm ← pd.median s;
  Ok (Float.div rm sm).

(** The loop of [analyze] over the zip codes: the dict [d] and the lines
    printed so far (in order). *)
Fixpoint analyze_loop (zips : list string) (st : gmap string pd.DataFrame)
    (d : list (string * Float.t)) (out : list line)
  : result (list (string * Float.t) * list line) :=
  match zips with
  | [] => Ok (d, out)
  | zip_code :: zips' =>
      let out :=
        match st !! rental_fname zip_code with
        | Some _ => out
        | None => out ++ [NoRentals zip_code]
        end in
      let out :=
        match st !! sales_fname zip_code with
        | Some _ => out
        | None => out ++ [NoSales zip_code]
        end in
      match st !! rental_fname zip_code, st !! sales_fname zip_code with
      | Some rental_df, Some sales_df =>
          x ← ratio rental_df sales_df;
          rk ← medians kpi_names rental_df;
          sk ← medians kpi_names sales_df;
          analyze_loop zips' st (dict_set zip_code x d)
            (out ++ [Counts (pd.len rental_df) (pd.len sales_df);
                     KpiData zip_code rk sk])
      | _, _ => analyze_loop zips' st d out
      end
  end.

(** [analyze]: the lines printed per zip code, then the table of zip codes
    sorted by ratio. *)
Definition analyze (st : gmap string pd.DataFrame)
  : result (list line * list (string * Float.t)) :=
  '(d, out) ← analyze_loop ZIP_CODES st [] [];
  Ok (out, pd.sort_values_desc d).

(** ** Predicates of the statements *)

(** Column [l] of [df] holds [v] in row [i]. *)
Definition has_cell (df : pd.DataFrame) (l : pd.label) (i : nat) (v : value)
  : Prop :=
  ∃ c, (l, c) ∈ pd.columns df ∧ c !! i = Some v.

(** [df[name]] is a numeric column with the values [xs]. *)
Definition numeric_column (name : string) (df : pd.DataFrame)
    (xs : list Float.t) : Prop :=
  ∃ col, pd.getitem (pd.Name name) df = Ok col ∧ pd.floats col = Some xs.

(** The name under which sub-field [k] of the nested field [col] is merged. *)
Definition flat_name (col k : string) : string :=
  if bool_decide (col ∈ ["address"]) then k else (col +:+ "_") +:+ k.

(** Row [i] of [df] has an object under [col] whose field [k] is [v]. *)
Definition subfield (df : pd.DataFrame) (col : string) (i : nat)
    (k : string) (v : value) : Prop :=
  ∃ s fields, pd.getitem (pd.Name col) df = Ok s ∧
              s !! i = Some (VDict fields) ∧ dict_get k fields = Some v.

(** The columns [expand] appends for the nested field [col] with cells [s]. *)
Definition expansion (col : string) (s : list value) : pd.DataFrame :=
  if bool_decide (col ∈ ["address"]) then pd.apply_Series s
  else pd.add_prefix (col +:+ "_") (pd.apply_Series s).

(** The column [a / b] of two numeric columns. *)
Definition quotients (xs ys : list Float.t) : list value :=
  zip_with (λ x y, VNum (Float.div x y)) xs ys.

(** The three KPI columns can be read as numbers. *)
Definition kpi_ready (df : pd.DataFrame) : Prop :=
  ∀ n, n ∈ kpi_names → ∃ xs, numeric_column n df xs.

(** A divisor that is zero or missing. *)
Definition zero_or_missing (x : Float.t) : bool :=
  match x with
  | Float.Fin q => Float.is_zero q
  | Float.NaN => true
  | _ => false
  end.

(** [a] may stand before [b] in a table sorted by ratio, largest first,
    with the undefined ratios last. *)
Definition precedes (a b : string * Float.t) : Prop :=
  Float.isnan b.2 = true ∨
  (Float.isnan a.2 = false ∧ Float.leb b.2 a.2 = true).

(** An artifact whose first record has a [run_date]. *)
Definition artifact_ok (df : pd.DataFrame) : Prop :=
  (0 < pd.len df)%nat ∧
  ∃ d, pd.getitem (pd.Name "run_date") df = Ok (replicate (pd.len df) (VStr d)).

Definition store_ok (st : gmap string pd.DataFrame) : Prop :=
  ∀ path df, st !! path = Some df → artifact_ok df.

(** The artifact at [path] is of [today]. *)
Definition fresh (today path : string) (st : gmap string pd.DataFrame) : Prop :=
  ∃ v, check_run_today path st = Ok v ∧ differs_from v today = false.

(** Nothing of [today] is stored at [path]. *)
Definition stale (today path : string) (st : gmap string pd.DataFrame) : Prop :=
  ∃ v, check_run_today path st = Ok v ∧ differs_from v today = true.

(** *** The specification's words, for comparison with the code *)

(** Two malformed responses in a row end the rental acquisition: two
    requests were sent and nothing was written. *)
Definition retry_once (today : string) (upstream : nat → request → response)
    (depth : nat) (path api_key zip_code : string) (w : World) : Prop :=
  let req := rental_request api_key zip_code in
  malformed (upstream (length (requests w)) req) = true →
  malformed (upstream (S (length (requests w))) req) = true →
  let w' := (gen_rental_data today upstream depth path api_key zip_code w).2 in
  length (requests w') = (2 + length (requests w))%nat ∧
  puts w' = puts w ∧ store w' = store w.

(** Two rental acquisitions in a row send one request and put one
    artifact between them. *)
Definition one_fetch_one_write (today : string)
    (upstream : nat → request → response)
    (depth : nat) (path api_key zip_code : string) (w : World) : Prop :=
  let w1 := (gen_rental_data today upstream depth path api_key zip_code w).2 in
  let w2 := (gen_rental_data today upstream depth path api_key zip_code w1).2 in
  length (requests w2) = (1 + length (requests w))%nat ∧
  length (puts w2) = (1 + length (puts w))%nat.

(** The median over only the finite values. *)
Definition median_finite (xs : list Float.t) : Float.t :=
  pd.nanmedian (filter (λ x, Float.isfinite x = true) xs).

(** Equal ratios stand in the natural order of their zip codes. *)
Definition ties_by_zip (t : list (string * Float.t)) : Prop :=
  ∀ i j a b, (i < j)%nat → t !! i = Some a → t !! j = Some b →
    Float.eqb a.2 b.2 = true → String.leb a.1 b.1 = true.

(** The sort of older pandas releases: the ascending argsort, reversed. *)
Definition sort_values_desc_legacy (s : list (string * Float.t))
  : list (string * Float.t) :=
  let good := filter (λ e, Float.isnan e.2 = false) s in
  let bad := filter (λ e, Float.isnan e.2 = true) s in
  reverse (pd.sort (λ a b, Float.leb a.2 b.2) good) ++ bad.

(** ** Sample data *)

Definition num (z : Z) : value := VNum (Float.of_Z z).

(** The listing of the flattening example: it has no [lot_size]. *)
Definition listing_without_lot : value :=
  VDict [("address", VDict [("city", VStr "X")]);
         ("building_size", VDict [("size", num 1200)]);
         ("price", num 240000); ("beds", num 3); ("baths", num 2)].

(** The same listing with a [lot_size] object. *)
Definition listing : value :=
  VDict [("address", VDict [("city", VStr "X")]);
         ("lot_size", VDict [("size", num 5000)]);
         ("building_size", VDict [("size", num 1200)]);
         ("price", num 240000); ("beds", num 3); ("baths", num 2)].

(** A listing with a price, a floor area and a number of bedrooms. *)
Definition listing_of (price size beds : Z) : value :=
  VDict [("address", VDict [("city", VStr "X")]);
         ("lot_size", VDict [("size", num 5000)]);
         ("building_size", VDict [("size", num size)]);
         ("price", num price); ("beds", num beds); ("baths", num 2)].

Definition payload (listings : list value) : response :=
  mkResponse "{properties: ...}" (Some (VDict [("properties", VList listings)])).

Definition bad_gateway : response :=
  mkResponse "<html>502 Bad Gateway</html>" None.

Definition rate_limited : response :=
  mkResponse "{message: too many requests}"
    (Some (VDict [("message", VStr "too many requests")])).

Definition w0 : World := mkWorld ∅ [] [] [].

(** A flat table of two records: the first has no floor area on record
    and no bedroom, the second has a floor area of zero. *)
Definition flat_table : pd.DataFrame :=
  pd.mkDataFrame 2
    [(pd.Name "price", [num 100; num 200]);
     (pd.Name "building_size_size", [VNone; num 0]);
     (pd.Name "beds", [num 0; num 2]);
     (pd.Name "baths", [num 1; num 2])].

(** One record with the three nested fields. *)
Definition nested_table : pd.DataFrame :=
  pd.mkDataFrame 1
    [(pd.Name "address", [VDict [("city", VStr "X")]]);
     (pd.Name "lot_size", [VDict [("size", num 5000)]]);
     (pd.Name "building_size", [VDict [("size", num 1200)]])].

(** Three listings: the first has a floor area of zero. *)
Definition listings_with_zero_area : list value :=
  [listing_of 100 0 3; listing_of 120 120 3; listing_of 240 120 3].

(** An upstream that answers with the responses of [rs] in turn, then
    with [last]. *)
Definition replies (rs : list response) (last : response)
  : nat → request → response :=
  λ n _, default last (rs !! n).

(** The store after rental and sale acquisitions of the same listings for
    every configured zip code. *)
Definition acquire_all (today : string) (rentals sales : list value)
  : World :=
  let w := foldl (λ w z,
    (gen_rental_data today (replies [] (payload rentals)) 1
       (rental_fname z) "key" z w).2) w0 ZIP_CODES in
  foldl (λ w z,
    (gen_sales_data today (replies [] (payload sales)) 1
       (sales_fname z) "key" z w).2) w ZIP_CODES.

(** The store when every configured zip code has the same rental and the
    same property for sale. *)
Definition even_store : gmap string pd.DataFrame :=
  store (acquire_all "2020-06-01"
           [listing_of 2400 1200 3] [listing_of 1200 1200 3]).

(** A store with both datasets for 55414 and only the sale dataset for
    53711. *)
Definition partial_store : gmap string pd.DataFrame :=
  let up := replies [] (payload [listing_of 2400 1200 3]) in
  let w := (gen_rental_data "2020-06-01" up 1 (rental_fname "55414")
              "key" "55414" w0).2 in
  let w := (gen_sales_data "2020-06-01" up 1 (sales_fname "55414")
              "key" "55414" w).2 in
  store (gen_sales_data "2020-06-01" up 1 (sales_fname "53711")
           "key" "53711" w).2.

(** ** The pipeline of [run] *)

(** What a [co.Exec] node runs. *)
Inductive command :=
| GenRentalData (path api_key zip_code : string)
| Pause (seconds : nat)
| GenSalesData (path api_key zip_code : string)
| Analyze.

(** A node of the pipeline: [co.Exec], or [co.Serial] with its named
    children in the order they were assigned. *)
#[warnings="-register-all"]
Inductive node :=
| Exec (c : command)
| Serial (children : list (string * node)).

(** [run]: the download of the rentals of every zip code, the pause, the
    download of the properties for sale, then the analysis. *)
Definition run (api_key : string) : node :=
  Serial
    [("Download",
      Serial
        [("gen_rental_data",
          Serial ((λ zip_code,
                     (zip_code,
                      Exec (GenRentalData ("data/rentals_" +:+ zip_code +:+ ".csv")
                              api_key zip_code))) <$> ZIP_CODES));
         ("Pause", Exec (Pause 5));
         ("gen_sales_data",
          Serial ((λ zip_code,
                     (zip_code,
                      Exec (GenSalesData ("data/sales_" +:+ zip_code +:+ ".csv")
                              api_key zip_code))) <$> ZIP_CODES))]);
     ("Analyze", Exec Analyze)].

(** The commands of a pipeline in the order a [co.Serial] runs them. *)
Fixpoint leaves (n : node) : list command :=
  match n with
  | Exec c => [c]
  | Serial children =>
      (fix go (l : list (string * node)) : list command :=
         match l with
         | [] => []
         | c :: l' => leaves c.2 ++ go l'
         end) children
  end.

Definition is_rental_download (c : command) : Prop :=
  match c with GenRentalData _ _ _ => True | _ => False end.
Definition is_sales_download (c : command) : Prop :=
  match c with GenSalesData _ _ _ => True | _ => False end.

(** ** Further predicates *)

(** [a] is a [k]-th smallest value of [ys], counting from 0: it is one of
    the values, more than [k] of the values are at most [a], and at least
    [length ys - k] of them are at least [a]. The order is that of the
    floats, infinities included. *)
Definition order_statistic (k : nat) (ys : list Float.t) (a : Float.t)
  : Prop :=
  a ∈ ys ∧
  (k < length (filter (λ y, Float.leb y a = true) ys))%nat ∧
  (length ys - k ≤ length (filter (λ y, Float.leb a y = true) ys))%nat.

(** A flat table of three records, the first with a floor area of zero. *)
Definition zero_area_table : pd.DataFrame :=
  pd.mkDataFrame 3
    [(pd.Name "price", [num 100; num 120; num 240]);
     (pd.Name "building_size_size", [num 0; num 120; num 120]);
     (pd.Name "beds", [num 3; num 3; num 3]);
     (pd.Name "baths", [num 2; num 2; num 2])].

(** A store with four ranked zip codes (ratios 1, 2, NaN and 3 in the
    order of [ZIP_CODES]) and one, 53545, that has only its sale
    dataset. *)
Definition mixed_store : gmap string pd.DataFrame :=
  let day := "2020-06-01" in
  let one := replies [] (payload [listing_of 1200 1200 3]) in
  let two := replies [] (payload [listing_of 2400 1200 3]) in
  let three := replies [] (payload [listing_of 3600 1200 3]) in
  let none := replies [] (payload [listing_of 0 0 3]) in
  let w := (gen_rental_data day one 1 (rental_fname "55414") "key" "55414" w0).2 in
  let w := (gen_sales_data day one 1 (sales_fname "55414") "key" "55414" w).2 in
  let w := (gen_rental_data day two 1 (rental_fname "53711") "key" "53711" w).2 in
  let w := (gen_sales_data day one 1 (sales_fname "53711") "key" "53711" w).2 in
  let w := (gen_sales_data day one 1 (sales_fname "53545") "key" "53545" w).2 in
  let w := (gen_rental_data day none 1 (rental_fname "53202") "key" "53202" w).2 in
  let w := (gen_sales_data day one 1 (sales_fname "53202") "key" "53202" w).2 in
  let w := (gen_rental_data day three 1 (rental_fname "55806") "key" "55806" w).2 in
  store (gen_sales_data day one 1 (sales_fname "55806") "key" "55806" w).2.

(** A world whose store was filled by acquisitions only, starting from
    an empty store. *)
Inductive reachable : World → Prop :=
| reachable_start w : store w = ∅ → reachable w
| reachable_rental today upstream depth path api_key zip_code w :
    reachable w →
    reachable (gen_rental_data today upstream depth path api_key zip_code w).2
| reachable_sales today upstream depth path api_key zip_code w :
    reachable w →
    reachable (gen_sales_data today upstream depth path api_key zip_code w).2.

(** Every column has one cell per row. *)
Definition rectangular (df : pd.DataFrame) : Prop :=
  Forall (λ c, length c.2 = pd.len df) (pd.columns df).

(** The labels of the three KPI columns. *)
Definition kpi_labels : list pd.label := pd.Name <$> kpi_names.

(** A store with one artifact that has no [run_date] column. *)
Definition corrupt_world : World :=
  mkWorld {[ "data/rentals_55414.csv" := flat_table ]} [] [] [].

(** [df[name].iloc[i]] is [v]: the one column labelled [name] has [v] in
    row [i]. *)
Definition reads (df : pd.DataFrame) (name : string) (i : nat) (v : value)
  : Prop :=
  ∃ col, pd.getitem (pd.Name name) df = Ok col ∧ col !! i = Some v.

(** Some listing of the payload has the field [c]. *)
Definition some_listing_has (c : string) (items : list value) : Prop :=
  ∃ fields, VDict fields ∈ items ∧ is_Some (dict_get c fields).

(** Some listing of the payload has an [address] object with a sub-field
    [c]. *)
Definition some_address_has (c : string) (items : list value) : Prop :=
  ∃ fields a, VDict fields ∈ items ∧
              dict_get "address" fields = Some (VDict a) ∧
              is_Some (dict_get c a).

(** * Properties *)

(** ** Numbers *)

Section float_facts.

Lemma div_zero_or_missing (x d : Float.t) :
  zero_or_missing d = true → Float.isfinite (Float.div x d) = false.
Proof.
  destruct d as [b| | |]; simpl; try discriminate.
  - intros Hb. destruct x as [a| | |]; simpl; rewrite ?Hb; try done.
    + destruct (Float.is_zero a); [done|]. by destruct (Float.is_neg a).
    + assert (Float.is_neg b = false) as ->; [|done].
      unfold Float.is_neg, Float.is_zero in *.
      apply Qeq_bool_iff in Hb. apply negb_false_iff, Qle_bool_iff.
      rewrite Hb. apply Qle_refl.
    + assert (Float.is_neg b = false) as ->; [|done].
      unfold Float.is_neg, Float.is_zero in *.
      apply Qeq_bool_iff in Hb. apply negb_false_iff, Qle_bool_iff.
      rewrite Hb. apply Qle_refl.
  - intros _. by destruct x.
Qed.

Lemma leb_total (x y : Float.t) : Float.leb x y = true ∨ Float.leb y x = true.
Proof.
  destruct x as [a| | |], y as [b| | |]; simpl; auto.
  destruct (Qlt_le_dec a b) as [H|H].
  - left. apply Qle_bool_iff. by apply Qlt_le_weak.
  - right. by apply Qle_bool_iff.
Qed.

Lemma leb_trans (x y z : Float.t) :
  Float.leb x y = true → Float.leb y z = true → Float.leb x z = true.
Proof.
  destruct x as [a| | |], y as [b| | |], z as [c| | |]; simpl; try done.
  rewrite !Qle_bool_iff. apply Qle_trans.
Qed.

End float_facts.

(** ** Sorting *)

Section sort_facts.
Context {A : Type} (le : A → A → bool).

Lemma insert_sorted_perm (x : A) (l : list A) :
  pd.insert_sorted le x l ≡ₚ x :: l.
Proof.
  induction l as [|y l IH]; simpl; [done|].
  destruct (le x y); [done|]. rewrite IH. apply Permutation_swap.
Qed.

Lemma sort_perm (l : list A) : pd.sort le l ≡ₚ l.
Proof.
  induction l as [|x l IH]; simpl; [done|].
  by rewrite insert_sorted_perm, IH.
Qed.

Hypothesis le_total : ∀ x y, le x y = true ∨ le y x = true.
Hypothesis le_trans : ∀ x y z, le x y = true → le y z = true → le x z = true.

Lemma insert_sorted_sorted (x : A) (l : list A) :
  StronglySorted (λ a b, le a b = true) l →
  StronglySorted (λ a b, le a b = true) (pd.insert_sorted le x l).
Proof.
  induction 1 as [|y l Hl IH Hy]; simpl.
  - repeat constructor.
  - destruct (le x y) eqn:Hxy.
    + constructor; [by constructor|]. constructor; [done|].
      eapply Forall_impl; [exact Hy|]. simpl. eauto.
    + constructor; [done|].
      rewrite insert_sorted_perm. constructor; [|done].
      destruct (le_total x y); congruence.
Qed.

Lemma sort_sorted (l : list A) :
  StronglySorted (λ a b, le a b = true) (pd.sort le l).
Proof.
  induction l as [|x l IH]; simpl; [constructor|].
  by apply insert_sorted_sorted.
Qed.

End sort_facts.

Lemma StronglySorted_rev {A} (R : relation A) (l : list A) :
  StronglySorted R l → StronglySorted (flip R) (reverse l).
Proof.
  induction 1 as [|x l Hl IH Hx]; [constructor|].
  rewrite reverse_cons.
  apply StronglySorted_app_2; [|done|repeat constructor].
  intros a b Ha Hb. apply list_elem_of_singleton in Hb as ->.
  rewrite Forall_forall in Hx. apply Hx. by apply elem_of_reverse.
Qed.

Lemma nan_split (s : list (string * Float.t)) :
  filter (λ e, Float.isnan e.2 = false) s ++
  filter (λ e, Float.isnan e.2 = true) s ≡ₚ s.
Proof.
  induction s as [|e s IH]; [done|].
  rewrite !filter_cons. destruct (Float.isnan e.2) eqn:He.
  - rewrite decide_False, decide_True by done.
    rewrite <- Permutation_middle. by f_equiv.
  - rewrite decide_True, decide_False by done. simpl. by f_equiv.
Qed.

Lemma sort_values_desc_perm (s : list (string * Float.t)) :
  pd.sort_values_desc s ≡ₚ s.
Proof.
  unfold pd.sort_values_desc.
  rewrite <- (nan_split s) at 3. f_equiv.
  by rewrite reverse_Permutation, sort_perm, reverse_Permutation.
Qed.

Lemma sort_values_desc_sorted (s : list (string * Float.t)) :
  StronglySorted precedes (pd.sort_values_desc s).
Proof.
  unfold pd.sort_values_desc.
  set (good := filter (λ e, Float.isnan e.2 = false) s).
  set (bad := filter (λ e, Float.isnan e.2 = true) s).
  set (le := λ a b : string * Float.t, Float.leb a.2 b.2).
  assert (∀ e, e ∈ reverse (pd.sort le (reverse good)) →
            Float.isnan e.2 = false) as Hgood.
  { intros e He. rewrite elem_of_reverse, sort_perm, elem_of_reverse in He.
    by apply list_elem_of_filter in He as [? _]. }
  apply StronglySorted_app_2.
  - intros a b _ Hb. left. by apply list_elem_of_filter in Hb as [? _].
  - assert (StronglySorted (flip (λ a b, le a b = true))
              (reverse (pd.sort le (reverse good)))) as Hs.
    { apply StronglySorted_rev, sort_sorted.
      - intros x y. apply leb_total.
      - intros x y z. apply leb_trans. }
    revert Hgood Hs. generalize (reverse (pd.sort le (reverse good))).
    induction 2 as [|a l Hl IH Ha]; constructor.
    + apply IH. intros e He. apply Hgood. by right.
    + rewrite Forall_forall in Ha |- *. intros b Hb. right. split.
      * apply Hgood. by left.
      * by apply Ha.
  - unfold bad. generalize s as l. induction l as [|e l IH]; [constructor|].
    rewrite filter_cons. destruct (decide _) as [He|]; [|done].
    constructor; [done|]. apply Forall_forall. intros b Hb. left.
    by apply list_elem_of_filter in Hb as [? _].
Qed.

(** ** Columns *)

Section column_facts.
Implicit Types (l : pd.label) (df : pd.DataFrame) (col : list value).

Lemma getitem_inv l df col :
  pd.getitem l df = Ok col →
  filter (λ c, c.1 = l) (pd.columns df) = [(l, col)].
Proof.
  unfold pd.getitem. intros H.
  destruct (filter _ _) as [|[l' c] [|]] eqn:Hf; simplify_eq/=.
  assert ((l', col) ∈ filter (λ c, c.1 = l) (pd.columns df)) as Hin
    by (rewrite Hf; left).
  apply list_elem_of_filter in Hin as [<- _]. done.
Qed.

Lemma filter_replace_same l col (cols : list (pd.label * list value)) :
  filter (λ c, c.1 = l)
    ((λ c, if bool_decide (c.1 = l) then (l, col) else c) <$> cols)
  = (λ _, (l, col)) <$> filter (λ c, c.1 = l) cols.
Proof.
  induction cols as [|[l' c] cols IH]; [done|].
  rewrite fmap_cons, !filter_cons. simpl. case_bool_decide; simpl.
  - rewrite !decide_True by done. by rewrite fmap_cons, IH.
  - by rewrite !decide_False by done.
Qed.

Lemma filter_replace_other l l' col (cols : list (pd.label * list value)) :
  l ≠ l' →
  filter (λ c, c.1 = l)
    ((λ c, if bool_decide (c.1 = l') then (l', col) else c) <$> cols)
  = filter (λ c, c.1 = l) cols.
Proof.
  intros Hne. induction cols as [|[l0 c] cols IH]; [done|].
  rewrite fmap_cons, !filter_cons. simpl. case_bool_decide; simpl.
  - subst l0. by rewrite !decide_False by done.
  - by rewrite IH.
Qed.

Lemma setitem_len l col df df' :
  pd.setitem l col df = Ok df' → pd.len df' = pd.len df.
Proof.
  unfold pd.setitem. intros H.
  by destruct (filter _ _) as [|? [|]]; simplify_eq/=.
Qed.

Lemma setitem_getitem l col df df' :
  pd.setitem l col df = Ok df' → pd.getitem l df' = Ok col.
Proof.
  unfold pd.setitem, pd.getitem. intros H.
  destruct (filter _ _) as [|? [|]] eqn:Hf; simplify_eq/=.
  - rewrite filter_app, Hf, filter_cons, decide_True by done. done.
  - by rewrite filter_replace_same, Hf.
Qed.

Lemma setitem_getitem_ne l l' col df df' :
  pd.setitem l' col df = Ok df' → l ≠ l' →
  pd.getitem l df' = pd.getitem l df.
Proof.
  unfold pd.setitem, pd.getitem. intros H Hne.
  destruct (filter (λ c, c.1 = l') _) as [|? [|]] eqn:Hf; simplify_eq/=.
  - rewrite filter_app, filter_cons, decide_False by (simpl; congruence).
    by rewrite filter_nil, app_nil_r.
  - by rewrite filter_replace_other.
Qed.

Lemma setitem_labels l col df df' :
  pd.setitem l col df = Ok df' →
  (pd.columns df').*1 = (pd.columns df).*1 ∨
  (pd.getitem l df = Raise (KeyError (pd.show l)) ∧
   (pd.columns df').*1 = (pd.columns df).*1 ++ [l]).
Proof.
  unfold pd.setitem, pd.getitem. intros H.
  destruct (filter _ _) as [|? [|]] eqn:Hf; simplify_eq/=.
  - right. by rewrite fmap_app.
  - left. rewrite <- !list_fmap_compose. apply list_fmap_ext.
    intros i [l0 c] _. simpl. by case_bool_decide.
Qed.

(** With labels that are all different, a column is there or not. *)
Lemma filter_label_nodup l (cols : list (pd.label * list value)) :
  NoDup cols.*1 → (length (filter (λ c, c.1 = l) cols) ≤ 1)%nat.
Proof.
  induction cols as [|[l0 c] cols IH]; simpl; [lia|].
  rewrite NoDup_cons. intros [Hnot Hnd]. rewrite filter_cons. simpl.
  destruct (decide (l0 = l)) as [->|]; [|auto].
  assert (filter (λ c, c.1 = l) cols = []) as ->; [|simpl; lia].
  destruct (filter _ cols) as [|[l1 c1] ?] eqn:Hf; [done|].
  assert ((l1, c1) ∈ filter (λ c, c.1 = l) cols) as Hin by (rewrite Hf; left).
  apply list_elem_of_filter in Hin as [? Hin]. simplify_eq/=.
  destruct Hnot. apply list_elem_of_fmap. by exists (l, c1).
Qed.

Lemma setitem_nodup l col df :
  NoDup (pd.columns df).*1 →
  ∃ df', pd.setitem l col df = Ok df' ∧ NoDup (pd.columns df').*1.
Proof.
  intros Hnd. pose proof (filter_label_nodup l _ Hnd) as Hlen.
  destruct (pd.setitem l col df) as [df'| |] eqn:Hs.
  - exists df'. split; [done|].
    destruct (setitem_labels _ _ _ _ Hs) as [->|[Hg ->]]; [done|].
    apply NoDup_app. split_and!; [done| |apply NoDup_singleton].
    intros x Hx ->%list_elem_of_singleton.
    apply list_elem_of_fmap in Hx as [[l' c] [? Hin]]. simplify_eq/=.
    unfold pd.getitem in Hg.
    destruct (filter _ _) as [|? [|]] eqn:Hf; simplify_eq/=.
    eapply (filter_nil_not_elem_of _ _ (l', c)); [exact Hf|done|done].
  - unfold pd.setitem in Hs. by destruct (filter _ _) as [|? [|]].
  - unfold pd.setitem in Hs.
    destruct (filter _ _) as [|? [|]]; simplify_eq/=. lia.
Qed.

End column_facts.

(** ** KPIs *)

Section kpi_facts.
Implicit Types (df : pd.DataFrame) (xs ys : list Float.t).

Lemma floats_quotients xs ys :
  pd.floats (quotients xs ys)
  = Some (zip_with Float.div xs ys).
Proof.
  revert ys. induction xs as [|x xs IH]; intros [|y ys]; try done.
  unfold quotients in *. cbn [zip_with pd.floats as_float]. by rewrite IH.
Qed.

Lemma numeric_column_setitem name l col df df' xs :
  pd.setitem l col df = Ok df' → pd.Name name ≠ l →
  numeric_column name df xs → numeric_column name df' xs.
Proof.
  intros Hs Hne (c & Hc & Hxs). exists c. split; [|done].
  by rewrite (setitem_getitem_ne _ _ _ _ _ Hs).
Qed.

Lemma kpi_Ok name num den df xs ys :
  NoDup (pd.columns df).*1 →
  numeric_column num df xs → numeric_column den df ys →
  ∃ df', kpi name num den df = Ok df' ∧
         NoDup (pd.columns df').*1 ∧
         pd.len df' = pd.len df ∧
         pd.getitem (pd.Name name) df' = Ok (quotients xs ys) ∧
         ∀ l, l ≠ pd.Name name → pd.getitem l df' = pd.getitem l df.
Proof.
  intros Hnd (a & Ha & Hxs) (b & Hb & Hys).
  destruct (setitem_nodup (pd.Name name) (quotients xs ys) df Hnd)
    as (df' & Hs & Hnd').
  exists df'. unfold kpi, pd.div. rewrite Ha, Hb. simpl. rewrite Hxs, Hys.
  simpl. split_and!; try done.
  - by eapply setitem_len.
  - by eapply setitem_getitem.
  - intros l Hl. by eapply setitem_getitem_ne.
Qed.

(** [get_kpis] on a table with the four numeric columns. *)
Lemma get_kpis_Ok df ps ss bs ts :
  NoDup (pd.columns df).*1 →
  numeric_column "price" df ps →
  numeric_column "building_size_size" df ss →
  numeric_column "beds" df bs →
  numeric_column "baths" df ts →
  ∃ df', get_kpis df = Ok df' ∧
         pd.len df' = pd.len df ∧
         pd.getitem (pd.Name "price_per_sqft") df' = Ok (quotients ps ss) ∧
         pd.getitem (pd.Name "price_per_beds") df' = Ok (quotients ps bs) ∧
         pd.getitem (pd.Name "price_per_bath") df' = Ok (quotients ps ts).
Proof.
  intros Hnd Hp Hs Hb Ht. unfold get_kpis.
  destruct (kpi_Ok "price_per_sqft" _ _ _ _ _ Hnd Hp Hs)
    as (df1 & -> & Hnd1 & Hlen1 & Hg1 & Hrest1). simpl.
  assert (∀ n xs, pd.Name n ≠ pd.Name "price_per_sqft" →
            numeric_column n df xs → numeric_column n df1 xs) as Hkeep1.
  { intros n xs Hn (c & Hc & Hxs). exists c. by rewrite Hrest1. }
  destruct (kpi_Ok "price_per_beds" "price" "beds" df1 ps bs Hnd1)
    as (df2 & -> & Hnd2 & Hlen2 & Hg2 & Hrest2); [by apply Hkeep1..|]. simpl.
  assert (∀ n xs, pd.Name n ≠ pd.Name "price_per_sqft" →
            pd.Name n ≠ pd.Name "price_per_beds" →
            numeric_column n df xs → numeric_column n df2 xs) as Hkeep2.
  { intros n xs Hn1 Hn2 (c & Hc & Hxs). exists c.
    by rewrite Hrest2, Hrest1. }
  destruct (kpi_Ok "price_per_bath" "price" "baths" df2 ps ts Hnd2)
    as (df3 & -> & Hnd3 & Hlen3 & Hg3 & Hrest3); [by apply Hkeep2..|].
  exists df3. split_and!; try done.
  - congruence.
  - by rewrite Hrest3, Hrest2.
  - by rewrite Hrest3.
Qed.

Lemma quotients_lookup xs ys i x y :
  xs !! i = Some x → ys !! i = Some y →
  quotients xs ys !! i = Some (VNum (Float.div x y)).
Proof.
  intros Hx Hy. unfold quotients. rewrite lookup_zip_with, Hx. simpl.
  by rewrite Hy.
Qed.

Lemma dropna_nan xs ys :
  pd.dropna (xs ++ Float.NaN :: ys) = pd.dropna (xs ++ ys).
Proof.
  unfold pd.dropna. rewrite !filter_app, filter_cons.
  by rewrite decide_False by done.
Qed.

End kpi_facts.

(** ** Flattening *)

Section flatten_facts.
Implicit Types (l : pd.label) (df : pd.DataFrame) (s : list value).

Lemma filter_none {A} (P : A → Prop) `{!∀ x, Decision (P x)} (xs : list A) :
  (∀ x, x ∈ xs → ¬ P x) → filter P xs = [].
Proof.
  induction xs as [|x xs IH]; [done|]. intros Hxs.
  rewrite filter_cons, decide_False by (apply Hxs; left).
  apply IH. intros y Hy. apply Hxs. by right.
Qed.

Lemma filter_all {A} (P : A → Prop) `{!∀ x, Decision (P x)} (xs : list A) :
  (∀ x, x ∈ xs → P x) → filter P xs = xs.
Proof.
  induction xs as [|x xs IH]; [done|]. intros Hxs.
  rewrite filter_cons, decide_True by (apply Hxs; left).
  f_equal. apply IH. intros y Hy. apply Hxs. by right.
Qed.

Lemma has_label_filter l df :
  pd.has_label l df = true ↔ filter (λ c, c.1 = l) (pd.columns df) ≠ [].
Proof.
  unfold pd.has_label. generalize (pd.columns df) as cols.
  induction cols as [|[l0 c] cols IH]; simpl; [done|].
  rewrite filter_cons. unfold pd.is_label at 1. simpl.
  case_bool_decide; simpl.
  - by rewrite decide_True.
  - by rewrite decide_False.
Qed.

Lemma expand_inv col df df' :
  expand col df = Ok df' →
  ∃ s, pd.getitem (pd.Name col) df = Ok s ∧
       pd.len df' = pd.len df ∧
       pd.columns df' = filter (λ c, c.1 ≠ pd.Name col) (pd.columns df)
                        ++ pd.columns (expansion col s).
Proof.
  unfold expand, pd.drop, expansion. intros H.
  destruct (pd.has_label _ _); simplify_eq/=.
  destruct (pd.getitem _ _) as [s| |]; simplify_eq/=.
  exists s. by case_bool_decide; simplify_eq/=.
Qed.


(** Expanding [col] leaves the columns of another label where they are,
    in front of what it appends. *)
Lemma expand_filter col df df' l :
  expand col df = Ok df' → l ≠ pd.Name col →
  ∃ s, pd.getitem (pd.Name col) df = Ok s ∧
    filter (λ c, c.1 = l) (pd.columns df')
    = filter (λ c, c.1 = l) (pd.columns df)
      ++ filter (λ c, c.1 = l) (pd.columns (expansion col s)).
Proof.
  intros (s & Hs & _ & ->)%expand_inv Hne. exists s. split; [done|].
  rewrite filter_app. f_equal. apply list_filter_filter_l. congruence.
Qed.

Lemma expand_keeps col df df' l i v :
  expand col df = Ok df' → l ≠ pd.Name col →
  has_cell df l i v → has_cell df' l i v.
Proof.
  intros (s & _ & _ & Hc)%expand_inv Hne (c & Hin & Hi).
  exists c. split; [|done]. rewrite Hc. apply elem_of_app. left.
  by apply list_elem_of_filter.
Qed.

Lemma expand_all_keeps cols df df' l i v :
  expand_all cols df = Ok df' → (∀ c, c ∈ cols → l ≠ pd.Name c) →
  has_cell df l i v → has_cell df' l i v.
Proof.
  revert df. induction cols as [|c cols IH]; intros df; simpl.
  - by intros [= <-].
  - destruct (expand c df) as [df1| |] eqn:He; try done. simpl.
    intros Hall Hne Hcell. eapply IH; [done| |].
    + intros c' Hc'. apply Hne. by right.
    + eapply expand_keeps; [done| |done]. apply Hne. by left.
Qed.

Lemma union_labels_elem_of (l : pd.label) seen ls :
  l ∈ pd.union_labels seen ls ↔ l ∈ seen ∨ l ∈ ls.
Proof.
  revert seen. induction ls as [|x ls IH]; intros seen; simpl.
  - set_solver.
  - case_bool_decide; rewrite IH; set_solver.
Qed.

Lemma series_get_dict k fields :
  pd.series_get (pd.Name k) (pd.Series (VDict fields))
  = default pd.nan (dict_get k fields).
Proof.
  simpl. induction fields as [|[k0 v0] fields IH]; [done|].
  rewrite fmap_cons. simpl. destruct (String.eqb_spec k0 k) as [->|Hne].
  - by rewrite bool_decide_true.
  - rewrite bool_decide_false by congruence. done.
Qed.

Lemma dict_get_elem_of k fields v :
  dict_get k fields = Some v → k ∈ fields.*1.
Proof.
  induction fields as [|[k0 v0] fields IH]; simpl; [done|].
  destruct (String.eqb_spec k0 k) as [->|Hne]; [left|right; auto].
Qed.

(** [s.apply(pd.Series)] has the field [k] of the object in row [i] in
    row [i] of the column [k]. *)
Lemma apply_Series_cell s i fields k v :
  s !! i = Some (VDict fields) → dict_get k fields = Some v →
  has_cell (pd.apply_Series s) (pd.Name k) i v.
Proof.
  intros Hi Hk. unfold has_cell, pd.apply_Series, pd.of_rows. simpl.
  exists (pd.series_get (pd.Name k) <$> (pd.Series <$> s)). split.
  - apply list_elem_of_fmap. eexists; split; [done|].
    apply union_labels_elem_of. right.
    apply list_elem_of_In, in_concat.
    exists ((pd.Series (VDict fields)).*1). split; apply list_elem_of_In.
    + apply list_elem_of_fmap_2, list_elem_of_fmap_2.
      by eapply list_elem_of_lookup_2.
    + simpl. rewrite <- list_fmap_compose.
      apply dict_get_elem_of in Hk.
      apply list_elem_of_fmap in Hk as ([k0 v0] & -> & Hin).
      apply list_elem_of_fmap. by exists (k0, v0).
  - rewrite !list_lookup_fmap, Hi. simpl.
    change ((λ kv : string * value, (pd.Name kv.1, kv.2)) <$> fields)
      with (pd.Series (VDict fields)).
    by rewrite series_get_dict, Hk.
Qed.

Lemma expansion_cell col s i fields k v :
  s !! i = Some (VDict fields) → dict_get k fields = Some v →
  has_cell (expansion col s) (pd.Name (flat_name col k)) i v.
Proof.
  intros Hi Hk. destruct (apply_Series_cell s i fields k v Hi Hk)
    as (c & Hin & Hc).
  unfold expansion, flat_name. case_bool_decide; [by exists c|].
  exists c. split; [|done]. simpl.
  apply list_elem_of_fmap. by exists (pd.Name k, c).
Qed.

Lemma expand_cell col df df' s i fields k v :
  expand col df = Ok df' →
  filter (λ c, c.1 = pd.Name col) (pd.columns df) !! 0%nat
    = Some (pd.Name col, s) →
  s !! i = Some (VDict fields) → dict_get k fields = Some v →
  has_cell df' (pd.Name (flat_name col k)) i v.
Proof.
  intros (s' & Hs' & _ & Hc)%expand_inv Hfirst Hi Hk.
  rewrite (getitem_inv _ _ _ Hs') in Hfirst. simplify_eq/=.
  destruct (expansion_cell col s i fields k v Hi Hk) as (c & Hin & Hci).
  exists c. split; [|done]. rewrite Hc. apply elem_of_app. by right.
Qed.

(** The loop over [cols_to_expand] merges every sub-field, unless a
    later round drops it again. *)
Lemma expand_all_cell cols df df' col s i fields k v :
  expand_all cols df = Ok df' → NoDup cols → col ∈ cols →
  filter (λ c, c.1 = pd.Name col) (pd.columns df) !! 0%nat
    = Some (pd.Name col, s) →
  s !! i = Some (VDict fields) → dict_get k fields = Some v →
  flat_name col k ∉ cols →
  has_cell df' (pd.Name (flat_name col k)) i v.
Proof.
  revert df. induction cols as [|c cols IH]; intros df; simpl.
  { intros _ _ []%elem_of_nil. }
  destruct (expand c df) as [df1| |] eqn:He; try done. simpl.
  intros Hall [Hc Hnd]%NoDup_cons [->|Hin]%elem_of_cons Hfirst Hi Hk Hflat.
  - eapply expand_all_keeps; [done| |by eapply expand_cell].
    intros c' Hc' [= Heq]. apply Hflat. rewrite Heq. by right.
  - apply (IH df1); try done.
    + destruct (expand_filter c df df1 (pd.Name col) He) as (s' & _ & ->).
      { intros [= ->]. done. }
      rewrite lookup_app_l; [done|]. by eapply lookup_lt_Some.
    + intros ?. apply Hflat. by right.
Qed.

End flatten_facts.

(** ** The order of the columns *)

Section order_facts.
Implicit Types (l : pd.label) (df a b : pd.DataFrame).





Lemma expansion_labels col s c :
  col ∉ ["address"] → c ∈ pd.columns (expansion col s) →
  ∃ x, c.1 = pd.Name ((col +:+ "_") +:+ x).
Proof.
  intros Hcol. unfold expansion. rewrite bool_decide_false by done. simpl.
  intros ([l0 c0] & -> & _)%list_elem_of_fmap. by eexists.
Qed.


End order_facts.

(** ** Acquisition *)

Section acquire_facts.
Variable today : string.
Variable upstream : nat → request → response.
Implicit Types (k : kind) (w : World) (df : pd.DataFrame).

Lemma gen_rental_data_acquire depth path api_key zip_code w :
  gen_rental_data today upstream depth path api_key zip_code w
  = acquire today upstream rental depth path api_key zip_code w.
Proof.
  revert w. induction depth as [|depth IH]; intros w; [done|].
  simpl. destruct (check_run_today _ _) as [v| |]; try done.
  destruct (differs_from _ _); [|done].
  destruct (_ ≫= _) as [df|[]|]; try done; apply IH.
Qed.

Lemma gen_sales_data_acquire depth path api_key zip_code w :
  gen_sales_data today upstream depth path api_key zip_code w
  = acquire today upstream sale depth path api_key zip_code w.
Proof.
  revert w. induction depth as [|depth IH]; intros w; [done|].
  simpl. destruct (check_run_today _ _) as [v| |]; try done.
  destruct (differs_from _ _); [|done].
  destruct (_ ≫= _) as [df|[]|]; try done; apply IH.
Qed.

Lemma malformed_rejected data :
  malformed data = true →
  loads_properties data ≫= pd.DataFrame_of = Raise JSONDecodeError ∨
  loads_properties data ≫= pd.DataFrame_of = Raise (KeyError "properties").
Proof.
  unfold malformed, loads_properties.
  destruct (json data) as [[| | | |d|]|]; try done; [|by left].
  destruct (dict_get _ _); [done|by right].
Qed.

Lemma well_formed_accepted data :
  malformed data = false →
  match loads_properties data ≫= pd.DataFrame_of with
  | Raise (KeyError _) | Raise JSONDecodeError => False
  | _ => True
  end.
Proof.
  unfold malformed, loads_properties.
  destruct (json data) as [[| | | |d|]|]; try done.
  destruct (dict_get _ _) as [v|]; [|done]. intros _. simpl.
  destruct v as [| | | |[|]|items]; simpl; try done.
  by destruct (forallb _ _).
Qed.

(** The artifact of today is there: nothing is fetched, nothing written. *)
Lemma acquire_fresh k depth path api_key zip_code w :
  fresh today path (store w) →
  acquire today upstream k (S depth) path api_key zip_code w
  = (Ok (), print "Data already collected today" w).
Proof. intros (v & Hv & Hd). simpl. by rewrite Hv, Hd. Qed.

(** A malformed response: the text is printed and the function calls
    itself. *)
Lemma acquire_retry k depth path api_key zip_code w :
  stale today path (store w) →
  malformed (upstream (length (requests w)) (request_of k api_key zip_code))
    = true →
  acquire today upstream k (S depth) path api_key zip_code w
  = acquire today upstream k depth path api_key zip_code
      (failed_rounds upstream (request_of k api_key zip_code) 1 w).
Proof.
  intros (v & Hv & Hd) Hm. simpl. rewrite Hv, Hd. simpl.
  by destruct (malformed_rejected _ Hm) as [-> | ->].
Qed.

Lemma failed_rounds_store req n w :
  store (failed_rounds upstream req n w) = store w.
Proof.
  revert w. induction n as [|n IH]; intros w; [done|]. simpl. by rewrite IH.
Qed.

Lemma failed_rounds_puts req n w :
  puts (failed_rounds upstream req n w) = puts w.
Proof.
  revert w. induction n as [|n IH]; intros w; [done|]. simpl. by rewrite IH.
Qed.

Lemma failed_rounds_requests req n w :
  requests (failed_rounds upstream req n w) = replicate n req ++ requests w.
Proof.
  revert w. induction n as [|n IH]; intros w; [done|]. simpl. rewrite IH.
  simpl. change (req :: requests w) with ([req] ++ requests w).
  rewrite (assoc_L (++)). f_equal.
  clear. induction n as [|n IH]; simpl; [done|]. by rewrite IH.
Qed.

(** As long as the responses are malformed the function keeps calling
    itself: [n] malformed responses in a row cost [n] frames. *)
Lemma acquire_retries k n depth path api_key zip_code w :
  stale today path (store w) →
  (∀ i, (i < n)%nat →
     malformed (upstream (length (requests w) + i)
                  (request_of k api_key zip_code)) = true) →
  acquire today upstream k (n + depth) path api_key zip_code w
  = acquire today upstream k depth path api_key zip_code
      (failed_rounds upstream (request_of k api_key zip_code) n w).
Proof.
  revert w. induction n as [|n IH]; intros w Hst Hm; [done|].
  change (S n + depth)%nat with (S (n + depth)).
  rewrite acquire_retry; [|done|].
  - rewrite IH; [done| |].
    + simpl. done.
    + intros i Hi. simpl.
      replace (S (length (requests w) + i))%nat
        with (length (requests w) + S i)%nat by lia.
      apply Hm. lia.
  - rewrite <- (Nat.add_0_r (length _)). apply Hm. lia.
Qed.

(** A well-formed response without listings: a line is printed, nothing
    is written. *)
Lemma acquire_empty k depth path api_key zip_code w items :
  stale today path (store w) →
  json (upstream (length (requests w)) (request_of k api_key zip_code))
    = Some (VDict items) →
  dict_get "properties" items = Some (VList []) →
  acquire today upstream k (S depth) path api_key zip_code w
  = (Ok (), print (empty_msg k +:+ zip_code)
              (get upstream (request_of k api_key zip_code) w).2).
Proof.
  intros (v & Hv & Hd) Hj Hp. simpl. rewrite Hv, Hd. simpl.
  unfold loads_properties. by rewrite Hj, Hp.
Qed.

End acquire_facts.

(** ** What is written *)

Section write_facts.
Variable today : string.
Variable upstream : nat → request → response.
Implicit Types (k : kind) (w : World) (df : pd.DataFrame).

Lemma expand_all_len cols df df' :
  expand_all cols df = Ok df' → pd.len df' = pd.len df.
Proof.
  revert df. induction cols as [|c cols IH]; intros df; simpl.
  - by intros [= <-].
  - destruct (expand c df) as [df1| |] eqn:He; try done. simpl.
    intros ->%IH. by apply expand_inv in He as (_ & _ & ? & _).
Qed.

Lemma kpi_inv name num den df df' :
  kpi name num den df = Ok df' →
  ∃ q, pd.setitem (pd.Name name) q df = Ok df'.
Proof.
  unfold kpi. intros H.
  destruct (pd.getitem (pd.Name num) df); simplify_eq/=.
  destruct (pd.getitem (pd.Name den) df); simplify_eq/=.
  destruct (pd.div _ _) as [q| |]; simplify_eq/=. by exists q.
Qed.

Lemma get_kpis_inv df df' :
  get_kpis df = Ok df' →
  pd.len df' = pd.len df ∧
  pd.getitem (pd.Name "run_date") df' = pd.getitem (pd.Name "run_date") df.
Proof.
  unfold get_kpis.
  destruct (kpi "price_per_sqft" _ _ df) as [df1| |] eqn:H1; try done.
  simpl.
  destruct (kpi "price_per_beds" _ _ df1) as [df2| |] eqn:H2; try done.
  simpl. intros H3.
  apply kpi_inv in H1 as (q1 & H1), H2 as (q2 & H2), H3 as (q3 & H3).
  split.
  - apply setitem_len in H1, H2, H3. congruence.
  - rewrite (setitem_getitem_ne _ _ _ _ _ H3) by done.
    rewrite (setitem_getitem_ne _ _ _ _ _ H2) by done.
    by rewrite (setitem_getitem_ne _ _ _ _ _ H1).
Qed.

(** Every row of the table carries the date of the day. *)
Lemma table_run_date cols df0 df :
  table today cols df0 = Ok df →
  pd.len df = pd.len df0 ∧
  pd.getitem (pd.Name "run_date") df
  = Ok (replicate (pd.len df) (VStr today)).
Proof.
  unfold table.
  destruct (expand_all cols df0) as [df1| |] eqn:H1; try done. simpl.
  destruct (pd.setitem _ _ df1) as [df2| |] eqn:H2; try done. simpl.
  intros [Hlen Hg]%get_kpis_inv.
  apply expand_all_len in H1. pose proof (setitem_len _ _ _ _ H2) as Hlen2.
  split; [congruence|].
  rewrite Hg, (setitem_getitem _ _ _ _ H2). do 2 f_equal. congruence.
Qed.

Lemma table_artifact_ok cols df0 df :
  table today cols df0 = Ok df → pd.len df0 ≠ 0%nat → artifact_ok df.
Proof.
  intros [Hlen Hg]%table_run_date Hne. split; [lia|]. by exists today.
Qed.

(** A call leaves the store alone, or puts one table with at least one
    row at [path]. *)
Lemma acquire_store k depth path api_key zip_code w :
  let '(r, w') := acquire today upstream k depth path api_key zip_code w in
  (store w' = store w ∧ puts w' = puts w) ∨
  (∃ df0 df, table today (cols_to_expand k) df0 = Ok df ∧
             pd.len df0 ≠ 0%nat ∧ r = Ok () ∧
             store w' = <[path := df]> (store w) ∧
             puts w' = path :: puts w).
Proof.
  revert w. induction depth as [|depth IH]; intros w; simpl; [by left|].
  destruct (check_run_today _ _) as [v| |]; try by left.
  destruct (differs_from _ _); [|by left].
  destruct (_ ≫= _) as [df0|[]|] eqn:Hdf; try by left.
  - destruct (Nat.eqb_spec (pd.len df0) 0); [by left|].
    destruct (table _ _ _) as [df| |] eqn:Ht; try by left.
    right. by exists df0, df.
  - specialize (IH (print ("Error: " +:+
      text (upstream (length (requests w)) (request_of k api_key zip_code)))
      (get upstream (request_of k api_key zip_code) w).2)).
    by destruct (acquire _ _ _ _ _ _ _ _).
  - specialize (IH (print ("Error: " +:+
      text (upstream (length (requests w)) (request_of k api_key zip_code)))
      (get upstream (request_of k api_key zip_code) w).2)).
    by destruct (acquire _ _ _ _ _ _ _ _).
Qed.

(** With a well-formed first response there is one request. *)
Lemma acquire_once k depth path api_key zip_code w :
  stale today path (store w) →
  malformed (upstream (length (requests w)) (request_of k api_key zip_code))
    = false →
  requests (acquire today upstream k (S depth) path api_key zip_code w).2
  = request_of k api_key zip_code :: requests w.
Proof.
  intros (v & Hv & Hd) Hm%well_formed_accepted. simpl. rewrite Hv, Hd.
  simpl in *. destruct (_ ≫= _) as [df0|[]|]; try done.
  destruct (pd.len df0 =? 0)%nat; [done|].
  by destruct (table _ _ _).
Qed.

Lemma check_run_today_written path df st :
  artifact_ok df →
  pd.getitem (pd.Name "run_date") df
    = Ok (replicate (pd.len df) (VStr today)) →
  fresh today path (<[path := df]> st).
Proof.
  intros [Hlen _] Hg. exists (VStr today). unfold check_run_today.
  rewrite lookup_insert_eq, Hg. simpl.
  rewrite lookup_replicate_2 by done. by rewrite String.eqb_refl.
Qed.

Lemma store_ok_insert path df st :
  store_ok st → artifact_ok df → store_ok (<[path := df]> st).
Proof.
  intros Hst Hdf p d. destruct (decide (path = p)) as [->|Hne].
  - rewrite lookup_insert_eq. by intros [= <-].
  - rewrite lookup_insert_ne by done. apply Hst.
Qed.

Lemma check_run_today_ok path st :
  store_ok st → ∃ v, check_run_today path st = Ok v.
Proof.
  intros Hst. unfold check_run_today.
  destruct (st !! path) as [df|] eqn:Hp; [|by eexists].
  destruct (Hst _ _ Hp) as (Hlen & d & ->). simpl.
  rewrite lookup_replicate_2 by done. by eexists.
Qed.

End write_facts.

(** ** Analysis *)

Section analyze_facts.
Implicit Types (st : gmap string pd.DataFrame) (d : list (string * Float.t)).

Lemma dict_set_elem_of key x d z r :
  (z, r) ∈ dict_set key x d → (z = key ∧ r = x) ∨ (z, r) ∈ d.
Proof.
  induction d as [|[k v] d IH]; simpl.
  - intros [= -> ->]%list_elem_of_singleton. by left.
  - destruct (String.eqb_spec k key) as [->|Hne].
    + intros [[= -> ->]|Hin]%elem_of_cons; [by left|]. right. by right.
    + intros [[= -> ->]|Hin]%elem_of_cons; [right; by left|].
      destruct (IH Hin) as [?|?]; [by left|]. right. by right.
Qed.

Lemma dict_set_keys key x d z :
  z ∈ (dict_set key x d).*1 ↔ z = key ∨ z ∈ d.*1.
Proof.
  induction d as [|[k v] d IH]; simpl.
  - set_solver.
  - destruct (String.eqb_spec k key) as [->|Hne]; simpl.
    + set_solver.
    + rewrite !elem_of_cons, IH. naive_solver.
Qed.

Lemma ratio_inv rental_df sales_df r :
  ratio rental_df sales_df = Ok r →
  ∃ rs ss, numeric_column "price_per_sqft" rental_df rs ∧
           numeric_column "price_per_sqft" sales_df ss ∧
           r = Float.div (pd.nanmedian rs) (pd.nanmedian ss).
Proof.
  unfold ratio, pd.median, numeric_column. intros H.
  destruct (pd.getitem _ rental_df) as [rc| |]; simplify_eq/=.
  destruct (pd.floats rc) as [rs|] eqn:Hrs; simplify_eq/=.
  destruct (pd.getitem _ sales_df) as [sc| |]; simplify_eq/=.
  destruct (pd.floats sc) as [ss|] eqn:Hss; simplify_eq/=.
  exists rs, ss. split_and!; [by exists rc|by exists sc|done].
Qed.

Lemma medians_ready names df :
  (∀ n, n ∈ names → ∃ xs, numeric_column n df xs) →
  ∃ ms, medians names df = Ok ms.
Proof.
  induction names as [|n names IH]; intros Hr; simpl; [by eexists|].
  destruct (Hr n) as (xs & col & -> & Hxs); [by left|]. simpl.
  unfold pd.median. rewrite Hxs. simpl.
  destruct IH as [ms ->]; [|by eexists].
  intros m Hm. apply Hr. by right.
Qed.

Lemma ratio_ready rental_df sales_df :
  kpi_ready rental_df → kpi_ready sales_df →
  ∃ r, ratio rental_df sales_df = Ok r.
Proof.
  intros Hr Hs. unfold ratio, pd.median.
  destruct (Hr "price_per_sqft") as (rs & rc & -> & Hrs); [by left|].
  destruct (Hs "price_per_sqft") as (ss & sc & -> & Hss); [by left|].
  simpl. rewrite Hrs. simpl. rewrite Hss. by eexists.
Qed.

Local Arguments medians : simpl never.
Local Arguments ratio : simpl never.

(** The entries of the dict after the loop. *)
Lemma analyze_loop_entries zips st d out d' out' :
  analyze_loop zips st d out = Ok (d', out') →
  ∀ z r, (z, r) ∈ d' →
    (z, r) ∈ d ∨
    (z ∈ zips ∧ ∃ rental_df sales_df,
       st !! rental_fname z = Some rental_df ∧
       st !! sales_fname z = Some sales_df ∧
       ratio rental_df sales_df = Ok r).
Proof.
  revert d out. induction zips as [|zip zips IH]; intros d out; simpl.
  - intros [= <- <-]. by left.
  - intros H z r Hin.
    destruct (st !! rental_fname zip) as [rdf|] eqn:Hr;
      destruct (st !! sales_fname zip) as [sdf|] eqn:Hs.
    + destruct (ratio rdf sdf) as [x| |] eqn:Hx; simplify_eq/=.
      destruct (medians kpi_names rdf); simplify_eq/=.
      destruct (medians kpi_names sdf); simplify_eq/=.
      destruct (IH _ _ H z r Hin) as [Hd|[Hz Hrest]].
      * apply dict_set_elem_of in Hd as [[-> ->]|?]; [|by left].
        right. split; [by left|]. by exists rdf, sdf.
      * right. split; [by right|done].
    + destruct (IH _ _ H z r Hin) as [?|[Hz Hrest]]; [by left|].
      right. split; [by right|done].
    + destruct (IH _ _ H z r Hin) as [?|[Hz Hrest]]; [by left|].
      right. split; [by right|done].
    + destruct (IH _ _ H z r Hin) as [?|[Hz Hrest]]; [by left|].
      right. split; [by right|done].
Qed.

(** The keys of the dict after the loop: a zip code is entered when
    both of its datasets are stored. *)
Lemma analyze_loop_keys zips st d out d' out' :
  analyze_loop zips st d out = Ok (d', out') →
  ∀ z, z ∈ d'.*1 ↔
    z ∈ d.*1 ∨ (z ∈ zips ∧ is_Some (st !! rental_fname z) ∧
                            is_Some (st !! sales_fname z)).
Proof.
  revert d out. induction zips as [|zip zips IH]; intros d out; simpl.
  - intros [= <- <-] z. set_solver.
  - intros H z.
    destruct (st !! rental_fname zip) as [rdf|] eqn:Hr;
      destruct (st !! sales_fname zip) as [sdf|] eqn:Hs.
    + destruct (ratio rdf sdf) as [x| |] eqn:Hx; simplify_eq/=.
      destruct (medians kpi_names rdf); simplify_eq/=.
      destruct (medians kpi_names sdf); simplify_eq/=.
      rewrite (IH _ _ H z), dict_set_keys, elem_of_cons.
      split; [|naive_solver].
      intros [[->|?]|?]; [|naive_solver..].
      right. rewrite Hr, Hs. eauto.
    + rewrite (IH _ _ H z), elem_of_cons. split; [naive_solver|].
      intros [?|[[->|?] [? [? ?]]]]; naive_solver.
    + rewrite (IH _ _ H z), elem_of_cons. split; [naive_solver|].
      intros [?|[[->|?] [[? ?] ?]]]; naive_solver.
    + rewrite (IH _ _ H z), elem_of_cons. split; [naive_solver|].
      intros [?|[[->|?] [[? ?] ?]]]; naive_solver.
Qed.

(** The loop raises nothing when the stored datasets have their KPI
    columns; a missing dataset is no obstacle. *)
Lemma analyze_loop_total zips st d out :
  (∀ z rental_df sales_df, z ∈ zips →
     st !! rental_fname z = Some rental_df →
     st !! sales_fname z = Some sales_df →
     kpi_ready rental_df ∧ kpi_ready sales_df) →
  ∃ d' out', analyze_loop zips st d out = Ok (d', out').
Proof.
  revert d out. induction zips as [|zip zips IH]; intros d out Hready; simpl.
  - by eexists _, _.
  - assert (∀ z rdf sdf, z ∈ zips →
              st !! rental_fname z = Some rdf →
              st !! sales_fname z = Some sdf →
              kpi_ready rdf ∧ kpi_ready sdf) as Hrest.
    { intros z ?? Hz. apply Hready. by right. }
    destruct (st !! rental_fname zip) as [rdf|] eqn:Hr;
      destruct (st !! sales_fname zip) as [sdf|] eqn:Hs; try by apply IH.
    destruct (Hready zip rdf sdf) as [Hkr Hks]; [by left|done|done|].
    destruct (ratio_ready _ _ Hkr Hks) as [x ->]. simpl.
    destruct (medians_ready kpi_names rdf Hkr) as [rk ->]. simpl.
    destruct (medians_ready kpi_names sdf Hks) as [sk ->]. simpl.
    by apply IH.
Qed.

Lemma analyze_loop_out zips st d out d' out' :
  analyze_loop zips st d out = Ok (d', out') →
  (∀ x, x ∈ out → x ∈ out') ∧
  (∀ z, z ∈ zips → st !! rental_fname z = None → NoRentals z ∈ out') ∧
  (∀ z, z ∈ zips → st !! sales_fname z = None → NoSales z ∈ out').
Proof.
  revert d out. induction zips as [|zip zips IH]; intros d out; simpl.
  - intros [= <- <-]. set_solver.
  - intros H.
    destruct (st !! rental_fname zip) as [rdf|] eqn:Hr;
      destruct (st !! sales_fname zip) as [sdf|] eqn:Hs.
    + destruct (ratio rdf sdf) as [x| |] eqn:Hx; simplify_eq/=.
      destruct (medians kpi_names rdf); simplify_eq/=.
      destruct (medians kpi_names sdf); simplify_eq/=.
      destruct (IH _ _ H) as (Hmono & Hnr & Hns). split_and!.
      * intros x0 Hx0. apply Hmono, elem_of_app. by left.
      * intros z [->|Hz]%elem_of_cons Hz'; [congruence|by apply Hnr].
      * intros z [->|Hz]%elem_of_cons Hz'; [congruence|by apply Hns].
    + destruct (IH _ _ H) as (Hmono & Hnr & Hns). split_and!.
      * intros x0 Hx0. apply Hmono, elem_of_app. by left.
      * intros z [->|Hz]%elem_of_cons Hz'; [congruence|by apply Hnr].
      * intros z [->|Hz]%elem_of_cons Hz'; [|by apply Hns].
        apply Hmono. set_solver.
    + destruct (IH _ _ H) as (Hmono & Hnr & Hns). split_and!.
      * intros x0 Hx0. apply Hmono, elem_of_app. by left.
      * intros z [->|Hz]%elem_of_cons Hz'; [|by apply Hnr].
        apply Hmono. set_solver.
      * intros z [->|Hz]%elem_of_cons Hz'; [congruence|by apply Hns].
    + destruct (IH _ _ H) as (Hmono & Hnr & Hns). split_and!.
      * intros x0 Hx0. apply Hmono. set_solver.
      * intros z [->|Hz]%elem_of_cons Hz'; [|by apply Hnr].
        apply Hmono. set_solver.
      * intros z [->|Hz]%elem_of_cons Hz'; [|by apply Hns].
        apply Hmono. set_solver.
Qed.

(** The lines printed for a zip code that has both datasets. *)
Lemma analyze_loop_summaries zips st d out d' out' :
  analyze_loop zips st d out = Ok (d', out') →
  ∀ z rental_df sales_df, z ∈ zips →
    st !! rental_fname z = Some rental_df →
    st !! sales_fname z = Some sales_df →
    ∃ rk sk, medians kpi_names rental_df = Ok rk ∧
             medians kpi_names sales_df = Ok sk ∧
             Counts (pd.len rental_df) (pd.len sales_df) ∈ out' ∧
             KpiData z rk sk ∈ out'.
Proof.
  revert d out. induction zips as [|zip zips IH]; intros d out; simpl.
  { intros _ z ?? []%elem_of_nil. }
  intros H z rdf sdf Hz Hr Hs.
  destruct (st !! rental_fname zip) as [rdf0|] eqn:Hr0;
    destruct (st !! sales_fname zip) as [sdf0|] eqn:Hs0.
  - destruct (ratio rdf0 sdf0) as [x| |]; try done.
    cbn [mbind result_bind] in H.
    destruct (medians kpi_names rdf0) as [rk| |] eqn:Hrk; try done.
    cbn [mbind result_bind] in H.
    destruct (medians kpi_names sdf0) as [sk| |] eqn:Hsk; try done.
    cbn [mbind result_bind] in H.
    apply elem_of_cons in Hz as [->|Hz]; [|by eapply IH].
    rewrite Hr0 in Hr. rewrite Hs0 in Hs. injection Hr as <-.
    injection Hs as <-. exists rk, sk.
    destruct (analyze_loop_out _ _ _ _ _ _ H) as (Hmono & _ & _).
    split_and!; [done|done| |]; apply Hmono; set_solver.
  - apply elem_of_cons in Hz as [->|Hz]; [congruence|by eapply IH].
  - apply elem_of_cons in Hz as [->|Hz]; [congruence|by eapply IH].
  - apply elem_of_cons in Hz as [->|Hz]; [congruence|by eapply IH].
Qed.

End analyze_facts.

(** * The claims *)

Section acquisition_claims.
Variable today : string.
Variable upstream : nat → request → response.

Lemma failed_rounds_lines req n w :
  stdout (failed_rounds upstream req n w)
  = reverse ((λ i, "Error: " +:+ text (upstream (length (requests w) + i) req))
               <$> seq 0 n) ++ stdout w.
Proof.
  revert w. induction n as [|n IH]; intros w; [done|].
  cbn [failed_rounds get]. rewrite IH.
  cbn [stdout print requests length seq].
  rewrite <- fmap_S_seq, fmap_cons, <- list_fmap_compose.
  rewrite reverse_cons, Nat.add_0_r, <- (assoc_L (++)). simpl.
  do 2 f_equal. apply list_fmap_ext. intros i j _. simpl.
  do 3 f_equal. lia.
Qed.

Lemma second_call k d1 d2 path api_key zip_code w :
  stale today path (store w) →
  malformed (upstream (length (requests w)) (request_of k api_key zip_code))
    = false →
  let w1 := (acquire today upstream k (S d1) path api_key zip_code w).2 in
  puts w1 = path :: puts w →
  acquire today upstream k (S d2) path api_key zip_code w1
    = (Ok (), print "Data already collected today" w1) ∧
  requests w1 = request_of k api_key zip_code :: requests w.
Proof.
  intros Hst Hm w1 Hput. split; [|by apply acquire_once].
  apply acquire_fresh.
  pose proof (acquire_store today upstream k (S d1) path api_key zip_code w)
    as Hw. fold w1 in Hput. subst w1.
  destruct (acquire _ _ _ _ _ _ _ _) as [r w1]. simpl in *.
  destruct Hw as [[_ Hp]|(df0 & df & Ht & Hlen & _ & -> & _)].
  - rewrite Hput in Hp. apply (f_equal length) in Hp. simpl in Hp. lia.
  - pose proof (table_run_date _ _ _ _ Ht) as [_ Hg].
    apply check_run_today_written; [|done].
    by eapply table_artifact_ok.
Qed.

End acquisition_claims.

(** C1 (counterexample). Two malformed responses, then a well-formed one
    with a listing: [gen_rental_data] sends three requests and writes the
    artifact, where the claim has it stop after the second response with
    nothing written. *)
Lemma retry_once_counterexample :
  ¬ retry_once "2020-06-01"
      (replies [bad_gateway; rate_limited] (payload [listing]))
      1000 "data/rentals_55414.csv" "key" "55414" w0.
Proof.
  unfold retry_once. intros H.
  destruct H as (Hreq & _); [reflexivity..|].
  vm_compute in Hreq. discriminate Hreq.
Qed.

(** C1 (amended). A response that is not JSON, or a JSON object without
    the [properties] key, makes the acquisition print the raw text and
    call itself again, and this is repeated for every further malformed
    response: after [n] malformed responses in a row the call continues as
    a fresh call would in a world with [n] more requests and [n] more
    error lines, in which nothing was written and the store is as it was.
    The retries are bounded by the recursion limit only. *)
Theorem malformed_response_retries
    (today : string) (upstream : nat → request → response)
    (n depth : nat) (path api_key zip_code : string) (w : World) :
  stale today path (store w) →
  ((∀ i, (i < n)%nat →
      malformed (upstream (length (requests w) + i)
                   (rental_request api_key zip_code)) = true) →
   let w' := failed_rounds upstream (rental_request api_key zip_code) n w in
   gen_rental_data today upstream (n + depth) path api_key zip_code w
   = gen_rental_data today upstream depth path api_key zip_code w' ∧
   store w' = store w ∧ puts w' = puts w ∧
   requests w' = replicate n (rental_request api_key zip_code) ++ requests w ∧
   stdout w' = reverse ((λ i, "Error: " +:+
                  text (upstream (length (requests w) + i)
                          (rental_request api_key zip_code))) <$> seq 0 n)
               ++ stdout w) ∧
  ((∀ i, (i < n)%nat →
      malformed (upstream (length (requests w) + i)
                   (sales_request api_key zip_code)) = true) →
   let w' := failed_rounds upstream (sales_request api_key zip_code) n w in
   gen_sales_data today upstream (n + depth) path api_key zip_code w
   = gen_sales_data today upstream depth path api_key zip_code w' ∧
   store w' = store w ∧ puts w' = puts w ∧
   requests w' = replicate n (sales_request api_key zip_code) ++ requests w ∧
   stdout w' = reverse ((λ i, "Error: " +:+
                  text (upstream (length (requests w) + i)
                          (sales_request api_key zip_code))) <$> seq 0 n)
               ++ stdout w).
Proof.
  intros Hst. split; intros Hm w'; subst w'.
  - rewrite !gen_rental_data_acquire.
    rewrite (acquire_retries today upstream rental n) by done.
    split_and!; [done|..].
    + apply failed_rounds_store.
    + apply failed_rounds_puts.
    + apply failed_rounds_requests.
    + apply failed_rounds_lines.
  - rewrite !gen_sales_data_acquire.
    rewrite (acquire_retries today upstream sale n) by done.
    split_and!; [done|..].
    + apply failed_rounds_store.
    + apply failed_rounds_puts.
    + apply failed_rounds_requests.
    + apply failed_rounds_lines.
Qed.

Lemma malformed_response_retries_witness :
  let up := replies [bad_gateway; rate_limited] (payload [listing]) in
  let w' := failed_rounds up (rental_request "key" "55414") 2 w0 in
  gen_rental_data "2020-06-01" up (2 + 1) "data/rentals_55414.csv" "key" "55414" w0
  = gen_rental_data "2020-06-01" up 1 "data/rentals_55414.csv" "key" "55414" w'
  ∧ store w' = store w0 ∧ puts w' = puts w0.
Proof.
  intros up w'.
  assert (stale "2020-06-01" "data/rentals_55414.csv" (store w0)) as Hst.
  { exists (VBool false). split; reflexivity. }
  destruct (malformed_response_retries "2020-06-01" up 2 1
              "data/rentals_55414.csv" "key" "55414" w0 Hst) as [Hr _].
  destruct Hr as (H1 & H2 & H3 & _).
  - intros [|[|i]] Hi; [reflexivity..|lia].
  - split_and!; [exact H1|exact H2|exact H3].
Defined.

(** C2 (counterexample). Two calls on the same day for a zip code
    without rentals: the first call fetches an empty list and writes
    nothing, so the second call fetches again. Two requests were sent and
    no artifact was put. *)
Lemma one_fetch_one_write_counterexample :
  ¬ one_fetch_one_write "2020-06-01" (replies [] (payload [])) 1000
      "data/rentals_55414.csv" "key" "55414" w0.
Proof.
  unfold one_fetch_one_write. intros [Hreq _].
  vm_compute in Hreq. discriminate Hreq.
Qed.

(** C2 (amended). When the artifact at the path is there and the
    [run_date] of its first record is today's date, [gen_rental_data] and
    [gen_sales_data] return at once: no request is sent, nothing is put,
    the store is unchanged. Consequently, after a first call that fetched
    a well-formed response and wrote the artifact, a second call on the
    same day adds nothing: the two calls together sent one request and
    put one artifact. *)
Theorem acquire_idempotent_per_day
    (today : string) (upstream : nat → request → response)
    (d1 d2 : nat) (path api_key zip_code : string) (w : World) :
  (fresh today path (store w) →
   gen_rental_data today upstream (S d1) path api_key zip_code w
     = (Ok (), print "Data already collected today" w) ∧
   gen_sales_data today upstream (S d1) path api_key zip_code w
     = (Ok (), print "Data already collected today" w)) ∧
  (stale today path (store w) →
   malformed (upstream (length (requests w))
                (rental_request api_key zip_code)) = false →
   let w1 := (gen_rental_data today upstream (S d1) path api_key zip_code w).2 in
   puts w1 = path :: puts w →
   let '(r2, w2) := gen_rental_data today upstream (S d2) path api_key zip_code w1 in
   r2 = Ok () ∧ store w2 = store w1 ∧
   requests w2 = rental_request api_key zip_code :: requests w ∧
   puts w2 = path :: puts w) ∧
  (stale today path (store w) →
   malformed (upstream (length (requests w))
                (sales_request api_key zip_code)) = false →
   let w1 := (gen_sales_data today upstream (S d1) path api_key zip_code w).2 in
   puts w1 = path :: puts w →
   let '(r2, w2) := gen_sales_data today upstream (S d2) path api_key zip_code w1 in
   r2 = Ok () ∧ store w2 = store w1 ∧
   requests w2 = sales_request api_key zip_code :: requests w ∧
   puts w2 = path :: puts w).
Proof.
  split_and!.
  - intros Hf. rewrite gen_rental_data_acquire, gen_sales_data_acquire.
    split; by apply acquire_fresh.
  - intros Hst Hm w1. subst w1. rewrite !gen_rental_data_acquire. intros Hput.
    destruct (second_call today upstream rental d1 d2 path api_key zip_code w
                Hst Hm Hput) as [-> Hreq].
    cbv beta iota. split_and!; [reflexivity|reflexivity|exact Hreq|exact Hput].
  - intros Hst Hm w1. subst w1. rewrite !gen_sales_data_acquire. intros Hput.
    destruct (second_call today upstream sale d1 d2 path api_key zip_code w
                Hst Hm Hput) as [-> Hreq].
    cbv beta iota. split_and!; [reflexivity|reflexivity|exact Hreq|exact Hput].
Qed.

Lemma acquire_idempotent_per_day_witness :
  let up := replies [] (payload [listing]) in
  let path := "data/rentals_55414.csv" in
  let w1 := (gen_rental_data "2020-06-01" up 1 path "key" "55414" w0).2 in
  let '(r2, w2) := gen_rental_data "2020-06-01" up 1 path "key" "55414" w1 in
  fresh "2020-06-01" path (store w1) ∧
  r2 = Ok () ∧ store w2 = store w1 ∧
  requests w2 = [rental_request "key" "55414"] ∧ puts w2 = [path].
Proof.
  intros up path w1.
  pose proof (acquire_idempotent_per_day "2020-06-01" up 0 0 path
                "key" "55414" w0) as (_ & H & _).
  assert (stale "2020-06-01" path (store w0)) as Hst.
  { exists (VBool false). split; reflexivity. }
  specialize (H Hst eq_refl eq_refl). fold w1 in H.
  destruct (gen_rental_data "2020-06-01" up 1 path "key" "55414" w1) as [r2 w2].
  split; [|exact H].
  exists (VStr "2020-06-01"). split; reflexivity.
Defined.

(** C7. A payload that parses and whose [properties] list is empty:
    [gen_rental_data] and [gen_sales_data] print their informational line
    and return without an error; nothing is put and the store is
    unchanged. *)
Theorem empty_result_is_skipped
    (today : string) (upstream : nat → request → response)
    (depth : nat) (path api_key zip_code : string) (w : World) :
  stale today path (store w) →
  (∀ items,
     json (upstream (length (requests w)) (rental_request api_key zip_code))
       = Some (VDict items) →
     dict_get "properties" items = Some (VList []) →
     let '(r, w') :=
       gen_rental_data today upstream (S depth) path api_key zip_code w in
     r = Ok () ∧ store w' = store w ∧ puts w' = puts w ∧
     stdout w' = ("No Rentals for: " +:+ zip_code) :: stdout w) ∧
  (∀ items,
     json (upstream (length (requests w)) (sales_request api_key zip_code))
       = Some (VDict items) →
     dict_get "properties" items = Some (VList []) →
     let '(r, w') :=
       gen_sales_data today upstream (S depth) path api_key zip_code w in
     r = Ok () ∧ store w' = store w ∧ puts w' = puts w ∧
     stdout w' = ("No properties for sale in: " +:+ zip_code) :: stdout w).
Proof.
  intros Hst. split; intros items Hj Hp.
  - rewrite gen_rental_data_acquire.
    by rewrite (acquire_empty today upstream rental _ _ _ _ _ items).
  - rewrite gen_sales_data_acquire.
    by rewrite (acquire_empty today upstream sale _ _ _ _ _ items).
Qed.

Lemma empty_result_is_skipped_witness :
  let '(r, w') :=
    gen_rental_data "2020-06-01" (replies [] (payload [])) 1
      "data/rentals_55414.csv" "key" "55414" w0 in
  r = Ok () ∧ store w' = store w0 ∧ puts w' = puts w0 ∧
  stdout w' = ["No Rentals for: 55414"].
Proof.
  assert (stale "2020-06-01" "data/rentals_55414.csv" (store w0)) as Hst.
  { exists (VBool false). split; reflexivity. }
  destruct (empty_result_is_skipped "2020-06-01" (replies [] (payload [])) 0
              "data/rentals_55414.csv" "key" "55414" w0 Hst) as [H _].
  exact (H [("properties", VList [])] eq_refl eq_refl).
Defined.

(** C10. Every artifact an acquisition puts has at least one record and
    a [run_date] column (the empty-result branch returns before the put).
    So, in a store whose artifacts were all written by acquisitions,
    [check_run_today] never fails: the first row is there and so is the
    column. The invariant holds in the empty store and is kept by
    [gen_rental_data] and [gen_sales_data]. *)
Theorem written_artifacts_have_run_date
    (today : string) (upstream : nat → request → response)
    (depth : nat) (path api_key zip_code : string) (w : World) :
  store_ok ∅ ∧
  (store_ok (store w) →
   (∀ p, ∃ v, check_run_today p (store w) = Ok v) ∧
   store_ok (store (gen_rental_data today upstream depth path api_key
                      zip_code w).2) ∧
   store_ok (store (gen_sales_data today upstream depth path api_key
                      zip_code w).2)).
Proof.
  split; [by intros p df|]. intros Hok. split_and!.
  - intros p. by apply check_run_today_ok.
  - rewrite gen_rental_data_acquire.
    pose proof (acquire_store today upstream rental depth path api_key
                  zip_code w) as Hw.
    destruct (acquire _ _ _ _ _ _ _ _) as [r w']. simpl.
    destruct Hw as [[-> _]|(df0 & df & Ht & Hlen & _ & -> & _)]; [done|].
    apply store_ok_insert; [done|]. by eapply table_artifact_ok.
  - rewrite gen_sales_data_acquire.
    pose proof (acquire_store today upstream sale depth path api_key
                  zip_code w) as Hw.
    destruct (acquire _ _ _ _ _ _ _ _) as [r w']. simpl.
    destruct Hw as [[-> _]|(df0 & df & Ht & Hlen & _ & -> & _)]; [done|].
    apply store_ok_insert; [done|]. by eapply table_artifact_ok.
Qed.

Lemma written_artifacts_have_run_date_witness :
  let w1 := (gen_rental_data "2020-06-01" (replies [] (payload [listing])) 1
               "data/rentals_55414.csv" "key" "55414" w0).2 in
  puts w1 = ["data/rentals_55414.csv"] ∧
  store_ok (store w1) ∧
  check_run_today "data/rentals_55414.csv" (store w1) = Ok (VStr "2020-06-01").
Proof.
  intros w1.
  destruct (written_artifacts_have_run_date "2020-06-01"
              (replies [] (payload [listing])) 1
              "data/rentals_55414.csv" "key" "55414" w0) as [H0 H].
  destruct (H H0) as (_ & Hr & _).
  split_and!; [reflexivity|exact Hr|reflexivity].
Defined.

(** C6. [get_kpis] is total on a flat table with numeric [price],
    [building_size_size], [beds] and [baths] columns: it returns a table
    with the three KPI columns, each cell being the quotient of the
    record's price and divisor; where the divisor is zero or missing the
    quotient is not finite, and nothing is raised. *)
Theorem get_kpis_total (df : pd.DataFrame) (ps ss bs ts : list Float.t) :
  NoDup (pd.columns df).*1 →
  numeric_column "price" df ps →
  numeric_column "building_size_size" df ss →
  numeric_column "beds" df bs →
  numeric_column "baths" df ts →
  ∃ df', get_kpis df = Ok df' ∧
    ∀ name ds,
      (name, ds) ∈ [("price_per_sqft", ss); ("price_per_beds", bs);
                    ("price_per_bath", ts)] →
      ∃ col, pd.getitem (pd.Name name) df' = Ok col ∧
        ∀ i p d, ps !! i = Some p → ds !! i = Some d →
          col !! i = Some (VNum (Float.div p d)) ∧
          (zero_or_missing d = true →
           Float.isfinite (Float.div p d) = false).
Proof.
  intros Hnd Hp Hs Hb Ht.
  destruct (get_kpis_Ok df ps ss bs ts Hnd Hp Hs Hb Ht)
    as (df' & Hk & _ & H1 & H2 & H3).
  exists df'. split; [done|]. intros name ds Hin.
  assert (pd.getitem (pd.Name name) df' = Ok (quotients ps ds)) as Hg.
  { repeat (apply elem_of_cons in Hin as [[= -> ->]|Hin]; [done|]).
    by apply elem_of_nil in Hin. }
  exists (quotients ps ds). split; [done|]. intros i p d Hpi Hdi. split.
  - by apply quotients_lookup.
  - apply div_zero_or_missing.
Qed.

Lemma get_kpis_total_witness :
  ∃ df', get_kpis flat_table = Ok df' ∧
    pd.getitem (pd.Name "price_per_sqft") df'
      = Ok [VNum Float.NaN; VNum Float.PInf] ∧
    pd.getitem (pd.Name "price_per_beds") df'
      = Ok [VNum Float.PInf; VNum (Float.Fin 100)].
Proof.
  assert (NoDup (pd.columns flat_table).*1) as Hnd.
  { apply (bool_decide_unpack _). vm_compute. exact I. }
  destruct (get_kpis_total flat_table
              [Float.of_Z 100; Float.of_Z 200] [Float.NaN; Float.of_Z 0]
              [Float.of_Z 0; Float.of_Z 2] [Float.of_Z 1; Float.of_Z 2] Hnd)
    as (df' & Hk & _); [eexists; split; reflexivity..|].
  exists df'. split; [exact Hk|].
  vm_compute in Hk. injection Hk as <-. split; reflexivity.
Defined.

(** ** Medians *)

Section median_facts.

Lemma leb_refl (x : Float.t) : Float.leb x x = true.
Proof. by destruct (leb_total x x). Qed.

Lemma sorted_order_statistic (l : list Float.t) (k : nat) (a : Float.t) :
  StronglySorted (λ x y, Float.leb x y = true) l →
  l !! k = Some a → order_statistic k l a.
Proof.
  intros Hs Hk.
  assert (length (take k l) = k) as Hlen.
  { apply lookup_lt_Some in Hk. rewrite length_take. lia. }
  rewrite <- (take_drop_middle l k a Hk) in Hs |- *.
  revert Hlen Hs. generalize (take k l) (drop (S k) l). intros l1 l2 Hlen Hs.
  apply StronglySorted_app in Hs as (H12 & _ & H2).
  apply StronglySorted_cons in H2 as [Ha _].
  rewrite Forall_forall in Ha. unfold order_statistic. split_and!.
  - set_solver.
  - rewrite filter_app, filter_cons, decide_True by apply leb_refl.
    rewrite (filter_all _ l1); [rewrite length_app; simpl; lia|].
    intros x Hx. apply H12; [done|by left].
  - rewrite filter_app, filter_cons, decide_True by apply leb_refl.
    rewrite (filter_all _ l2) by done.
    rewrite !length_app. simpl. lia.
Qed.

Lemma order_statistic_perm (l ys : list Float.t) (k : nat) (a : Float.t) :
  l ≡ₚ ys → order_statistic k l a → order_statistic k ys a.
Proof. unfold order_statistic. intros Hp. by rewrite Hp. Qed.

(** The median is taken over all the values that are not NaN: it is the
    middle one of them in the order of the floats, or the mean of the two
    middle ones. *)
Lemma nanmedian_order_statistics (xs : list Float.t) :
  let ys := pd.dropna xs in
  let n := length ys in
  n ≠ 0%nat →
  if Nat.even n
  then ∃ a b, order_statistic (n / 2 - 1) ys a ∧
              order_statistic (n / 2) ys b ∧
              pd.nanmedian xs = Float.mean2 a b
  else ∃ b, order_statistic (n / 2) ys b ∧ pd.nanmedian xs = b.
Proof.
  intros ys n Hn. unfold pd.nanmedian. fold ys.
  set (l := pd.sort Float.leb ys).
  assert (l ≡ₚ ys) as Hp by apply sort_perm.
  assert (StronglySorted (λ x y, Float.leb x y = true) l) as Hs.
  { apply sort_sorted; [apply leb_total|apply leb_trans]. }
  assert (length l = n) as -> by (by rewrite Hp).
  assert (n / 2 < n)%nat as Hhalf by (apply Nat.div_lt; lia).
  destruct (lookup_lt_is_Some_2 l (n / 2)) as [b Hb];
    [by rewrite Hp|].
  destruct (lookup_lt_is_Some_2 l (n / 2 - 1)) as [a Ha];
    [rewrite Hp; fold n; lia|].
  rewrite Ha, Hb. destruct (Nat.even n).
  - exists a, b. split_and!; [| |done];
      eapply order_statistic_perm; try exact Hp;
      by apply sorted_order_statistic.
  - exists b. split; [|done].
    eapply order_statistic_perm; [exact Hp|].
    by apply sorted_order_statistic.
Qed.

Lemma medians_inv names df ms :
  medians names df = Ok ms →
  ms.*1 = names ∧
  ∀ n m, (n, m) ∈ ms → ∃ xs, numeric_column n df xs ∧ m = pd.nanmedian xs.
Proof.
  revert ms. induction names as [|n names IH]; intros ms; simpl.
  - intros [= <-]. split; [done|]. by intros ?? ?%elem_of_nil.
  - unfold pd.median.
    destruct (pd.getitem (pd.Name n) df) as [col| |] eqn:Hg; try done.
    cbn [mbind result_bind].
    destruct (pd.floats col) as [xs|] eqn:Hxs; try done.
    cbn [mbind result_bind].
    destruct (medians names df) as [ms'| |]; try done.
    cbn [mbind result_bind]. intros [= <-].
    destruct (IH ms' eq_refl) as [Hk Hms]. split; [by rewrite fmap_cons, Hk|].
    intros n' m [[= -> ->]|Hin]%elem_of_cons; [|by apply Hms].
    exists xs. split; [by exists col|done].
Qed.

End median_facts.

(** C4 (counterexample). Three rentals, the first with a floor area of
    zero: its [price_per_sqft] is [inf], and the median of the column is
    the median of [inf, 1, 2], which is 2, not the median 1.5 of the finite
    values. *)
Lemma median_over_finite_counterexample :
  ∃ df col xs,
    pd.DataFrame_of (VList listings_with_zero_area)
      ≫= table "2020-06-01" rental_cols_to_expand = Ok df ∧
    pd.getitem (pd.Name "price_per_sqft") df = Ok col ∧
    pd.floats col = Some xs ∧
    xs = [Float.PInf; Float.Fin 1; Float.Fin 2] ∧
    pd.median col = Ok (Float.Fin 2) ∧
    median_finite xs = Float.Fin (3 # 2) ∧
    pd.median col ≠ Ok (median_finite xs).
Proof.
  eexists _, _, _. split_and!; [reflexivity..|]. vm_compute. discriminate.
Qed.

(** C4 (amended). Every record whose KPI divisor is zero or missing gets
    a KPI value that is not finite, and stays in the Dataset. The medians
    of the analysis skip the NaN values only: a NaN (missing divisor)
    contributes nothing, an infinity (a price over a zero divisor) is
    counted like any other value. The median of a column, each of the
    per-zip median KPIs and the two medians of the ratio are the middle
    value (or the mean of the two middle values) of all the values that
    are not NaN, in the order of the floats with the infinities at its
    two ends. *)
Theorem undefined_kpis_in_medians
    (df : pd.DataFrame) (ps ss bs ts : list Float.t) :
  NoDup (pd.columns df).*1 →
  numeric_column "price" df ps →
  numeric_column "building_size_size" df ss →
  numeric_column "beds" df bs →
  numeric_column "baths" df ts →
  (∃ df', get_kpis df = Ok df' ∧ pd.len df' = pd.len df ∧
     ∀ name ds,
       (name, ds) ∈ [("price_per_sqft", ss); ("price_per_beds", bs);
                     ("price_per_bath", ts)] →
       numeric_column name df' (zip_with Float.div ps ds) ∧
       ∀ i p d, ps !! i = Some p → ds !! i = Some d →
         zero_or_missing d = true →
         zip_with Float.div ps ds !! i = Some (Float.div p d) ∧
         Float.isfinite (Float.div p d) = false ∧
         (Float.isnan d = true → Float.div p d = Float.NaN)) ∧
  (∀ col xs, pd.floats col = Some xs →
     pd.median col = Ok (pd.nanmedian xs) ∧
     ∀ x, x ∈ pd.dropna xs ↔ x ∈ xs ∧ Float.isnan x = false) ∧
  (∀ xs ys, pd.nanmedian (xs ++ Float.NaN :: ys) = pd.nanmedian (xs ++ ys)) ∧
  (∀ xs, let ys := pd.dropna xs in
         let n := length ys in
     n ≠ 0%nat →
     if Nat.even n
     then ∃ a b, order_statistic (n / 2 - 1) ys a ∧
                 order_statistic (n / 2) ys b ∧
                 pd.nanmedian xs = Float.mean2 a b
     else ∃ b, order_statistic (n / 2) ys b ∧ pd.nanmedian xs = b) ∧
  (∀ table ms, medians kpi_names table = Ok ms →
     ms.*1 = kpi_names ∧
     ∀ n m, (n, m) ∈ ms →
       ∃ xs, numeric_column n table xs ∧ m = pd.nanmedian xs) ∧
  (∀ rental_df sales_df r, ratio rental_df sales_df = Ok r →
     ∃ rs ss', numeric_column "price_per_sqft" rental_df rs ∧
               numeric_column "price_per_sqft" sales_df ss' ∧
               r = Float.div (pd.nanmedian rs) (pd.nanmedian ss')).
Proof.
  intros Hnd Hp Hs Hb Ht. split_and!.
  - destruct (get_kpis_Ok df ps ss bs ts Hnd Hp Hs Hb Ht)
      as (df' & Hk & Hlen & H1 & H2 & H3).
    exists df'. split_and!; [done..|]. intros name ds Hin.
    assert (pd.getitem (pd.Name name) df' = Ok (quotients ps ds)) as Hg.
    { repeat (apply elem_of_cons in Hin as [[= -> ->]|Hin]; [done|]).
      by apply elem_of_nil in Hin. }
    split.
    + exists (quotients ps ds). split; [done|apply floats_quotients].
    + intros i p d Hpi Hdi Hz. split_and!.
      * rewrite lookup_zip_with, Hpi. simpl. by rewrite Hdi.
      * by apply div_zero_or_missing.
      * destruct d; try done. by destruct p.
  - intros col xs Hxs. split.
    + unfold pd.median. by rewrite Hxs.
    + intros x. unfold pd.dropna. rewrite list_elem_of_filter. naive_solver.
  - intros xs ys. unfold pd.nanmedian. by rewrite dropna_nan.
  - apply nanmedian_order_statistics.
  - apply medians_inv.
  - apply ratio_inv.
Qed.

Lemma undefined_kpis_in_medians_witness :
  ∃ df' b,
    get_kpis zero_area_table = Ok df' ∧ pd.len df' = 3%nat ∧
    numeric_column "price_per_sqft" df'
      [Float.PInf; Float.Fin 1; Float.Fin 2] ∧
    order_statistic 1 [Float.PInf; Float.Fin 1; Float.Fin 2] b ∧
    pd.nanmedian [Float.PInf; Float.Fin 1; Float.Fin 2] = b ∧
    b = Float.Fin 2.
Proof.
  assert (NoDup (pd.columns zero_area_table).*1) as Hnd.
  { apply (bool_decide_unpack _). vm_compute. exact I. }
  destruct (undefined_kpis_in_medians zero_area_table
              [Float.of_Z 100; Float.of_Z 120; Float.of_Z 240]
              [Float.of_Z 0; Float.of_Z 120; Float.of_Z 120]
              [Float.of_Z 3; Float.of_Z 3; Float.of_Z 3]
              [Float.of_Z 2; Float.of_Z 2; Float.of_Z 2] Hnd)
    as ((df' & Hk & Hlen & Hcols) & _ & _ & Hmed & _);
    [eexists; split; reflexivity..|].
  destruct (Hcols "price_per_sqft"
              [Float.of_Z 0; Float.of_Z 120; Float.of_Z 120]) as [Hcol _];
    [left|].
  specialize (Hmed [Float.PInf; Float.Fin 1; Float.Fin 2]).
  destruct Hmed as (b & Hb & Hm); [discriminate|].
  exists df', b. split_and!; [exact Hk|exact Hlen|exact Hcol|exact Hb|exact Hm|].
  rewrite <- Hm. reflexivity.
Defined.

(** ** A listing in a payload *)

Section payload_facts.
Variable today : string.
Implicit Types (l : pd.label) (df : pd.DataFrame) (k : kind) (w : World).

Lemma getitem_missing l df :
  l ∉ (pd.columns df).*1 → pd.getitem l df = Raise (KeyError (pd.show l)).
Proof.
  intros Hl. unfold pd.getitem. rewrite filter_none; [done|].
  intros [l' c] Hc Heq. simpl in Heq. subst l'.
  apply Hl, list_elem_of_fmap. by exists (l, c).
Qed.

Lemma kpi_parts name num den df df' :
  kpi name num den df = Ok df' →
  ∃ a b q, pd.getitem (pd.Name num) df = Ok a ∧
           pd.getitem (pd.Name den) df = Ok b ∧
           pd.div a b = Ok q ∧
           pd.setitem (pd.Name name) q df = Ok df'.
Proof.
  unfold kpi. intros H.
  destruct (pd.getitem (pd.Name num) df) as [a| |]; simplify_eq/=.
  destruct (pd.getitem (pd.Name den) df) as [b| |]; simplify_eq/=.
  destruct (pd.div a b) as [q| |] eqn:Hq; simplify_eq/=.
  by exists a, b, q.
Qed.

Lemma of_rows_column l rows :
  l ∈ concat ((λ r, r.*1) <$> rows) →
  (l, pd.series_get l <$> rows) ∈ pd.columns (pd.of_rows rows).
Proof.
  intros Hl. unfold pd.of_rows. simpl.
  apply list_elem_of_fmap. eexists; split; [done|].
  apply union_labels_elem_of. by right.
Qed.

Lemma of_rows_labels rows :
  (pd.columns (pd.of_rows rows)).*1
  = pd.union_labels [] (concat ((λ r, r.*1) <$> rows)).
Proof.
  unfold pd.of_rows. simpl. rewrite <- list_fmap_compose.
  apply list_eq. intros i. rewrite list_lookup_fmap. by destruct (_ !! i).
Qed.

Lemma union_labels_nodup seen ls :
  NoDup seen → NoDup (pd.union_labels seen ls).
Proof.
  revert seen. induction ls as [|x ls IH]; intros seen Hs; simpl; [done|].
  case_bool_decide; apply IH; [done|].
  apply NoDup_app. split_and!; [done| |apply NoDup_singleton].
  by intros y Hy ->%list_elem_of_singleton.
Qed.

Lemma of_rows_getitem l rows :
  l ∈ concat ((λ r, r.*1) <$> rows) →
  pd.getitem l (pd.of_rows rows) = Ok (pd.series_get l <$> rows).
Proof.
  intros Hl. pose proof (of_rows_column l rows Hl) as Hin.
  pose proof (filter_label_nodup l (pd.columns (pd.of_rows rows))) as Hlen.
  rewrite of_rows_labels in Hlen.
  specialize (Hlen (union_labels_nodup [] _ (NoDup_nil_2))).
  assert ((l, pd.series_get l <$> rows)
          ∈ filter (λ c, c.1 = l) (pd.columns (pd.of_rows rows))) as Hf
    by (by apply list_elem_of_filter).
  unfold pd.getitem.
  destruct (filter _ _) as [|c0 [|c1 ?]]; simpl in Hlen.
  - by apply elem_of_nil in Hf.
  - by apply list_elem_of_singleton in Hf as <-.
  - lia.
Qed.

(** Row [i] of the table reads what record [i] has under the label. *)
Lemma of_rows_cell rows i r l :
  rows !! i = Some r → l ∈ r.*1 →
  pd.getitem l (pd.of_rows rows) = Ok (pd.series_get l <$> rows) ∧
  (pd.series_get l <$> rows) !! i = Some (pd.series_get l r).
Proof.
  intros Hi Hl. split; [|by rewrite list_lookup_fmap, Hi].
  apply of_rows_getitem, list_elem_of_In, in_concat. exists r.*1.
  split; apply list_elem_of_In; [|done].
  apply list_elem_of_fmap. exists r. split; [done|].
  by eapply list_elem_of_lookup_2.
Qed.

Lemma getitem_has_cell l df col i v :
  pd.getitem l df = Ok col → has_cell df l i v → col !! i = Some v.
Proof.
  intros Hg%getitem_inv (c & Hin & Hi).
  assert ((l, c) ∈ filter (λ c, c.1 = l) (pd.columns df)) as Hf
    by (by apply list_elem_of_filter).
  rewrite Hg in Hf. by apply list_elem_of_singleton in Hf as [= ->].
Qed.

Lemma getitem_cell l df col i v :
  pd.getitem l df = Ok col → col !! i = Some v → has_cell df l i v.
Proof.
  intros Hg%getitem_inv Hi. exists col. split; [|done].
  assert ((l, col) ∈ filter (λ c, c.1 = l) (pd.columns df)) as Hf
    by (rewrite Hg; left).
  by apply list_elem_of_filter in Hf as [_ ?].
Qed.

Lemma setitem_keeps_cell l l' col df df' i v :
  pd.setitem l' col df = Ok df' → l ≠ l' →
  has_cell df l i v → has_cell df' l i v.
Proof.
  unfold pd.setitem. intros H Hne (c & Hin & Hi).
  destruct (filter _ _) as [|c0 [|]]; simplify_eq/=;
    exists c; (split; [|done]).
  - apply elem_of_app. by left.
  - apply list_elem_of_fmap. exists (l, c). split; [|done].
    simpl. by rewrite bool_decide_false.
Qed.

Lemma floats_lookup (s : list value) xs i v :
  pd.floats s = Some xs → s !! i = Some v →
  ∃ x, as_float v = Some x ∧ xs !! i = Some x.
Proof.
  revert xs i. induction s as [|v0 s IH]; intros xs i; simpl; [done|].
  destruct (as_float v0) as [x0|] eqn:Hv0; [|done].
  destruct (pd.floats s) as [xs0|]; [|done]. intros [= <-].
  destruct i as [|i]; simpl.
  - intros [= <-]. by exists x0.
  - by apply IH.
Qed.

(** The KPI of row [i] is the quotient of the two cells of row [i]. *)
Lemma kpi_cell name num den df df' i vn vd x y :
  kpi name num den df = Ok df' →
  has_cell df (pd.Name num) i vn → has_cell df (pd.Name den) i vd →
  as_float vn = Some x → as_float vd = Some y →
  reads df' name i (VNum (Float.div x y)).
Proof.
  intros (a & b & q & Ha & Hb & Hq & Hset)%kpi_parts Hn Hd Hx Hy.
  pose proof (getitem_has_cell _ _ _ _ _ Ha Hn) as Hai.
  pose proof (getitem_has_cell _ _ _ _ _ Hb Hd) as Hbi.
  unfold pd.div in Hq.
  destruct (pd.floats a) as [xs|] eqn:Hxs; [|done].
  destruct (pd.floats b) as [ys|] eqn:Hys; [|done].
  injection Hq as <-.
  destruct (floats_lookup _ _ _ _ Hxs Hai) as (x' & Hx' & Hxi).
  destruct (floats_lookup _ _ _ _ Hys Hbi) as (y' & Hy' & Hyi).
  rewrite Hx in Hx'. rewrite Hy in Hy'.
  injection Hx' as <-. injection Hy' as <-.
  exists (quotients xs ys). split.
  - by eapply setitem_getitem.
  - by apply quotients_lookup.
Qed.

Lemma kpi_keeps_cell name num den df df' l i v :
  kpi name num den df = Ok df' → l ≠ pd.Name name →
  has_cell df l i v → has_cell df' l i v.
Proof.
  intros (q & Hset)%kpi_inv Hne. by eapply setitem_keeps_cell.
Qed.

Lemma kpi_keeps_reads name num den df df' n i v :
  kpi name num den df = Ok df' → n ≠ name →
  reads df n i v → reads df' n i v.
Proof.
  intros (q & Hset)%kpi_inv Hne (col & Hg & Hi). exists col.
  split; [|done]. rewrite <- Hg.
  eapply setitem_getitem_ne; [done|congruence].
Qed.

Lemma cols_to_expand_cases (cols : list string) :
  cols ∈ [rental_cols_to_expand; sales_cols_to_expand] →
  NoDup cols ∧ "address" ∈ cols ∧ "lot_size" ∈ cols ∧
  "building_size" ∈ cols ∧
  (∀ c, c ∈ cols → c ∈ ["address"; "lot_size"; "building_size"]) ∧
  (∀ x, "lot_size_" +:+ x ∉ cols) ∧
  (∀ x, "building_size_" +:+ x ∉ cols).
Proof.
  intros Hcols.
  apply elem_of_cons in Hcols as [->|Hcols];
    [|apply list_elem_of_singleton in Hcols as ->].
  - split_and!; [apply (bool_decide_unpack _); vm_compute; exact I
                |set_solver..| |];
      intros x; unfold rental_cols_to_expand, sales_cols_to_expand;
      rewrite !not_elem_of_cons; split_and!;
      try discriminate; apply not_elem_of_nil.
  - split_and!; [apply (bool_decide_unpack _); vm_compute; exact I
                |set_solver..| |];
      intros x; unfold rental_cols_to_expand, sales_cols_to_expand;
      rewrite !not_elem_of_cons; split_and!;
      try discriminate; apply not_elem_of_nil.
Qed.

(** The loop over [cols_to_expand] merges the sub-fields of the three
    nested fields. *)
Lemma expand_all_subfields cols df df' i f v :
  cols ∈ [rental_cols_to_expand; sales_cols_to_expand] →
  expand_all cols df = Ok df' →
  (subfield df "address" i f v → f ∉ cols →
   has_cell df' (pd.Name f) i v) ∧
  (subfield df "lot_size" i f v →
   has_cell df' (pd.Name ("lot_size_" +:+ f)) i v) ∧
  (subfield df "building_size" i f v →
   has_cell df' (pd.Name ("building_size_" +:+ f)) i v).
Proof.
  intros (Hnd & Ha & Hl & Hb & _ & Hlx & Hbx)%cols_to_expand_cases Hall.
  split_and!.
  - intros (s & fields & Hg & Hi & Hk) Hfresh.
    apply (expand_all_cell cols df df' "address" s i fields f v);
      try done.
    by rewrite (getitem_inv _ _ _ Hg).
  - intros (s & fields & Hg & Hi & Hk).
    apply (expand_all_cell cols df df' "lot_size" s i fields f v);
      try done.
    + by rewrite (getitem_inv _ _ _ Hg).
    + apply Hlx.
  - intros (s & fields & Hg & Hi & Hk).
    apply (expand_all_cell cols df df' "building_size" s i fields f v);
      try done.
    + by rewrite (getitem_inv _ _ _ Hg).
    + apply Hbx.
Qed.

(** The record of the listing of the example, wherever it stands in a
    payload that is normalized. *)
Lemma example_record cols items i df :
  cols ∈ [rental_cols_to_expand; sales_cols_to_expand] →
  items !! i = Some listing_without_lot →
  pd.DataFrame_of (VList items) ≫= table today cols = Ok df →
  has_cell df (pd.Name "city") i (VStr "X") ∧
  reads df "building_size_size" i (num 1200) ∧
  reads df "price_per_sqft" i (VNum (Float.Fin 200)) ∧
  reads df "price_per_beds" i (VNum (Float.Fin 80000)) ∧
  reads df "price_per_bath" i (VNum (Float.Fin 120000)).
Proof.
  intros Hcols Hi H. cbn [pd.DataFrame_of] in H.
  destruct (forallb pd.is_dict items); [|done].
  cbn [mbind result_bind] in H.
  assert ((pd.Series <$> items) !! i = Some (pd.Series listing_without_lot))
    as Hrow by (by rewrite list_lookup_fmap, Hi).
  remember (pd.of_rows (pd.Series <$> items)) as df0 eqn:Edf0.
  assert (∀ n, n ∈ ["address"; "building_size"; "price"; "beds"; "baths"] →
            ∃ col, pd.getitem (pd.Name n) df0 = Ok col ∧
                   col !! i = Some (pd.series_get (pd.Name n)
                                      (pd.Series listing_without_lot)))
    as Hcells.
  { intros n Hn. eexists. subst df0.
    apply (of_rows_cell _ _ _ _ Hrow).
    repeat (apply elem_of_cons in Hn as [->|Hn];
            [apply (bool_decide_unpack _); vm_compute; exact I|]).
    by apply elem_of_nil in Hn. }
  clear Edf0 Hrow Hi.
  unfold table in H.
  destruct (expand_all cols df0) as [df1| |] eqn:He; try done.
  cbn [mbind result_bind] in H.
  destruct (pd.setitem _ _ df1) as [df2| |] eqn:Hs; try done.
  cbn [mbind result_bind] in H. unfold get_kpis in H.
  destruct (kpi "price_per_sqft" _ _ df2) as [df3| |] eqn:H3; try done.
  cbn [mbind result_bind] in H.
  destruct (kpi "price_per_beds" _ _ df3) as [df4| |] eqn:H4; try done.
  cbn [mbind result_bind] in H.
  pose proof (cols_to_expand_cases cols Hcols)
    as (_ & _ & _ & _ & Hcases & _ & _).
  (* the cells of the record after the loop over [cols_to_expand] *)
  assert (has_cell df1 (pd.Name "city") i (VStr "X")) as Hcity1.
  { destruct (Hcells "address") as (col & Hg & Hc); [set_solver|].
    apply (expand_all_subfields cols df0 df1 i "city" (VStr "X") Hcols He).
    - by exists col, [("city", VStr "X")].
    - intros Hin%Hcases. revert Hin.
      change ("city" ∉ ["address"; "lot_size"; "building_size"]).
      apply (bool_decide_unpack _). vm_compute. exact I. }
  assert (has_cell df1 (pd.Name "building_size_size") i (num 1200)) as Hsize1.
  { destruct (Hcells "building_size") as (col & Hg & Hc); [set_solver|].
    apply (expand_all_subfields cols df0 df1 i "size" (num 1200) Hcols He).
    by exists col, [("size", num 1200)]. }
  assert (∀ n v, n ∈ ["price"; "beds"; "baths"] →
            pd.series_get (pd.Name n) (pd.Series listing_without_lot) = v →
            has_cell df1 (pd.Name n) i v) as Hflat1.
  { intros n v Hn <-. destruct (Hcells n) as (col & Hg & Hc); [set_solver|].
    apply (expand_all_keeps cols df0 df1); [done| |by eapply getitem_cell].
    intros c Hc'%Hcases [= ->]. revert Hc' Hn. clear.
    intros Hc Hn.
    repeat (apply elem_of_cons in Hn as [->|Hn];
            [revert Hc;
             apply (bool_decide_unpack (_ ∉ _)); vm_compute; exact I|]).
    by apply elem_of_nil in Hn. }
  pose proof (Hflat1 "price" (num 240000)) as Hprice1.
  pose proof (Hflat1 "beds" (num 3)) as Hbeds1.
  pose proof (Hflat1 "baths" (num 2)) as Hbaths1.
  specialize (Hprice1 ltac:(set_solver) eq_refl).
  specialize (Hbeds1 ltac:(set_solver) eq_refl).
  specialize (Hbaths1 ltac:(set_solver) eq_refl).
  clear Hflat1 Hcells He Hcases.
  (* the stamp of the run date and the three KPI assignments *)
  assert (∀ n v, n ≠ "run_date" → has_cell df1 (pd.Name n) i v →
            has_cell df2 (pd.Name n) i v) as H12.
  { intros n v Hn. eapply setitem_keeps_cell; [done|congruence]. }
  apply H12 in Hcity1; [|done]. apply H12 in Hsize1; [|done].
  apply H12 in Hprice1; [|done]. apply H12 in Hbeds1; [|done].
  apply H12 in Hbaths1; [|done]. clear H12 Hs.
  pose proof (kpi_cell _ _ _ _ _ _ _ _ (Float.of_Z 240000) (Float.of_Z 1200)
                H3 Hprice1 Hsize1 eq_refl eq_refl) as Hsqft.
  assert (reads df2 "building_size_size" i (num 1200)) as Hsize.
  { destruct (kpi_parts _ _ _ _ _ H3) as (a & b & q & _ & Hb & _ & _).
    exists b. split; [done|]. by eapply getitem_has_cell. }
  assert (∀ n v, n ≠ "price_per_sqft" → has_cell df2 (pd.Name n) i v →
            has_cell df3 (pd.Name n) i v) as H23.
  { intros n v Hn. eapply kpi_keeps_cell; [done|congruence]. }
  apply H23 in Hcity1; [|done]. apply H23 in Hprice1; [|done].
  apply H23 in Hbeds1; [|done]. apply H23 in Hbaths1; [|done].
  apply (kpi_keeps_reads _ _ _ _ _ _ _ _ H3) in Hsize; [|done].
  clear H23 H3 Hsize1.
  pose proof (kpi_cell _ _ _ _ _ _ _ _ (Float.of_Z 240000) (Float.of_Z 3)
                H4 Hprice1 Hbeds1 eq_refl eq_refl) as Hpbeds.
  assert (∀ n v, n ≠ "price_per_beds" → has_cell df3 (pd.Name n) i v →
            has_cell df4 (pd.Name n) i v) as H34.
  { intros n v Hn. eapply kpi_keeps_cell; [done|congruence]. }
  apply H34 in Hcity1; [|done]. apply H34 in Hprice1; [|done].
  apply H34 in Hbaths1; [|done].
  apply (kpi_keeps_reads _ _ _ _ _ _ _ _ H4) in Hsize; [|done].
  apply (kpi_keeps_reads _ _ _ _ _ _ _ _ H4) in Hsqft; [|done].
  clear H34 H4 Hbeds1.
  pose proof (kpi_cell _ _ _ _ _ _ _ _ (Float.of_Z 240000) (Float.of_Z 2)
                H Hprice1 Hbaths1 eq_refl eq_refl) as Hpbath.
  apply (kpi_keeps_cell _ _ _ _ _ _ _ _ H) in Hcity1; [|done].
  apply (kpi_keeps_reads _ _ _ _ _ _ _ _ H) in Hsize; [|done].
  apply (kpi_keeps_reads _ _ _ _ _ _ _ _ H) in Hsqft; [|done].
  apply (kpi_keeps_reads _ _ _ _ _ _ _ _ H) in Hpbeds; [|done].
  assert (Float.div (Float.of_Z 240000) (Float.of_Z 1200) = Float.Fin 200)
    as E1 by (vm_compute; reflexivity).
  assert (Float.div (Float.of_Z 240000) (Float.of_Z 3) = Float.Fin 80000)
    as E2 by (vm_compute; reflexivity).
  assert (Float.div (Float.of_Z 240000) (Float.of_Z 2) = Float.Fin 120000)
    as E3 by (vm_compute; reflexivity).
  rewrite E1 in Hsqft. rewrite E2 in Hpbeds. rewrite E3 in Hpbath.
  by split_and!.
Qed.

(** *** A nested column that is not there *)

Lemma expand_all_app cols1 cols2 df :
  expand_all (cols1 ++ cols2) df = expand_all cols1 df ≫= expand_all cols2.
Proof.
  revert df. induction cols1 as [|c cols1 IH]; intros df; simpl; [done|].
  destruct (expand c df); simpl; [apply IH|done..].
Qed.

Lemma expand_missing c df :
  pd.Name c ∉ (pd.columns df).*1 → expand c df = Raise (KeyError c).
Proof.
  intros Hc. unfold expand, pd.drop.
  destruct (pd.has_label (pd.Name c) df) eqn:Hl; [|done].
  apply has_label_filter in Hl. destruct Hl. apply filter_none.
  intros [l0 c0] Hin Heq. simpl in Heq. subst l0.
  apply Hc, list_elem_of_fmap. by exists (pd.Name c, c0).
Qed.

(** The round of a column that is not in the table raises [KeyError]. *)
Lemma table_missing cols1 c cols2 df df1 :
  expand_all cols1 df = Ok df1 → pd.Name c ∉ (pd.columns df1).*1 →
  table today (cols1 ++ c :: cols2) df = Raise (KeyError c).
Proof.
  intros He Hc. unfold table. rewrite expand_all_app, He.
  cbn [mbind result_bind expand_all]. by rewrite (expand_missing _ _ Hc).
Qed.

Lemma dict_get_is_Some c (fields : list (string * value)) :
  c ∈ fields.*1 ↔ is_Some (dict_get c fields).
Proof.
  induction fields as [|[k0 v0] fields IH]; simpl.
  - split; [by intros []%elem_of_nil|by intros [? ?]].
  - destruct (String.eqb_spec k0 c) as [->|Hne].
    + split; [by eexists|left].
    + rewrite <- IH. rewrite elem_of_cons. naive_solver.
Qed.

Lemma Series_dict_labels c (fields : list (string * value)) :
  pd.Name c ∈ (pd.Series (VDict fields)).*1 ↔ c ∈ fields.*1.
Proof.
  simpl. rewrite <- list_fmap_compose. rewrite !list_elem_of_fmap. split.
  - intros ([k0 v0] & [= ->] & Hin). by exists (k0, v0).
  - intros ([k0 v0] & -> & Hin). by exists (k0, v0).
Qed.

(** The columns of [pd.DataFrame(listings)] are the fields that some
    listing has. *)
Lemma DataFrame_of_labels items df0 c :
  pd.DataFrame_of (VList items) = Ok df0 →
  pd.Name c ∈ (pd.columns df0).*1 ↔ some_listing_has c items.
Proof.
  cbn [pd.DataFrame_of]. destruct (forallb pd.is_dict items) eqn:Hall; [|done].
  intros [= <-]. rewrite of_rows_labels, union_labels_elem_of. split.
  - intros [[]%elem_of_nil|Hin].
    apply list_elem_of_In, in_concat in Hin as (ls & Hls & Hc).
    apply list_elem_of_In in Hls, Hc.
    apply list_elem_of_fmap in Hls as (r & -> & Hr).
    apply list_elem_of_fmap in Hr as (item & -> & Hitem).
    rewrite forallb_forall in Hall.
    specialize (Hall item (proj1 (list_elem_of_In _ _) Hitem)).
    destruct item as [| | | |fields|]; try discriminate Hall.
    exists fields. split; [done|].
    by apply dict_get_is_Some, Series_dict_labels.
  - intros (fields & Hin & Hc). right.
    apply list_elem_of_In, in_concat.
    exists ((pd.Series (VDict fields)).*1). split; apply list_elem_of_In.
    + by apply list_elem_of_fmap_2, list_elem_of_fmap_2.
    + by apply Series_dict_labels, dict_get_is_Some.
Qed.

Lemma getitem_Ok_label l df col :
  pd.getitem l df = Ok col → l ∈ (pd.columns df).*1.
Proof.
  intros Hg. destruct (decide (l ∈ (pd.columns df).*1)) as [|Hn]; [done|].
  by rewrite (getitem_missing _ _ Hn) in Hg.
Qed.

(** A label of the table after a round was there before or is one of the
    columns the round appends. *)
Lemma expand_labels col df df' c :
  expand col df = Ok df' → pd.Name c ∈ (pd.columns df').*1 →
  pd.Name col ∈ (pd.columns df).*1 ∧
  ∃ s, pd.getitem (pd.Name col) df = Ok s ∧
       (pd.Name c ∈ (pd.columns df).*1 ∨
        pd.Name c ∈ (pd.columns (expansion col s)).*1).
Proof.
  intros (s & Hg & _ & Hcols)%expand_inv Hin.
  split; [by eapply getitem_Ok_label|]. exists s. split; [done|].
  rewrite Hcols, fmap_app, elem_of_app in Hin.
  destruct Hin as [Hin|Hin]; [left|by right].
  apply list_elem_of_fmap in Hin as (x & -> & Hx).
  apply list_elem_of_filter in Hx as [_ Hx].
  apply list_elem_of_fmap. by exists x.
Qed.

Lemma Series_labels c (cell : value) :
  pd.Name c ∈ (pd.Series cell).*1 →
  ∃ a, cell = VDict a ∧ is_Some (dict_get c a).
Proof.
  destruct cell as [x|x|x| |a|items]; simpl.
  - intros [= ]%list_elem_of_singleton.
  - intros [= ]%list_elem_of_singleton.
  - intros [= ]%list_elem_of_singleton.
  - by intros []%elem_of_nil.
  - intros Hin. exists a. split; [done|].
    by apply dict_get_is_Some, Series_dict_labels.
  - intros ([l0 v0] & Heq & Hin)%list_elem_of_fmap.
    apply elem_of_lookup_imap in Hin as (i & y & [= -> ->] & _).
    discriminate Heq.
Qed.

(** The columns [df['address'].apply(pd.Series)] appends are sub-fields
    of the [address] object of some listing. *)
Lemma address_labels items df0 s c :
  pd.DataFrame_of (VList items) = Ok df0 →
  pd.getitem (pd.Name "address") df0 = Ok s →
  pd.Name c ∈ (pd.columns (expansion "address" s)).*1 →
  some_address_has c items.
Proof.
  cbn [pd.DataFrame_of].
  destruct (forallb pd.is_dict items) eqn:Hall; [|done].
  intros [= <-] Hg Hin.
  assert (s = pd.series_get (pd.Name "address") <$> (pd.Series <$> items))
    as ->.
  { apply getitem_inv in Hg.
    assert ((pd.Name "address", s)
            ∈ filter (λ c, c.1 = pd.Name "address")
                (pd.columns (pd.of_rows (pd.Series <$> items)))) as Hf
      by (rewrite Hg; left).
    apply list_elem_of_filter in Hf as [_ Hf].
    unfold pd.of_rows in Hf. simpl in Hf.
    by apply list_elem_of_fmap in Hf as (l' & [= <- ->] & _). }
  clear Hg. unfold expansion in Hin.
  rewrite bool_decide_true in Hin by (by left).
  unfold pd.apply_Series in Hin.
  rewrite of_rows_labels, union_labels_elem_of in Hin.
  destruct Hin as [[]%elem_of_nil|Hin].
  apply list_elem_of_In, in_concat in Hin as (ls & Hls & Hc).
  apply list_elem_of_In in Hls, Hc.
  apply list_elem_of_fmap in Hls as (r & -> & Hr).
  apply list_elem_of_fmap in Hr as (cell & -> & Hcell).
  apply list_elem_of_fmap in Hcell as (r0 & -> & Hr0).
  apply list_elem_of_fmap in Hr0 as (item & -> & Hitem).
  rewrite forallb_forall in Hall.
  specialize (Hall item (proj1 (list_elem_of_In _ _) Hitem)).
  destruct item as [| | | |fields|]; try discriminate Hall.
  apply Series_labels in Hc as (a & Ha & Hca).
  rewrite series_get_dict in Ha.
  destruct (dict_get "address" fields) as [v|] eqn:Hv; [|discriminate Ha].
  simpl in Ha. subst v. by exists fields, a.
Qed.

Lemma expand_all_needs_columns x y items df0 df1 c :
  x ∉ ["address"] → y ∉ ["address"] →
  (∀ f, (x +:+ "_") +:+ f ≠ y) →
  pd.DataFrame_of (VList items) = Ok df0 →
  expand_all ["address"; x; y] df0 = Ok df1 →
  c ∈ ["address"; x; y] →
  some_listing_has c items ∨ some_address_has c items.
Proof.
  intros Hx Hy Hxy H0. simpl.
  destruct (expand "address" df0) as [da| |] eqn:Ha; try done. simpl.
  destruct (expand x da) as [dx| |] eqn:Ex; try done. simpl.
  destruct (expand y dx) as [dy| |] eqn:Ey; try done. simpl.
  intros _ Hc.
  assert (pd.Name "address" ∈ (pd.columns df0).*1) as Haddr.
  { apply expand_inv in Ha as (s & Hg & _). by eapply getitem_Ok_label. }
  assert (∀ n, pd.Name n ∈ (pd.columns da).*1 →
            some_listing_has n items ∨ some_address_has n items) as Hda.
  { intros n Hn.
    destruct (expand_labels _ _ _ _ Ha Hn) as (_ & s & Hg & [Hin|Hin]).
    - left. by apply (DataFrame_of_labels items df0).
    - right. by eapply address_labels. }
  apply elem_of_cons in Hc as [->|Hc].
  { left. by apply (DataFrame_of_labels items df0). }
  apply elem_of_cons in Hc as [->|Hc].
  { apply Hda. apply expand_inv in Ex as (s & Hg & _).
    by eapply getitem_Ok_label. }
  apply list_elem_of_singleton in Hc as ->.
  assert (pd.Name y ∈ (pd.columns dx).*1) as Hy'.
  { apply expand_inv in Ey as (s & Hg & _). by eapply getitem_Ok_label. }
  destruct (expand_labels _ _ _ _ Ex Hy') as (_ & s & Hg & [Hin|Hin]).
  - by apply Hda.
  - apply list_elem_of_fmap in Hin as (col & Heq & Hin).
    destruct (expansion_labels x s col Hx Hin) as (f & Hf).
    rewrite Hf in Heq. injection Heq as ->. by destruct (Hxy f).
Qed.

(** A payload is normalized only if each of the three nested fields is a
    field of some listing or a sub-field of some [address]. *)
Lemma table_needs_columns cols items df c :
  cols ∈ [rental_cols_to_expand; sales_cols_to_expand] →
  pd.DataFrame_of (VList items) ≫= table today cols = Ok df →
  c ∈ cols →
  some_listing_has c items ∨ some_address_has c items.
Proof.
  intros Hcols H.
  destruct (pd.DataFrame_of (VList items)) as [df0| |] eqn:H0; try done.
  cbn [mbind result_bind] in H. unfold table in H.
  destruct (expand_all cols df0) as [df1| |] eqn:He; try done. clear H.
  apply elem_of_cons in Hcols as [->|Hcols];
    [|apply list_elem_of_singleton in Hcols as ->].
  - apply (expand_all_needs_columns "lot_size" "building_size" items df0 df1);
      [by intros [=]%list_elem_of_singleton..|discriminate|done|done].
  - apply (expand_all_needs_columns "building_size" "lot_size" items df0 df1);
      [by intros [=]%list_elem_of_singleton..|discriminate|done|done].
Qed.

(** A [KeyError] of the loop over [cols_to_expand] is outside the [try]:
    it ends the acquisition after the one request, nothing is printed
    and nothing is written. *)
Lemma acquire_table_raises (upstream : nat → request → response)
    k depth path api_key zip_code w fields items e :
  stale today path (store w) →
  json (upstream (length (requests w)) (request_of k api_key zip_code))
    = Some (VDict fields) →
  dict_get "properties" fields = Some (VList items) →
  items ≠ [] →
  pd.DataFrame_of (VList items) ≫= table today (cols_to_expand k) = Raise e →
  acquire today upstream k (S depth) path api_key zip_code w
  = (Raise e,
     mkWorld (store w) (request_of k api_key zip_code :: requests w)
       (stdout w) (puts w)).
Proof.
  intros (c & Hc & Hd) Hj Hp Hne H. cbn [acquire get]. rewrite Hc, Hd.
  unfold loads_properties. rewrite Hj, Hp. cbn [mbind result_bind].
  cbn [pd.DataFrame_of] in *. destruct (forallb pd.is_dict items); [|done].
  cbn [mbind result_bind] in H.
  assert ((pd.len (pd.of_rows (pd.Series <$> items)) =? 0)%nat = false)
    as ->.
  { unfold pd.of_rows. simpl. rewrite length_fmap. by destruct items. }
  by rewrite H.
Qed.

End payload_facts.

(** C3 (counterexample). The listing of the example has no [lot_size]:
    the loop over [cols_to_expand] drops that column without looking
    whether it is there, and the [KeyError] ends the acquisition before
    any record, KPI or artifact exists. *)
Lemma flattening_example_counterexample :
  pd.DataFrame_of (VList [listing_without_lot])
    ≫= table "2020-06-01" rental_cols_to_expand = Raise (KeyError "lot_size") ∧
  pd.DataFrame_of (VList [listing_without_lot])
    ≫= table "2020-06-01" sales_cols_to_expand = Raise (KeyError "lot_size") ∧
  ∃ w, gen_rental_data "2020-06-01" (replies [] (payload [listing_without_lot]))
         1000 "data/rentals_55414.csv" "key" "55414" w0
       = (Raise (KeyError "lot_size"), w) ∧ puts w = [].
Proof.
  split_and!; [reflexivity..|]. eexists. split; reflexivity.
Qed.

(** C3 (amended). In a payload that [gen_rental_data] or
    [gen_sales_data] normalizes, the loop over [cols_to_expand] merges
    the sub-fields of [address] under their own names (unless the
    sub-field is itself named like one of the three nested fields) and
    the sub-fields of [lot_size] and [building_size] under the name of
    the parent, an underscore and their own name. The listing of the
    example, [{address: {city: X}, building_size: {size: 1200},
    price: 240000, beds: 3, baths: 2}], gives at any position of such a
    payload a record with [city = X], [building_size_size = 1200],
    [price_per_sqft = 200], [price_per_beds = 80000] and
    [price_per_bath = 120000]. Whether a payload is normalized is decided
    per payload, not per listing: the columns of the table are the fields
    that some listing has, a payload is normalized only if each of the
    three nested fields is a field of some listing (or a sub-field of
    some [address]), and the round of a nested column that is not in
    the table raises [KeyError]. The error is not caught: for a payload
    that is not empty the acquisition ends with it after the one request,
    with nothing printed and nothing written. *)
Theorem flattening_correct (today : string) :
  (∀ cols df df' i k v,
     cols ∈ [rental_cols_to_expand; sales_cols_to_expand] →
     expand_all cols df = Ok df' →
     (subfield df "address" i k v → k ∉ cols →
      has_cell df' (pd.Name k) i v) ∧
     (subfield df "lot_size" i k v →
      has_cell df' (pd.Name ("lot_size_" +:+ k)) i v) ∧
     (subfield df "building_size" i k v →
      has_cell df' (pd.Name ("building_size_" +:+ k)) i v)) ∧
  (∀ cols items i df,
     cols ∈ [rental_cols_to_expand; sales_cols_to_expand] →
     items !! i = Some listing_without_lot →
     pd.DataFrame_of (VList items) ≫= table today cols = Ok df →
     has_cell df (pd.Name "city") i (VStr "X") ∧
     reads df "building_size_size" i (num 1200) ∧
     reads df "price_per_sqft" i (VNum (Float.Fin 200)) ∧
     reads df "price_per_beds" i (VNum (Float.Fin 80000)) ∧
     reads df "price_per_bath" i (VNum (Float.Fin 120000))) ∧
  (∀ items df0 c,
     pd.DataFrame_of (VList items) = Ok df0 →
     pd.Name c ∈ (pd.columns df0).*1 ↔ some_listing_has c items) ∧
  (∀ cols items df c,
     cols ∈ [rental_cols_to_expand; sales_cols_to_expand] →
     pd.DataFrame_of (VList items) ≫= table today cols = Ok df →
     c ∈ cols →
     some_listing_has c items ∨ some_address_has c items) ∧
  (∀ cols1 c cols2 df df1,
     expand_all cols1 df = Ok df1 → pd.Name c ∉ (pd.columns df1).*1 →
     table today (cols1 ++ c :: cols2) df = Raise (KeyError c)) ∧
  (∀ upstream depth path api_key zip_code w fields items e,
     stale today path (store w) →
     json (upstream (length (requests w))
             (rental_request api_key zip_code)) = Some (VDict fields) →
     dict_get "properties" fields = Some (VList items) →
     items ≠ [] →
     pd.DataFrame_of (VList items)
       ≫= table today rental_cols_to_expand = Raise e →
     gen_rental_data today upstream (S depth) path api_key zip_code w
     = (Raise e,
        mkWorld (store w) (rental_request api_key zip_code :: requests w)
          (stdout w) (puts w))) ∧
  (∀ upstream depth path api_key zip_code w fields items e,
     stale today path (store w) →
     json (upstream (length (requests w))
             (sales_request api_key zip_code)) = Some (VDict fields) →
     dict_get "properties" fields = Some (VList items) →
     items ≠ [] →
     pd.DataFrame_of (VList items)
       ≫= table today sales_cols_to_expand = Raise e →
     gen_sales_data today upstream (S depth) path api_key zip_code w
     = (Raise e,
        mkWorld (store w) (sales_request api_key zip_code :: requests w)
          (stdout w) (puts w))).
Proof.
  split_and!.
  - intros cols df df' i k v. apply expand_all_subfields.
  - apply example_record.
  - apply DataFrame_of_labels.
  - apply table_needs_columns.
  - apply table_missing.
  - intros upstream depth path api_key zip_code w fields items e ?????.
    rewrite gen_rental_data_acquire.
    by apply (acquire_table_raises today upstream rental) with fields items.
  - intros upstream depth path api_key zip_code w fields items e ?????.
    rewrite gen_sales_data_acquire.
    by apply (acquire_table_raises today upstream sale) with fields items.
Qed.

Lemma flattening_correct_witness :
  (∃ df, pd.DataFrame_of (VList [listing_without_lot; listing])
           ≫= table "2020-06-01" rental_cols_to_expand = Ok df ∧
         has_cell df (pd.Name "city") 0 (VStr "X") ∧
         reads df "building_size_size" 0 (num 1200) ∧
         reads df "price_per_sqft" 0 (VNum (Float.Fin 200)) ∧
         reads df "price_per_beds" 0 (VNum (Float.Fin 80000)) ∧
         reads df "price_per_bath" 0 (VNum (Float.Fin 120000))) ∧
  table "2020-06-01" rental_cols_to_expand
    (pd.of_rows [pd.Series listing_without_lot])
  = Raise (KeyError "lot_size").
Proof.
  destruct (flattening_correct "2020-06-01")
    as (_ & Hex & _ & _ & Hmiss & _).
  split.
  - destruct (pd.DataFrame_of (VList [listing_without_lot; listing])
                ≫= table "2020-06-01" rental_cols_to_expand)
      as [df| |] eqn:Ht; [|vm_compute in Ht; discriminate Ht..].
    exists df. split; [reflexivity|].
    apply (Hex rental_cols_to_expand [listing_without_lot; listing] 0%nat df);
      [left|reflexivity|exact Ht].
  - destruct (expand_all ["address"]
                (pd.of_rows [pd.Series listing_without_lot]))
      as [df1| |] eqn:He; [|vm_compute in He; discriminate He..].
    apply (Hmiss ["address"] "lot_size" ["building_size"] _ df1 He).
    vm_compute in He. injection He as <-.
    apply (bool_decide_unpack _). vm_compute. exact I.
Defined.






(** The tables the acquisitions put have their three KPI columns. *)
Lemma kpi_numeric name num den df df' :
  kpi name num den df = Ok df' →
  ∃ xs, numeric_column name df' xs.
Proof.
  unfold kpi, pd.div. intros H.
  destruct (pd.getitem (pd.Name num) df) as [a| |]; simplify_eq/=.
  destruct (pd.getitem (pd.Name den) df) as [b| |]; simplify_eq/=.
  destruct (pd.floats a) as [xs|]; simplify_eq/=.
  destruct (pd.floats b) as [ys|]; simplify_eq/=.
  exists (zip_with Float.div xs ys), (quotients xs ys). split.
  - by eapply setitem_getitem.
  - apply floats_quotients.
Qed.

Lemma get_kpis_ready df df' : get_kpis df = Ok df' → kpi_ready df'.
Proof.
  unfold get_kpis.
  destruct (kpi "price_per_sqft" _ _ df) as [df1| |] eqn:H1; try done.
  cbn [mbind result_bind].
  destruct (kpi "price_per_beds" _ _ df1) as [df2| |] eqn:H2; try done.
  cbn [mbind result_bind]. intros H3.
  destruct (kpi_numeric _ _ _ _ _ H1) as [xs1 Hn1].
  destruct (kpi_numeric _ _ _ _ _ H2) as [xs2 Hn2].
  destruct (kpi_numeric _ _ _ _ _ H3) as [xs3 Hn3].
  apply kpi_inv in H2 as (q2 & H2), H3 as (q3 & H3).
  intros n Hn.
  apply elem_of_cons in Hn as [->|Hn].
  { exists xs1. eapply numeric_column_setitem; [exact H3|done|].
    by eapply numeric_column_setitem. }
  apply elem_of_cons in Hn as [->|Hn].
  { exists xs2. by eapply numeric_column_setitem. }
  apply list_elem_of_singleton in Hn as ->. by exists xs3.
Qed.

Lemma acquisitions_keep_kpi_ready (today : string)
    (upstream : nat → request → response) (k : kind)
    (depth : nat) (path api_key zip_code : string) (w : World) :
  (∀ p df, store w !! p = Some df → kpi_ready df) →
  ∀ p df,
    store (acquire today upstream k depth path api_key zip_code w).2 !! p
      = Some df →
    kpi_ready df.
Proof.
  intros Hok.
  pose proof (acquire_store today upstream k depth path api_key zip_code w)
    as Hw.
  destruct (acquire _ _ _ _ _ _ _ _) as [r w']. cbn [snd].
  destruct Hw as [[-> _]|(df0 & df1 & Ht & _ & _ & -> & _)]; [done|].
  intros p df. destruct (decide (path = p)) as [->|Hne].
  - rewrite lookup_insert_eq. intros [= <-]. unfold table in Ht.
    destruct (expand_all _ df0) as [d1| |]; try done.
    cbn [mbind result_bind] in Ht.
    destruct (pd.setitem _ _ d1) as [d2| |]; try done.
    by eapply get_kpis_ready.
  - rewrite lookup_insert_ne by done. apply Hok.
Qed.

(** C8. A zip code whose rental dataset or sale dataset is not in the
    store gets no entry in the ranking and raises nothing: [analyze]
    prints a line for the missing dataset and goes on. Every other
    configured zip code is processed and ranked: its counts and median
    KPIs are printed, it has an entry with
    ratio = median(rental price_per_sqft) / median(sale price_per_sqft),
    and the entries are sorted by ratio, largest first, NaN last. The
    datasets that are read must have their KPI columns, as every table put
    by an acquisition has ([acquisitions_keep_kpi_ready]). *)
Theorem missing_datasets_are_skipped (st : gmap string pd.DataFrame) :
  (∀ z rental_df sales_df, z ∈ ZIP_CODES →
     st !! rental_fname z = Some rental_df →
     st !! sales_fname z = Some sales_df →
     kpi_ready rental_df ∧ kpi_ready sales_df) →
  ∃ out t, analyze st = Ok (out, t) ∧
    (∀ z, z ∈ t.*1 ↔
       z ∈ ZIP_CODES ∧ is_Some (st !! rental_fname z) ∧
       is_Some (st !! sales_fname z)) ∧
    (∀ z, z ∈ ZIP_CODES → st !! rental_fname z = None → NoRentals z ∈ out) ∧
    (∀ z, z ∈ ZIP_CODES → st !! sales_fname z = None → NoSales z ∈ out) ∧
    (∀ z r, (z, r) ∈ t →
       ∃ rental_df sales_df rs ss,
         st !! rental_fname z = Some rental_df ∧
         st !! sales_fname z = Some sales_df ∧
         numeric_column "price_per_sqft" rental_df rs ∧
         numeric_column "price_per_sqft" sales_df ss ∧
         r = Float.div (pd.nanmedian rs) (pd.nanmedian ss)) ∧
    (∀ z rental_df sales_df, z ∈ ZIP_CODES →
       st !! rental_fname z = Some rental_df →
       st !! sales_fname z = Some sales_df →
       ∃ rk sk,
         medians kpi_names rental_df = Ok rk ∧
         medians kpi_names sales_df = Ok sk ∧
         Counts (pd.len rental_df) (pd.len sales_df) ∈ out ∧
         KpiData z rk sk ∈ out) ∧
    StronglySorted precedes t.
Proof.
  intros Hready.
  destruct (analyze_loop_total ZIP_CODES st [] [] Hready) as (d & out & Hl).
  exists out, (pd.sort_values_desc d). unfold analyze. rewrite Hl.
  split; [done|]. split_and!.
  - intros z. rewrite sort_values_desc_perm.
    rewrite (analyze_loop_keys _ _ _ _ _ _ Hl z).
    split; [intros [[]%elem_of_nil|?]; done|by right].
  - by destruct (analyze_loop_out _ _ _ _ _ _ Hl) as (_ & ? & ?).
  - by destruct (analyze_loop_out _ _ _ _ _ _ Hl) as (_ & ? & ?).
  - intros z r Hin. rewrite sort_values_desc_perm in Hin.
    destruct (analyze_loop_entries _ _ _ _ _ _ Hl z r Hin)
      as [[]%elem_of_nil|[Hz (rdf & sdf & Hr & Hs & Hx)]].
    destruct (ratio_inv _ _ _ Hx) as (rs & ss & ? & ? & ?).
    by exists rdf, sdf, rs, ss.
  - by apply (analyze_loop_summaries _ _ _ _ _ _ Hl).
  - apply sort_values_desc_sorted.
Qed.

Lemma missing_datasets_are_skipped_witness :
  ∃ out t, analyze mixed_store = Ok (out, t) ∧
           t = [("55806", Float.Fin 3); ("53711", Float.Fin 2);
                ("55414", Float.Fin 1); ("53202", Float.NaN)] ∧
           NoRentals "53545" ∈ out ∧
           StronglySorted precedes t.
Proof.
  destruct (missing_datasets_are_skipped mixed_store)
    as (out & t & Ha & _ & Hr & _ & _ & _ & Hs).
  - intros z rdf sdf Hz Hr Hs.
    repeat (apply elem_of_cons in Hz as [->|Hz];
      [vm_compute in Hr; vm_compute in Hs;
       lazymatch type of Hr with
       | None = _ => discriminate Hr
       | _ =>
           injection Hr as <-; injection Hs as <-;
           split; intros n Hn;
           repeat (apply elem_of_cons in Hn as [->|Hn];
                   [eexists; eexists; split; reflexivity|]);
           apply elem_of_nil in Hn; destruct Hn
       end|]).
    clear Hr Hs. apply elem_of_nil in Hz. destruct Hz.
  - exists out, t. split; [exact Ha|]. split_and!.
    + vm_compute in Ha. injection Ha as _ <-. reflexivity.
    + apply Hr; [do 2 right; left|vm_compute; reflexivity].
    + exact Hs.
Defined.

(** C5 (counterexample). With the same rental and the same property for
    sale in every configured zip code all five ratios are 2: the table
    lists the zip codes in the order of [ZIP_CODES], 55414 before 53711,
    not in their natural order. *)
Lemma ties_by_zip_counterexample :
  ∃ out t, analyze even_store = Ok (out, t) ∧
    t = [("55414", Float.Fin 2); ("53711", Float.Fin 2);
         ("53545", Float.Fin 2); ("53202", Float.Fin 2);
         ("55806", Float.Fin 2)] ∧
    ¬ ties_by_zip t.
Proof.
  eexists _, _. split_and!; [vm_compute; reflexivity|reflexivity|].
  intros H.
  specialize (H 0%nat 1%nat _ _ ltac:(lia) eq_refl eq_refl eq_refl).
  vm_compute in H. discriminate H.
Qed.

(** The older sort reverses the ties instead: 55806 comes first. *)
Remark ties_by_zip_legacy :
  ¬ ties_by_zip (sort_values_desc_legacy ((λ z, (z, Float.Fin 2)) <$> ZIP_CODES)).
Proof.
  intros H.
  specialize (H 0%nat 1%nat _ _ ltac:(lia) eq_refl eq_refl eq_refl).
  vm_compute in H. discriminate H.
Qed.

(** C5 (amended). The table of [analyze] has one entry for each
    configured zip code that has both datasets, with
    ratio = median(rental price_per_sqft) / median(sale price_per_sqft),
    and it is sorted by ratio, largest first, the undefined (NaN) ratios
    last. Equal ratios are not ordered by zip code: the sort compares the
    ratios only. *)
Theorem ranking_sorted_by_ratio
    (st : gmap string pd.DataFrame) (out : list line)
    (t : list (string * Float.t)) :
  analyze st = Ok (out, t) →
  (∀ z r, (z, r) ∈ t →
     z ∈ ZIP_CODES ∧
     ∃ rental_df sales_df rs ss,
       st !! rental_fname z = Some rental_df ∧
       st !! sales_fname z = Some sales_df ∧
       numeric_column "price_per_sqft" rental_df rs ∧
       numeric_column "price_per_sqft" sales_df ss ∧
       r = Float.div (pd.nanmedian rs) (pd.nanmedian ss)) ∧
  (∀ z, z ∈ t.*1 ↔
     z ∈ ZIP_CODES ∧ is_Some (st !! rental_fname z) ∧
     is_Some (st !! sales_fname z)) ∧
  StronglySorted precedes t.
Proof.
  unfold analyze. intros H.
  destruct (analyze_loop ZIP_CODES st [] []) as [[d out']| |] eqn:Hl;
    [|discriminate H..].
  cbn [mbind result_bind] in H. injection H as <- <-.
  split_and!.
  - intros z r Hin. rewrite sort_values_desc_perm in Hin.
    destruct (analyze_loop_entries _ _ _ _ _ _ Hl z r Hin)
      as [[]%elem_of_nil|[Hz (rdf & sdf & Hr & Hs & Hx)]].
    split; [done|].
    destruct (ratio_inv _ _ _ Hx) as (rs & ss & ? & ? & ?).
    by exists rdf, sdf, rs, ss.
  - intros z. rewrite sort_values_desc_perm.
    rewrite (analyze_loop_keys _ _ _ _ _ _ Hl z).
  split; [intros [[]%elem_of_nil|?]; done|by right].
  - apply sort_values_desc_sorted.
Qed.

Lemma ranking_sorted_by_ratio_witness :
  ∃ out t, analyze mixed_store = Ok (out, t) ∧
           t = [("55806", Float.Fin 3); ("53711", Float.Fin 2);
                ("55414", Float.Fin 1); ("53202", Float.NaN)] ∧
           StronglySorted precedes t ∧
           ∀ z, z ∈ t.*1 → z ∈ ZIP_CODES.
Proof.
  destruct (analyze mixed_store) as [[out t]| |] eqn:Ha;
    [|vm_compute in Ha; discriminate Ha..].
  destruct (ranking_sorted_by_ratio mixed_store out t Ha) as (_ & Hk & Hs).
  exists out, t. split; [reflexivity|]. split_and!.
  - vm_compute in Ha. injection Ha as _ <-. reflexivity.
  - exact Hs.
  - intros z Hz. apply Hk in Hz as [Hz _]. exact Hz.
Defined.

(** * Further properties of the code *)

(** ** Acquisition *)

Section acquire_more.
Variable today : string.
Variable upstream : nat → request → response.
Implicit Types (k : kind) (w : World) (df : pd.DataFrame).

Lemma acquire_check_raises k depth path api_key zip_code w e :
  check_run_today path (store w) = Raise e →
  acquire today upstream k (S depth) path api_key zip_code w = (Raise e, w).
Proof. intros H. simpl. by rewrite H. Qed.

Lemma replicate_snoc {A} (n : nat) (x : A) (l : list A) :
  replicate n x ++ x :: l = replicate (S n) x ++ l.
Proof. induction n as [|n IH]; simpl; [done|]. by rewrite IH. Qed.

(** A call sends the request of its kind, at most once per frame. *)
Lemma acquire_requests k depth path api_key zip_code w :
  ∃ n, (n ≤ depth)%nat ∧
    requests (acquire today upstream k depth path api_key zip_code w).2
    = replicate n (request_of k api_key zip_code) ++ requests w.
Proof.
  revert w. induction depth as [|depth IH]; intros w.
  { exists 0%nat. split; [lia|done]. }
  cbn [acquire].
  destruct (check_run_today _ _) as [v| |];
    [|exists 0%nat; split; [lia|done]..].
  destruct (differs_from _ _); [|exists 0%nat; split; [lia|done]].
  cbn [get].
  set (w1 := mkWorld (store w) (request_of k api_key zip_code :: requests w)
               (stdout w) (puts w)).
  assert (∃ n, (n ≤ S depth)%nat ∧
            request_of k api_key zip_code :: requests w
            = replicate n (request_of k api_key zip_code) ++ requests w)
    as Hone by (exists 1%nat; split; [lia|done]).
  assert (∀ line,
    ∃ n, (n ≤ S depth)%nat ∧
      requests (acquire today upstream k depth path api_key zip_code
                  (print line w1)).2
      = replicate n (request_of k api_key zip_code) ++ requests w) as Hretry.
  { intros line. destruct (IH (print line w1)) as (n & Hn & ->).
    exists (S n). split; [lia|]. cbn [requests print w1].
    apply replicate_snoc. }
  destruct (_ ≫= _) as [df0|[]|]; try done; try apply Hretry.
  destruct (pd.len df0 =? 0)%nat; [done|].
  by destruct (table _ _ _).
Qed.

(** A call changes the store at its own path only, and puts at most one
    artifact. *)
Lemma acquire_frame k depth path api_key zip_code w :
  let w' := (acquire today upstream k depth path api_key zip_code w).2 in
  (∀ p, p ≠ path → store w' !! p = store w !! p) ∧
  (puts w' = puts w ∨ puts w' = path :: puts w).
Proof.
  pose proof (acquire_store today upstream k depth path api_key zip_code w)
    as Hw.
  destruct (acquire _ _ _ _ _ _ _ _) as [r w']. cbn [snd].
  destruct Hw as [[-> ->]|(df0 & df & _ & _ & _ & -> & ->)].
  - split; [done|by left].
  - split; [|by right]. intros p Hp. by rewrite lookup_insert_ne.
Qed.

(** A response that is JSON but not an object, or whose [properties] is a
    scalar, ends the call with an exception the [try] does not catch. *)
Lemma acquire_uncaught k depth path api_key zip_code w :
  stale today path (store w) →
  let data := upstream (length (requests w)) (request_of k api_key zip_code) in
  let w1 := mkWorld (store w) (request_of k api_key zip_code :: requests w)
              (stdout w) (puts w) in
  (∀ v, json data = Some v → pd.is_dict v = false →
     acquire today upstream k (S depth) path api_key zip_code w
     = (Raise TypeError, w1)) ∧
  (∀ items v, json data = Some (VDict items) →
     dict_get "properties" items = Some v →
     match v with VNum _ | VStr _ | VBool _ => True | _ => False end →
     acquire today upstream k (S depth) path api_key zip_code w
     = (Raise ValueError, w1)).
Proof.
  intros (c & Hc & Hd) data w1. split.
  - intros v Hj Hv. cbn [acquire get]. rewrite Hc, Hd.
    unfold loads_properties. fold data. rewrite Hj.
    by destruct v.
  - intros items v Hj Hp Hv. cbn [acquire get]. rewrite Hc, Hd.
    unfold loads_properties. fold data. rewrite Hj, Hp.
    by destruct v.
Qed.

End acquire_more.

(** X1. An artifact at the path that has no [run_date] column, or that
    has the column and no row, stops both acquisition functions before
    any request: the [KeyError] or [IndexError] of [check_run_today] is
    not caught, the world is left as it was, and so the artifact is never
    replaced. *)
Theorem stored_artifact_must_have_run_date
    (today : string) (upstream : nat → request → response)
    (depth : nat) (path api_key zip_code : string) (w : World)
    (df : pd.DataFrame) :
  store w !! path = Some df →
  (pd.Name "run_date" ∉ (pd.columns df).*1 →
   gen_rental_data today upstream (S depth) path api_key zip_code w
     = (Raise (KeyError "run_date"), w) ∧
   gen_sales_data today upstream (S depth) path api_key zip_code w
     = (Raise (KeyError "run_date"), w)) ∧
  (pd.getitem (pd.Name "run_date") df = Ok [] →
   gen_rental_data today upstream (S depth) path api_key zip_code w
     = (Raise IndexError, w) ∧
   gen_sales_data today upstream (S depth) path api_key zip_code w
     = (Raise IndexError, w)).
Proof.
  intros Hdf. split.
  - intros Hl%getitem_missing.
    rewrite gen_rental_data_acquire, gen_sales_data_acquire.
    split; apply acquire_check_raises; unfold check_run_today;
      by rewrite Hdf, Hl.
  - intros Hg.
    rewrite gen_rental_data_acquire, gen_sales_data_acquire.
    split; apply acquire_check_raises; unfold check_run_today;
      by rewrite Hdf, Hg.
Qed.

Lemma stored_artifact_must_have_run_date_witness :
  gen_rental_data "2020-06-01" (replies [] (payload [listing])) 1
    "data/rentals_55414.csv" "key" "55414" corrupt_world
  = (Raise (KeyError "run_date"), corrupt_world).
Proof.
  destruct (stored_artifact_must_have_run_date "2020-06-01"
              (replies [] (payload [listing])) 0 "data/rentals_55414.csv"
              "key" "55414" corrupt_world flat_table eq_refl) as [H _].
  apply H. apply (bool_decide_unpack _). vm_compute. exact I.
Defined.

(** X2. A call of [gen_rental_data] or [gen_sales_data] changes the
    store at its own path at most: every other artifact is what it was,
    and at most one artifact is put. *)
Theorem acquisition_touches_its_path_only
    (today : string) (upstream : nat → request → response)
    (depth : nat) (path api_key zip_code : string) (w : World) :
  let wr := (gen_rental_data today upstream depth path api_key zip_code w).2 in
  let ws := (gen_sales_data today upstream depth path api_key zip_code w).2 in
  (∀ p, p ≠ path → store wr !! p = store w !! p) ∧
  (puts wr = puts w ∨ puts wr = path :: puts w) ∧
  (∀ p, p ≠ path → store ws !! p = store w !! p) ∧
  (puts ws = puts w ∨ puts ws = path :: puts w).
Proof.
  intros wr ws. subst wr ws.
  rewrite gen_rental_data_acquire, gen_sales_data_acquire.
  destruct (acquire_frame today upstream rental depth path api_key zip_code w).
  destruct (acquire_frame today upstream sale depth path api_key zip_code w).
  done.
Qed.

(** X3. A response that parses as JSON but is not an object (a list, a
    string, a number) raises [TypeError], and a [properties] entry that is
    a scalar raises [ValueError]: neither is caught, so there is one
    request, no retry, no error line and nothing written. *)
Theorem unexpected_json_is_not_retried
    (today : string) (upstream : nat → request → response)
    (depth : nat) (path api_key zip_code : string) (w : World) :
  stale today path (store w) →
  (∀ v, json (upstream (length (requests w))
                (rental_request api_key zip_code)) = Some v →
     pd.is_dict v = false →
     gen_rental_data today upstream (S depth) path api_key zip_code w
     = (Raise TypeError,
        mkWorld (store w) (rental_request api_key zip_code :: requests w)
          (stdout w) (puts w))) ∧
  (∀ v, json (upstream (length (requests w))
                (sales_request api_key zip_code)) = Some v →
     pd.is_dict v = false →
     gen_sales_data today upstream (S depth) path api_key zip_code w
     = (Raise TypeError,
        mkWorld (store w) (sales_request api_key zip_code :: requests w)
          (stdout w) (puts w))) ∧
  (∀ items v,
     json (upstream (length (requests w))
             (rental_request api_key zip_code)) = Some (VDict items) →
     dict_get "properties" items = Some v →
     match v with VNum _ | VStr _ | VBool _ => True | _ => False end →
     gen_rental_data today upstream (S depth) path api_key zip_code w
     = (Raise ValueError,
        mkWorld (store w) (rental_request api_key zip_code :: requests w)
          (stdout w) (puts w))) ∧
  (∀ items v,
     json (upstream (length (requests w))
             (sales_request api_key zip_code)) = Some (VDict items) →
     dict_get "properties" items = Some v →
     match v with VNum _ | VStr _ | VBool _ => True | _ => False end →
     gen_sales_data today upstream (S depth) path api_key zip_code w
     = (Raise ValueError,
        mkWorld (store w) (sales_request api_key zip_code :: requests w)
          (stdout w) (puts w))).
Proof.
  intros Hst.
  destruct (acquire_uncaught today upstream rental depth path api_key
              zip_code w Hst) as [Hr1 Hr2].
  destruct (acquire_uncaught today upstream sale depth path api_key
              zip_code w Hst) as [Hs1 Hs2].
  split_and!.
  - intros v Hj Hv. rewrite gen_rental_data_acquire. by apply (Hr1 v).
  - intros v Hj Hv. rewrite gen_sales_data_acquire. by apply (Hs1 v).
  - intros items v Hj Hp Hv. rewrite gen_rental_data_acquire.
    by apply (Hr2 items v).
  - intros items v Hj Hp Hv. rewrite gen_sales_data_acquire.
    by apply (Hs2 items v).
Qed.

Lemma unexpected_json_is_not_retried_witness :
  let up := replies [] (mkResponse "[]" (Some (VList []))) in
  gen_rental_data "2020-06-01" up 1000 "data/rentals_55414.csv" "key"
    "55414" w0
  = (Raise TypeError, mkWorld ∅ [rental_request "key" "55414"] [] []).
Proof.
  intros up.
  assert (stale "2020-06-01" "data/rentals_55414.csv" (store w0)) as Hst.
  { exists (VBool false). split; reflexivity. }
  destruct (unexpected_json_is_not_retried "2020-06-01" up 999
              "data/rentals_55414.csv" "key" "55414" w0 Hst) as [H _].
  exact (H (VList []) eq_refl eq_refl).
Defined.

(** X4. Every request a call sends is the request of its own kind for
    its own zip code and key — [gen_rental_data] never queries the sale
    endpoint, nor the other way round — and a call sends at most as many
    requests as it has frames. *)
Theorem acquisition_requests
    (today : string) (upstream : nat → request → response)
    (depth : nat) (path api_key zip_code : string) (w : World) :
  (∃ n, (n ≤ depth)%nat ∧
     requests (gen_rental_data today upstream depth path api_key zip_code w).2
     = replicate n (rental_request api_key zip_code) ++ requests w) ∧
  (∃ n, (n ≤ depth)%nat ∧
     requests (gen_sales_data today upstream depth path api_key zip_code w).2
     = replicate n (sales_request api_key zip_code) ++ requests w).
Proof.
  rewrite gen_rental_data_acquire, gen_sales_data_acquire. split.
  - apply (acquire_requests today upstream rental).
  - apply (acquire_requests today upstream sale).
Qed.

(** X5. When every response is malformed the call uses up its frames:
    it ends with [RecursionError] after one request and one error line per
    frame, and the store and the list of puts are what they were. *)
Theorem persistent_malformed_response
    (today : string) (upstream : nat → request → response)
    (depth : nat) (path api_key zip_code : string) (w : World) :
  stale today path (store w) →
  ((∀ i, (i < depth)%nat →
      malformed (upstream (length (requests w) + i)
                   (rental_request api_key zip_code)) = true) →
   ∃ w', gen_rental_data today upstream depth path api_key zip_code w
         = (Raise RecursionError, w') ∧
         store w' = store w ∧ puts w' = puts w ∧
         requests w'
         = replicate depth (rental_request api_key zip_code) ++ requests w ∧
         length (stdout w') = (depth + length (stdout w))%nat) ∧
  ((∀ i, (i < depth)%nat →
      malformed (upstream (length (requests w) + i)
                   (sales_request api_key zip_code)) = true) →
   ∃ w', gen_sales_data today upstream depth path api_key zip_code w
         = (Raise RecursionError, w') ∧
         store w' = store w ∧ puts w' = puts w ∧
         requests w'
         = replicate depth (sales_request api_key zip_code) ++ requests w ∧
         length (stdout w') = (depth + length (stdout w))%nat).
Proof.
  intros Hst. split; intros Hm.
  - exists (failed_rounds upstream (rental_request api_key zip_code) depth w).
    rewrite gen_rental_data_acquire.
    rewrite <- (Nat.add_0_r depth) at 1.
    rewrite (acquire_retries today upstream rental depth) by done.
    split_and!; [done|apply failed_rounds_store|apply failed_rounds_puts
                |apply failed_rounds_requests|].
    rewrite failed_rounds_lines, length_app, length_reverse, length_fmap,
      length_seq. done.
  - exists (failed_rounds upstream (sales_request api_key zip_code) depth w).
    rewrite gen_sales_data_acquire.
    rewrite <- (Nat.add_0_r depth) at 1.
    rewrite (acquire_retries today upstream sale depth) by done.
    split_and!; [done|apply failed_rounds_store|apply failed_rounds_puts
                |apply failed_rounds_requests|].
    rewrite failed_rounds_lines, length_app, length_reverse, length_fmap,
      length_seq. done.
Qed.

Lemma persistent_malformed_response_witness :
  ∃ w', gen_rental_data "2020-06-01" (replies [] bad_gateway) 3
          "data/rentals_55414.csv" "key" "55414" w0
        = (Raise RecursionError, w') ∧
        store w' = ∅ ∧ length (requests w') = 3%nat.
Proof.
  assert (stale "2020-06-01" "data/rentals_55414.csv" (store w0)) as Hst.
  { exists (VBool false). split; reflexivity. }
  destruct (persistent_malformed_response "2020-06-01"
              (replies [] bad_gateway) 3 "data/rentals_55414.csv" "key"
              "55414" w0 Hst) as [H _].
  destruct H as (w' & Hw & Hs & _ & Hr & _); [intros i _; reflexivity|].
  exists w'. split_and!; [exact Hw|exact Hs|by rewrite Hr].
Defined.

(** ** The written table *)

Section table_more.
Variable today : string.
Variable upstream : nat → request → response.
Implicit Types (k : kind) (w : World) (df : pd.DataFrame).

Lemma cons_ne_self {A} (x : A) (l : list A) : l ≠ x :: l.
Proof. intros H%(f_equal length). simpl in H. lia. Qed.

(** What a call that fetched a list of listings and put an artifact has
    put. *)
Lemma acquire_written k depth path api_key zip_code w fields items :
  stale today path (store w) →
  json (upstream (length (requests w)) (request_of k api_key zip_code))
    = Some (VDict fields) →
  dict_get "properties" fields = Some (VList items) →
  let w' := (acquire today upstream k (S depth) path api_key zip_code w).2 in
  puts w' = path :: puts w →
  ∃ df, store w' !! path = Some df ∧
        pd.len df = length items ∧
        pd.getitem (pd.Name "run_date") df
        = Ok (replicate (length items) (VStr today)).
Proof.
  intros (c & Hc & Hd) Hj Hp. cbv zeta. cbn [acquire get]. rewrite Hc, Hd.
  unfold loads_properties. rewrite Hj, Hp. cbn [mbind result_bind].
  cbn [pd.DataFrame_of].
  destruct (forallb pd.is_dict items);
    [|intros Hput; by apply cons_ne_self in Hput].
  set (df0 := pd.of_rows (pd.Series <$> items)).
  assert (pd.len df0 = length items) as Hdf
    by (unfold df0; simpl; by rewrite length_fmap).
  destruct (pd.len df0 =? 0)%nat;
    [intros Hput; by apply cons_ne_self in Hput|].
  destruct (table today (cols_to_expand k) df0) as [df| |] eqn:Ht;
    [|intros Hput; by apply cons_ne_self in Hput..].
  intros _. exists df. cbn [snd store print put].
  rewrite lookup_insert_eq.
  destruct (table_run_date _ _ _ _ Ht) as [Hlen Hg].
  split_and!; [done|congruence|]. rewrite Hg. do 2 f_equal. congruence.
Qed.

Lemma setitem_same l col df :
  pd.getitem l df = Ok col → pd.setitem l col df = Ok df.
Proof.
  intros Hg%getitem_inv. unfold pd.setitem. rewrite Hg.
  destruct df as [n cols]. simpl in *. do 2 f_equal.
  rewrite <- (list_fmap_id cols) at 2. apply list_fmap_ext.
  intros i c Hc. simpl. case_bool_decide as Hl; [|done].
  assert (c ∈ filter (λ c, c.1 = l) cols) as Hin.
  { apply list_elem_of_filter. split; [done|].
    by eapply list_elem_of_lookup_2. }
  rewrite Hg in Hin. by apply list_elem_of_singleton in Hin.
Qed.

Lemma kpi_fixed name num den df a b q :
  pd.getitem (pd.Name num) df = Ok a →
  pd.getitem (pd.Name den) df = Ok b →
  pd.div a b = Ok q →
  pd.getitem (pd.Name name) df = Ok q →
  kpi name num den df = Ok df.
Proof.
  intros Ha Hb Hq Hn. unfold kpi. rewrite Ha. cbn [mbind result_bind].
  rewrite Hb. cbn [mbind result_bind]. rewrite Hq. cbn [mbind result_bind].
  by apply setitem_same.
Qed.

Lemma get_kpis_frame df df' l :
  get_kpis df = Ok df' → l ∉ kpi_labels →
  pd.getitem l df' = pd.getitem l df.
Proof.
  unfold get_kpis.
  destruct (kpi "price_per_sqft" _ _ df) as [df1| |] eqn:H1; try done.
  cbn [mbind result_bind].
  destruct (kpi "price_per_beds" _ _ df1) as [df2| |] eqn:H2; try done.
  cbn [mbind result_bind]. intros H3 Hl.
  apply kpi_inv in H1 as (q1 & H1), H2 as (q2 & H2), H3 as (q3 & H3).
  assert (l ≠ pd.Name "price_per_sqft" ∧ l ≠ pd.Name "price_per_beds" ∧
          l ≠ pd.Name "price_per_bath") as (? & ? & ?).
  { unfold kpi_labels, kpi_names in Hl. rewrite !fmap_cons in Hl.
    rewrite !not_elem_of_cons in Hl. naive_solver. }
  rewrite (setitem_getitem_ne _ _ _ _ _ H3) by done.
  rewrite (setitem_getitem_ne _ _ _ _ _ H2) by done.
  by rewrite (setitem_getitem_ne _ _ _ _ _ H1).
Qed.

(** Computing the KPIs a second time changes nothing. *)
Lemma get_kpis_again df df' : get_kpis df = Ok df' → get_kpis df' = Ok df'.
Proof.
  unfold get_kpis.
  destruct (kpi "price_per_sqft" _ _ df) as [df1| |] eqn:H1; try done.
  cbn [mbind result_bind].
  destruct (kpi "price_per_beds" _ _ df1) as [df2| |] eqn:H2; try done.
  cbn [mbind result_bind]. intros H3.
  apply kpi_parts in H1 as (a1 & b1 & q1 & Ha1 & Hb1 & Hq1 & H1).
  apply kpi_parts in H2 as (a2 & b2 & q2 & Ha2 & Hb2 & Hq2 & H2).
  apply kpi_parts in H3 as (a3 & b3 & q3 & Ha3 & Hb3 & Hq3 & H3).
  assert (kpi "price_per_sqft" "price" "building_size_size" df' = Ok df')
    as ->.
  { apply (kpi_fixed _ _ _ _ a1 b1 q1); [| |done|].
    - rewrite (setitem_getitem_ne _ _ _ _ _ H3) by done.
      rewrite (setitem_getitem_ne _ _ _ _ _ H2) by done.
      by rewrite (setitem_getitem_ne _ _ _ _ _ H1).
    - rewrite (setitem_getitem_ne _ _ _ _ _ H3) by done.
      rewrite (setitem_getitem_ne _ _ _ _ _ H2) by done.
      by rewrite (setitem_getitem_ne _ _ _ _ _ H1).
    - rewrite (setitem_getitem_ne _ _ _ _ _ H3) by done.
      rewrite (setitem_getitem_ne _ _ _ _ _ H2) by done.
      by eapply setitem_getitem. }
  cbn [mbind result_bind].
  assert (kpi "price_per_beds" "price" "beds" df' = Ok df') as ->.
  { apply (kpi_fixed _ _ _ _ a2 b2 q2); [| |done|].
    - rewrite (setitem_getitem_ne _ _ _ _ _ H3) by done.
      by rewrite (setitem_getitem_ne _ _ _ _ _ H2).
    - rewrite (setitem_getitem_ne _ _ _ _ _ H3) by done.
      by rewrite (setitem_getitem_ne _ _ _ _ _ H2).
    - rewrite (setitem_getitem_ne _ _ _ _ _ H3) by done.
      by eapply setitem_getitem. }
  cbn [mbind result_bind].
  apply (kpi_fixed _ _ _ _ a3 b3 q3); [| |done|].
  - by rewrite (setitem_getitem_ne _ _ _ _ _ H3).
  - by rewrite (setitem_getitem_ne _ _ _ _ _ H3).
  - by eapply setitem_getitem.
Qed.

End table_more.

(** X6. A call that fetched a list of listings and put an artifact has put
    a table with one record per listing, each stamped with the date of the
    day in [run_date]. *)
Theorem written_artifact_rows_and_date
    (today : string) (upstream : nat → request → response)
    (depth : nat) (path api_key zip_code : string) (w : World)
    (fields : list (string * value)) (items : list value) :
  stale today path (store w) →
  dict_get "properties" fields = Some (VList items) →
  (json (upstream (length (requests w)) (rental_request api_key zip_code))
     = Some (VDict fields) →
   let w' :=
     (gen_rental_data today upstream (S depth) path api_key zip_code w).2 in
   puts w' = path :: puts w →
   ∃ df, store w' !! path = Some df ∧ pd.len df = length items ∧
         pd.getitem (pd.Name "run_date") df
         = Ok (replicate (length items) (VStr today))) ∧
  (json (upstream (length (requests w)) (sales_request api_key zip_code))
     = Some (VDict fields) →
   let w' :=
     (gen_sales_data today upstream (S depth) path api_key zip_code w).2 in
   puts w' = path :: puts w →
   ∃ df, store w' !! path = Some df ∧ pd.len df = length items ∧
         pd.getitem (pd.Name "run_date") df
         = Ok (replicate (length items) (VStr today))).
Proof.
  intros Hst Hp. split; intros Hj.
  - rewrite gen_rental_data_acquire.
    by apply (acquire_written today upstream rental _ _ _ _ _ fields).
  - rewrite gen_sales_data_acquire.
    by apply (acquire_written today upstream sale _ _ _ _ _ fields).
Qed.

Lemma written_artifact_rows_and_date_witness :
  let w' := (gen_rental_data "2020-06-01"
               (replies [] (payload listings_with_zero_area)) 1
               "data/rentals_55414.csv" "key" "55414" w0).2 in
  ∃ df, store w' !! "data/rentals_55414.csv" = Some df ∧
        pd.len df = 3%nat ∧
        pd.getitem (pd.Name "run_date") df
        = Ok (replicate 3 (VStr "2020-06-01")).
Proof.
  assert (stale "2020-06-01" "data/rentals_55414.csv" (store w0)) as Hst.
  { exists (VBool false). split; reflexivity. }
  destruct (written_artifact_rows_and_date "2020-06-01"
              (replies [] (payload listings_with_zero_area)) 0
              "data/rentals_55414.csv" "key" "55414" w0
              [("properties", VList listings_with_zero_area)]
              listings_with_zero_area Hst eq_refl) as [H _].
  exact (H eq_refl eq_refl).
Defined.

(** X7. [get_kpis] adds or overwrites the three KPI columns and nothing
    else: the number of records is kept, every other column reads as
    before, and the three KPI columns of the result are numeric. *)
Theorem get_kpis_touches_kpi_columns_only (df df' : pd.DataFrame) :
  get_kpis df = Ok df' →
  pd.len df' = pd.len df ∧
  (∀ l, l ∉ kpi_labels → pd.getitem l df' = pd.getitem l df) ∧
  kpi_ready df'.
Proof.
  intros H. split_and!.
  - by apply get_kpis_inv in H as [? _].
  - intros l Hl. by eapply get_kpis_frame.
  - by eapply get_kpis_ready.
Qed.

Lemma get_kpis_touches_kpi_columns_only_witness :
  ∃ df', get_kpis flat_table = Ok df' ∧ pd.len df' = 2%nat ∧
         pd.getitem (pd.Name "beds") df' = Ok [num 0; num 2].
Proof.
  destruct (get_kpis flat_table) as [df'| |] eqn:Hk;
    [|vm_compute in Hk; discriminate Hk..].
  destruct (get_kpis_touches_kpi_columns_only flat_table df' Hk)
    as (Hlen & Hframe & _).
  exists df'. split_and!; [reflexivity|exact Hlen|].
  rewrite Hframe; [reflexivity|].
  apply (bool_decide_unpack _). vm_compute. exact I.
Defined.

(** X8. [get_kpis] is idempotent: on a table that already went through
    it, it returns the same table. *)
Theorem get_kpis_idempotent (df df' : pd.DataFrame) :
  get_kpis df = Ok df' → get_kpis df' = Ok df'.
Proof. apply get_kpis_again. Qed.

Lemma get_kpis_idempotent_witness :
  ∃ df', get_kpis flat_table = Ok df' ∧ get_kpis df' = Ok df'.
Proof.
  destruct (get_kpis flat_table) as [df'| |] eqn:Hk;
    [|vm_compute in Hk; discriminate Hk..].
  exists df'. split; [reflexivity|].
  exact (get_kpis_idempotent flat_table df' Hk).
Defined.

(** ** The shape of the table *)

Section shape_facts.
Implicit Types (l : pd.label) (df : pd.DataFrame) (s : list value).

Lemma floats_len col xs : pd.floats col = Some xs → length xs = length col.
Proof.
  revert xs. induction col as [|v col IH]; intros xs; simpl.
  - by intros [= <-].
  - destruct (as_float v); [|done].
    destruct (pd.floats col) as [ys|]; [|done]. intros [= <-].
    simpl. by rewrite (IH ys).
Qed.

Lemma of_rows_rectangular rows : rectangular (pd.of_rows rows).
Proof.
  unfold rectangular, pd.of_rows. simpl. apply Forall_fmap, Forall_forall.
  intros l _. simpl. by rewrite length_fmap.
Qed.

Lemma DataFrame_of_rectangular v df :
  pd.DataFrame_of v = Ok df → rectangular df.
Proof.
  destruct v as [| | | |[|]|items]; simpl; try done.
  - intros [= <-]. constructor.
  - intros [= <-]. constructor.
  - destruct (forallb _ _); [|done]. intros [= <-].
    apply of_rows_rectangular.
Qed.

Lemma getitem_length l df col :
  rectangular df → pd.getitem l df = Ok col → length col = pd.len df.
Proof.
  intros Hr Hg%getitem_inv.
  assert ((l, col) ∈ filter (λ c, c.1 = l) (pd.columns df)) as Hin
    by (rewrite Hg; left).
  apply list_elem_of_filter in Hin as [_ Hin].
  unfold rectangular in Hr. rewrite Forall_forall in Hr.
  by apply Hr in Hin.
Qed.

Lemma expansion_rectangular col s :
  Forall (λ c, length c.2 = length s) (pd.columns (expansion col s)).
Proof.
  pose proof (of_rows_rectangular (pd.Series <$> s)) as Hr.
  unfold rectangular in Hr. simpl in Hr. rewrite length_fmap in Hr.
  unfold expansion. case_bool_decide; [done|].
  simpl. by apply Forall_fmap.
Qed.

Lemma expand_rectangular col df df' :
  rectangular df → expand col df = Ok df' → rectangular df'.
Proof.
  intros Hr (s & Hs & Hlen & Hc)%expand_inv.
  unfold rectangular. rewrite Hc, Hlen. apply Forall_app. split.
  - unfold rectangular in Hr. rewrite Forall_forall in Hr |- *.
    intros c [_ Hin]%list_elem_of_filter. by apply Hr.
  - rewrite <- (getitem_length _ _ _ Hr Hs). apply expansion_rectangular.
Qed.

Lemma expand_all_rectangular cols df df' :
  rectangular df → expand_all cols df = Ok df' → rectangular df'.
Proof.
  revert df. induction cols as [|c cols IH]; intros df Hr; simpl.
  - by intros [= <-].
  - destruct (expand c df) as [df1| |] eqn:He; try done.
    cbn [mbind result_bind]. apply IH. by eapply expand_rectangular.
Qed.

Lemma setitem_rectangular l col df df' :
  rectangular df → length col = pd.len df →
  pd.setitem l col df = Ok df' → rectangular df'.
Proof.
  unfold rectangular, pd.setitem. intros Hr Hlen H.
  destruct (filter _ _) as [|? [|]]; simplify_eq/=.
  - apply Forall_app. split; [done|]. by constructor.
  - apply Forall_fmap. eapply Forall_impl; [exact Hr|].
    intros c Hc. simpl. by case_bool_decide.
Qed.

Lemma kpi_rectangular name num den df df' :
  rectangular df → kpi name num den df = Ok df' → rectangular df'.
Proof.
  intros Hr (a & b & q & Ha & Hb & Hq & Hs)%kpi_parts.
  eapply setitem_rectangular; [done| |done].
  unfold pd.div in Hq.
  destruct (pd.floats a) as [xs|] eqn:Hxs; [|done].
  destruct (pd.floats b) as [ys|] eqn:Hys; [|done].
  injection Hq as <-. rewrite length_zip_with.
  rewrite (floats_len _ _ Hxs), (floats_len _ _ Hys).
  rewrite (getitem_length _ _ _ Hr Ha), (getitem_length _ _ _ Hr Hb). lia.
Qed.

Lemma get_kpis_rectangular df df' :
  rectangular df → get_kpis df = Ok df' → rectangular df'.
Proof.
  intros Hr. unfold get_kpis.
  destruct (kpi "price_per_sqft" _ _ df) as [df1| |] eqn:H1; try done.
  cbn [mbind result_bind].
  destruct (kpi "price_per_beds" _ _ df1) as [df2| |] eqn:H2; try done.
  cbn [mbind result_bind]. intros H3.
  eapply kpi_rectangular; [|exact H3].
  eapply kpi_rectangular; [|exact H2].
  by eapply kpi_rectangular.
Qed.

End shape_facts.

(** X9. The table every acquisition builds is rectangular: whatever the
    listings (some without a field others have, nested objects of
    different shapes), every column of the table has one cell per
    record. *)
Theorem written_table_is_rectangular
    (today : string) (cols : list string) (data : value)
    (df0 df : pd.DataFrame) :
  pd.DataFrame_of data = Ok df0 →
  table today cols df0 = Ok df →
  rectangular df ∧ pd.len df = pd.len df0.
Proof.
  intros H0%DataFrame_of_rectangular Ht. split.
  - unfold table in Ht.
    destruct (expand_all cols df0) as [df1| |] eqn:H1; try done.
    cbn [mbind result_bind] in Ht.
    destruct (pd.setitem _ _ df1) as [df2| |] eqn:H2; try done.
    cbn [mbind result_bind] in Ht.
    eapply get_kpis_rectangular; [|exact Ht].
    eapply setitem_rectangular; [|by rewrite length_replicate|exact H2].
    by eapply expand_all_rectangular.
  - by apply table_run_date in Ht as [? _].
Qed.

Lemma written_table_is_rectangular_witness :
  ∃ df, table "2020-06-01" rental_cols_to_expand
          (pd.of_rows (pd.Series <$> listings_with_zero_area)) = Ok df ∧
        rectangular df ∧ pd.len df = 3%nat.
Proof.
  destruct (table "2020-06-01" rental_cols_to_expand
              (pd.of_rows (pd.Series <$> listings_with_zero_area)))
    as [df| |] eqn:Ht; [|vm_compute in Ht; discriminate Ht..].
  destruct (written_table_is_rectangular "2020-06-01" rental_cols_to_expand
              (VList listings_with_zero_area) _ df eq_refl Ht) as [Hr Hl].
  exists df. split_and!; [reflexivity|exact Hr|exact Hl].
Defined.

(** X10. In the table built from a list of listings, a field that one
    listing has and another has not is a column, with the value in the
    row of the first and the missing-value marker NaN in the row of the
    second. *)
Theorem missing_field_is_nan
    (items : list value) (df : pd.DataFrame) (i j : nat)
    (fi fj : list (string * value)) (k : string) (v : value) :
  pd.DataFrame_of (VList items) = Ok df →
  items !! i = Some (VDict fi) → dict_get k fi = None →
  items !! j = Some (VDict fj) → dict_get k fj = Some v →
  ∃ c, (pd.Name k, c) ∈ pd.columns df ∧
       c !! i = Some pd.nan ∧ c !! j = Some v.
Proof.
  simpl. destruct (forallb _ _); [|done]. intros [= <-] Hi Hki Hj Hkj.
  exists (pd.series_get (pd.Name k) <$> (pd.Series <$> items)). split_and!.
  - apply of_rows_column, list_elem_of_In, in_concat.
    exists ((pd.Series (VDict fj)).*1). split; apply list_elem_of_In.
    + apply list_elem_of_fmap_2, list_elem_of_fmap_2.
      by eapply list_elem_of_lookup_2.
    + simpl. rewrite <- list_fmap_compose.
      apply dict_get_elem_of in Hkj.
      apply list_elem_of_fmap in Hkj as ([k0 v0] & -> & Hin).
      apply list_elem_of_fmap. by exists (k0, v0).
  - rewrite !list_lookup_fmap, Hi. cbn [fmap option_fmap option_map].
    by rewrite series_get_dict, Hki.
  - rewrite !list_lookup_fmap, Hj. cbn [fmap option_fmap option_map].
    by rewrite series_get_dict, Hkj.
Qed.

Lemma missing_field_is_nan_witness :
  ∃ df c, pd.DataFrame_of (VList [listing_without_lot; listing]) = Ok df ∧
          (pd.Name "lot_size", c) ∈ pd.columns df ∧
          c !! 0%nat = Some pd.nan ∧
          c !! 1%nat = Some (VDict [("size", num 5000)]).
Proof.
  destruct (pd.DataFrame_of (VList [listing_without_lot; listing]))
    as [df| |] eqn:Hdf; [|vm_compute in Hdf; discriminate Hdf..].
  destruct (missing_field_is_nan [listing_without_lot; listing] df 0 1
              _ _ "lot_size" (VDict [("size", num 5000)]) Hdf
              eq_refl eq_refl eq_refl eq_refl) as (c & Hc & H0 & H1).
  by exists df, c.
Defined.

(** ** The analysis, once more *)

Section analyze_more.
Implicit Types (st : gmap string pd.DataFrame) (d : list (string * Float.t)).
Local Arguments medians : simpl never.
Local Arguments ratio : simpl never.

Lemma dict_set_nodup key x d : NoDup d.*1 → NoDup (dict_set key x d).*1.
Proof.
  induction d as [|[k v] d IH]; simpl.
  - intros _. apply NoDup_singleton.
  - rewrite NoDup_cons. intros [Hk Hnd].
    destruct (String.eqb_spec k key) as [->|Hne]; simpl.
    + by apply NoDup_cons.
    + apply NoDup_cons. split; [|by apply IH].
      rewrite dict_set_keys. naive_solver.
Qed.

Lemma analyze_loop_nodup zips st d out d' out' :
  NoDup d.*1 → analyze_loop zips st d out = Ok (d', out') → NoDup d'.*1.
Proof.
  revert d out. induction zips as [|zip zips IH]; intros d out Hnd; simpl.
  - by intros [= <- <-].
  - destruct (st !! rental_fname zip) as [rdf|];
      destruct (st !! sales_fname zip) as [sdf|]; try by apply IH.
    destruct (ratio rdf sdf) as [x| |]; try done. cbn [mbind result_bind].
    destruct (medians kpi_names rdf); try done. cbn [mbind result_bind].
    destruct (medians kpi_names sdf); try done. cbn [mbind result_bind].
    apply IH. by apply dict_set_nodup.
Qed.

Lemma nanmedian_all_nan xs :
  Forall (λ x, Float.isnan x = true) xs → pd.nanmedian xs = Float.NaN.
Proof.
  intros Hall. unfold pd.nanmedian, pd.dropna.
  rewrite filter_none; [done|].
  intros x Hx. rewrite Forall_forall in Hall. rewrite (Hall x Hx). done.
Qed.

Lemma reachable_kpi_ready w :
  reachable w → ∀ p df, store w !! p = Some df → kpi_ready df.
Proof.
  induction 1 as [w Hw|today upstream depth path key zip w _ IH
                 |today upstream depth path key zip w _ IH].
  - intros p df. by rewrite Hw, lookup_empty.
  - rewrite gen_rental_data_acquire.
    by apply acquisitions_keep_kpi_ready.
  - rewrite gen_sales_data_acquire.
    by apply acquisitions_keep_kpi_ready.
Qed.

End analyze_more.

(** X11. The table of [analyze] lists a zip code at most once, and has
    at most as many rows as there are configured zip codes. *)
Theorem ranking_has_no_duplicates
    (st : gmap string pd.DataFrame) (out : list line)
    (t : list (string * Float.t)) :
  analyze st = Ok (out, t) →
  NoDup t.*1 ∧ (length t ≤ length ZIP_CODES)%nat.
Proof.
  unfold analyze. intros H.
  destruct (analyze_loop ZIP_CODES st [] []) as [[d out']| |] eqn:Hl;
    [|discriminate H..].
  cbn [mbind result_bind] in H. injection H as <- <-.
  assert (NoDup (pd.sort_values_desc d).*1) as Hnd.
  { rewrite sort_values_desc_perm.
    eapply analyze_loop_nodup; [|exact Hl]. constructor. }
  split; [done|].
  rewrite <- (length_fmap fst). apply submseteq_length.
  apply NoDup_submseteq; [done|]. intros z Hz.
  rewrite sort_values_desc_perm in Hz.
  apply (analyze_loop_keys _ _ _ _ _ _ Hl z) in Hz
    as [[]%elem_of_nil|[? _]]. done.
Qed.

Lemma ranking_has_no_duplicates_witness :
  ∃ out t, analyze mixed_store = Ok (out, t) ∧
           t.*1 = ["55806"; "53711"; "55414"; "53202"] ∧
           NoDup t.*1 ∧ (length t ≤ length ZIP_CODES)%nat.
Proof.
  destruct (analyze mixed_store) as [[out t]| |] eqn:Ha;
    [|vm_compute in Ha; discriminate Ha..].
  destruct (ranking_has_no_duplicates mixed_store out t Ha) as [Hnd Hlen].
  exists out, t. split; [reflexivity|]. split_and!.
  - vm_compute in Ha. injection Ha as _ <-. reflexivity.
  - exact Hnd.
  - exact Hlen.
Defined.

(** X12. [analyze] raises nothing on a store that was filled by
    acquisitions only: whatever the two acquisition functions were called
    with and whatever the upstream answered, every table they put has
    the columns the analysis reads. *)
Theorem analyze_after_acquisitions (w : World) :
  reachable w → ∃ out t, analyze (store w) = Ok (out, t).
Proof.
  intros Hw.
  destruct (analyze_loop_total ZIP_CODES (store w) [] []) as (d & out & Hl).
  { intros z rdf sdf _ Hr Hs.
    split; by eapply reachable_kpi_ready. }
  exists out, (pd.sort_values_desc d). unfold analyze. by rewrite Hl.
Qed.

Lemma analyze_after_acquisitions_witness :
  ∃ out t,
    analyze (store (gen_sales_data "2020-06-02"
                      (replies [bad_gateway] (payload [listing])) 5
                      (sales_fname "55414") "key" "55414"
                      (gen_rental_data "2020-06-01"
                         (replies [] (payload [listing])) 1
                         (rental_fname "55414") "key" "55414" w0).2).2)
    = Ok (out, t).
Proof.
  apply analyze_after_acquisitions.
  apply reachable_sales, reachable_rental, reachable_start. reflexivity.
Defined.

(** X13. A zip code whose rental [price_per_sqft] values are all NaN
    (no listing has a floor area on record), or that has no record at
    all, gets the ratio NaN; so does one whose sale values are all NaN.
    Nothing is raised. *)
Theorem undefined_median_gives_nan_ratio
    (rental_df sales_df : pd.DataFrame) (rs ss : list Float.t) :
  numeric_column "price_per_sqft" rental_df rs →
  numeric_column "price_per_sqft" sales_df ss →
  Forall (λ x, Float.isnan x = true) rs ∨
  Forall (λ x, Float.isnan x = true) ss →
  ratio rental_df sales_df = Ok (Float.NaN).
Proof.
  intros (rc & Hrc & Hrs) (sc & Hsc & Hss) Hnan.
  unfold ratio, pd.median. rewrite Hrc. cbn [mbind result_bind].
  rewrite Hrs. cbn [mbind result_bind]. rewrite Hsc.
  cbn [mbind result_bind]. rewrite Hss. cbn [mbind result_bind].
  f_equal. destruct Hnan as [H|H]; rewrite (nanmedian_all_nan _ H).
  - done.
  - by destruct (pd.nanmedian rs).
Qed.

Lemma undefined_median_gives_nan_ratio_witness :
  ratio (pd.mkDataFrame 1 [(pd.Name "price_per_sqft", [pd.nan])])
        (pd.mkDataFrame 1 [(pd.Name "price_per_sqft", [num 2])])
  = Ok Float.NaN.
Proof.
  apply (undefined_median_gives_nan_ratio _ _ [Float.NaN] [Float.of_Z 2]).
  - eexists. split; reflexivity.
  - eexists. split; reflexivity.
  - left. repeat constructor.
Defined.

(** ** The requests and the pipeline *)

(** X14. The two requests differ in the endpoint only: they carry the
    same headers, with the caller's key under [x-rapidapi-key], and the
    same query parameters (in another order), with the zip code under
    [postal_code]. *)
Theorem requests_differ_in_endpoint_only (api_key zip_code : string) :
  url (rental_request api_key zip_code) ≠ url (sales_request api_key zip_code) ∧
  headers (rental_request api_key zip_code)
    = headers (sales_request api_key zip_code) ∧
  params (rental_request api_key zip_code)
    ≡ₚ params (sales_request api_key zip_code) ∧
  ("x-rapidapi-key", api_key) ∈ headers (rental_request api_key zip_code) ∧
  ("postal_code", zip_code) ∈ params (rental_request api_key zip_code).
Proof.
  split_and!.
  - discriminate.
  - reflexivity.
  - simpl. symmetry.
    apply (Permutation_cons_append
             [("postal_code", zip_code); ("SORT", SORT); ("RADIUS", RADIUS);
              ("limit", "200"); ("offset", "0")]
             ("prop_type", "single_family")).
  - simpl. right. left.
  - simpl. left.
Qed.

(** X15. The pipeline of [run] downloads the rentals of every configured
    zip code, pauses five seconds, downloads the properties for sale and
    analyses last; each download writes to the very path [analyze] reads
    for that zip code. *)
Theorem run_downloads_what_analyze_reads (api_key : string) :
  leaves (run api_key)
  = ((λ z, GenRentalData (rental_fname z) api_key z) <$> ZIP_CODES)
    ++ [Pause 5]
    ++ ((λ z, GenSalesData (sales_fname z) api_key z) <$> ZIP_CODES)
    ++ [Analyze].
Proof. reflexivity. Qed.
